(** * WalkerHolic: the asynchronous monitoring layer

    A shallow embedding of the three source files that make up the
    monitoring layer of the front end:

      - [front/src/pages/GaitAnalysisPage.jsx]   (module [Polling]),
      - [front/src/hooks/useFallAlert.js]         (module [FallHook]),
      - [front/src/components/common/FallAlert.jsx] with its wiring in
        [front/src/App.jsx]                       (module [FallAlertUI]).

    Around them, the code that feeds them: the guardian's number read
    by [App.jsx] (module [App]) and by the emergency button of
    [pages/MainPage.jsx] (module [MainPage]), and the profile form of
    [pages/LoginPage.jsx] that stores it (module [LoginPage]).

    React state is modelled by explicit state passing.  Timers and
    transport callbacks are events fed to a step function, and one
    event handler runs to completion before the next event is taken.
    A pending timer of the page or of the hook may fire at any moment;
    only the countdown of the alert keeps a clock.  An [async] function
    is two handlers, one up to its [await] and one from the answer on
    (module [InFlight]); [Polling.tick] and [Polling.handleStartAnalysis]
    are the two run back to back. *)

From Stdlib Require Import ZArith List String Bool Lia DecimalString.
Import ListNotations.

Open Scope string_scope.
Open Scope Z_scope.

(** ** JavaScript values as the code meets them *)

Module Js.

(** A value read from a JSON response or from [localStorage].  [Num] is a
    number with an integral value; [Frac] is a number that is not an
    integer, kept by its decimal text (it is never zero).  The fields of
    an object are kept in order; [lookup] returns the first binding. *)
#[local] Set Warnings "-register-all".
Inductive value : Type :=
| Undefined
| Null
| Bool (b : bool)
| Num (n : Z)
| Frac (text : string)
| Str (s : string)
| Arr (xs : list value)
| Obj (fields : list (string * value)).

(** [if (v)], [!v], [v || w], [v && w] *)
Definition truthy (v : value) : bool :=
  match v with
  | Undefined | Null => false
  | Bool b => b
  | Num n => negb (n =? 0)
  | Frac _ => true
  | Str s => negb (String.eqb s EmptyString)
  | Arr _ | Obj _ => true
  end.

(** [typeof v === 'object'] *)
Definition typeof_object (v : value) : bool :=
  match v with
  | Null | Arr _ | Obj _ => true
  | _ => false
  end.

(** Whether [key in v] is allowed: the right operand of [in] must be an
    object (arrays included), otherwise a [TypeError] is thrown. *)
Definition has_properties (v : value) : bool :=
  match v with
  | Arr _ | Obj _ => true
  | _ => false
  end.

Fixpoint lookup (k : string) (fs : list (string * value)) : value :=
  match fs with
  | [] => Undefined
  | (k', v) :: rest => if String.eqb k k' then v else lookup k rest
  end.

(** [v.k] on a value that is neither [null] nor [undefined]; a primitive
    or an array has none of the property names the code reads. *)
Definition get (v : value) (k : string) : value :=
  match v with
  | Obj fs => lookup k fs
  | _ => Undefined
  end.

(** [v?.k] *)
Definition opt_get (v : value) (k : string) : value :=
  match v with
  | Undefined | Null => Undefined
  | _ => get v k
  end.

(** [v || w] *)
Definition or (v w : value) : value := if truthy v then v else w.

(** [v === 'text'] *)
Definition is_str (v : value) (text : string) : bool :=
  match v with
  | Str s => String.eqb s text
  | _ => false
  end.

(** The decimal digits of an integer.  This is what JavaScript prints
    for the integers it holds exactly and prints in full, those below
    2^53 in absolute value; beyond 10^21 it prints an exponent. *)
Definition of_Z (n : Z) : string := NilZero.string_of_int (Z.to_int n).

(** [String(v)], as used by template literals and [new Error(v)]. *)
Fixpoint to_string (v : value) : string :=
  match v with
  | Undefined => "undefined"
  | Null => "null"
  | Bool true => "true"
  | Bool false => "false"
  | Num n => of_Z n
  | Frac text => text
  | Str s => s
  | Arr xs =>
      (fix join (l : list value) : string :=
         match l with
         | [] => EmptyString
         | x :: rest =>
             let here := match x with
                         | Undefined | Null => EmptyString
                         | _ => to_string x
                         end in
             match rest with
             | [] => here
             | _ :: _ => here ++ "," ++ join rest
             end
         end) xs
  | Obj _ => "[object Object]"
  end.

End Js.

(** The result of awaiting an API call of [services/api]: the promise is
    rejected with an error carrying [message], or fulfilled with the
    response body (the axios interceptor returns [response.data]). *)
Inductive Outcome : Type :=
| Throws (message : string)
| Resolves (body : Js.value).

(** ** DiagnosisPollingMonitor: [GaitAnalysisPage.jsx] *)

Module Polling.

(** [JSON.parse(localStorage.getItem('userInfo') || '{}')], read at
    render; only these three fields are used by the monitor. *)
Record UserInfo : Type := {
  name : Js.value;
  height : Js.value;
  gender : Js.value
}.

(** One [setInterval] created by [handleStartAnalysis], with the
    variables its callback closes over.  [owner] is the page instance
    whose state setters the callback holds. *)
Record Loop : Type := {
  handle : nat;
  owner : nat;
  user_name : Js.value;
  diagnosisId : Js.value;
  attempts : Z
}.

(** The [setTimeout(..., 1000)] scheduled on completion. *)
Record Done : Type := {
  done_owner : nat;
  done_name : Js.value
}.

(** The page: the React state of the mounted instance, and the browser
    state that outlives an instance (timers, alerts, console). *)
Record Page : Type := {
  instance : nat;
  isAnalyzing : bool;
  analysisProgress : Js.value;
  analysisMessage : Js.value;
  gaitData : Js.value;
  intervals : list Loop;
  timeouts : list Done;
  alerts : list string;
  warnings : list Js.value;
  nextHandle : nat
}.

Definition maxAttempts : Z := 60.

Definition indicator (id nm value description result : string) : Js.value :=
  Js.Obj [("id", Js.Str id); ("name", Js.Str nm); ("value", Js.Str value);
          ("status", Js.Str "normal"); ("description", Js.Str description);
          ("result", Js.Str result)].

Definition disease (id nm : string) (probability : Js.value) (status trend : string)
  : Js.value :=
  Js.Obj [("id", Js.Str id); ("name", Js.Str nm); ("probability", probability);
          ("status", Js.Str status); ("trend", Js.Str trend)].

(** The object given to [setGaitData] when the final result is not an
    object (lines 118-176). *)
Definition fallbackGaitData : Js.value :=
  Js.Obj
    [("score", Js.Num 85);
     ("status", Js.Str "분석 완료");
     ("riskLevel", Js.Str "정상 단계");
     ("indicators", Js.Arr
        [indicator "stride-time" "보폭 시간" "분석 완료"
           "한쪽 발이 땅에 닿은 후, 같은 발이 다시 닿을 때까지 걸리는 시간입니다."
           "분석이 완료되었습니다!";
         indicator "double-support" "양발 지지 비율" "분석 완료"
           "두 발이 동시에 땅에 닿아 있는 시간의 비율이에요."
           "분석이 완료되었습니다!";
         indicator "stride-difference" "양발 보폭 차이" "분석 완료"
           "왼발과 오른발의 걸음 길이 차이입니다."
           "분석이 완료되었습니다!";
         indicator "walking-speed" "평균 보행 속도" "분석 완료"
           "단위 시간 동안 이동한 거리입니다."
           "분석이 완료되었습니다!"]);
     ("diseases", Js.Arr
        [disease "parkinson" "파킨슨병" (Js.Frac "0.1") "정상 범위" "stable";
         disease "stroke" "뇌졸중" (Js.Frac "0.05") "정상 범위" "stable"]);
     ("detailedReport", Js.Obj
        [("title", Js.Str "분석 완료");
         ("content", Js.Str
            "보행 분석이 완료되었습니다. 자세한 결과는 백엔드 로그를 확인해주세요.")])].

(** The double-quote character, for the one literal that contains it. *)
Definition quote : string := String (Ascii.ascii_of_nat 34) EmptyString.

(** The object set by [loadGaitData] when the page is mounted. *)
Definition waitingGaitData : Js.value :=
  Js.Obj
    [("score", Js.Num 0);
     ("status", Js.Str "분석 대기 중");
     ("riskLevel", Js.Str "분석 대기 중");
     ("indicators", Js.Arr
        [indicator "stride-time" "보폭 시간" "분석 대기 중"
           "한쪽 발이 땅에 닿은 후, 같은 발이 다시 닿을 때까지 걸리는 시간입니다. 걸음 템포를 확인할 수 있어요."
           "분석을 시작해주세요!";
         indicator "double-support" "양발 지지 비율" "분석 대기 중"
           "두 발이 동시에 땅에 닿아 있는 시간의 비율이에요. 보행 균형이 불안할수록 높아집니다."
           "분석을 시작해주세요!";
         indicator "stride-difference" "양발 보폭 차이" "분석 대기 중"
           "왼발과 오른발의 걸음 길이가 얼마나 다른지를 보여줍니다. 좌우 균형 상태를 파악할 수 있어요."
           "분석을 시작해주세요!";
         indicator "walking-speed" "평균 보행 속도" "분석 대기 중"
           "단위 시간 동안 이동한 거리를 나타내는 지표입니다. 전체 활동성과 운동 능력을 확인할 수 있어요."
           "분석을 시작해주세요!"]);
     ("diseases", Js.Arr
        [disease "parkinson" "파킨슨병" (Js.Num 0) "분석 대기 중" "none";
         disease "stroke" "뇌졸중" (Js.Num 0) "분석 대기 중" "none"]);
     ("detailedReport", Js.Obj
        [("title", Js.Str "분석 대기 중");
         ("content", Js.Str
            ("보행 분석을 시작하시려면 아래 " ++ quote ++ "보행 분석 시작" ++ quote
             ++ " 버튼을 눌러주세요. AI가 사용자님의 보행 패턴을 분석하여 맞춤형 진단 결과를 제공해드립니다."))])].

(** *** Texts used by the polling callback *)

Definition msg_default : string := "분석 중...".
Definition msg_done : string := "분석이 완료되었습니다!".
Definition msg_no_result : string := "분석 결과를 받을 수 없습니다.".
Definition msg_failed : string := "분석 중 오류가 발생했습니다.".
Definition msg_timeout : string := "분석 시간이 초과되었습니다. 다시 시도해주세요.".

(** The message of the [TypeError] thrown by [key in v] when [v] is not
    an object; the text is the JavaScript engine's (here V8's). *)
Definition in_operator_error (key : string) (v : Js.value) : string :=
  "Cannot use 'in' operator to search for '" ++ key ++ "' in " ++ Js.to_string v.

(** *** Vocabulary for the responses of the status endpoint *)

(** [statusResponse?.data] *)
Definition status_of (body : Js.value) : Js.value := Js.opt_get body "data".

(** [status.progress || 0] *)
Definition reported_progress (body : Js.value) : Js.value :=
  Js.or (Js.get (status_of body) "progress") (Js.Num 0).

(** A response that carries a status which is neither ['completed'] nor
    ['failed']. *)
Definition in_progress (body : Js.value) : bool :=
  Js.truthy (status_of body)
  && negb (Js.is_str (Js.get (status_of body) "status") "completed")
  && negb (Js.is_str (Js.get (status_of body) "status") "failed").

(** A tick that returns without a terminal status. *)
Definition non_terminal (out : Outcome) : bool :=
  match out with
  | Throws _ => false
  | Resolves body => negb (Js.truthy (status_of body)) || in_progress body
  end.

(** *** State setters

    A setter obtained from [useState] acts on the instance that created
    it; React drops the update when that instance is no longer the
    mounted one.  [who] is the instance the calling closure belongs to,
    and the field keeps its value when [who] is not the mounted one. *)

Definition setIsAnalyzing (who : nat) (b : bool) (p : Page) : Page :=
  {| instance := instance p;
     isAnalyzing := if Nat.eqb who (instance p) then b else isAnalyzing p;
     analysisProgress := analysisProgress p; analysisMessage := analysisMessage p;
     gaitData := gaitData p; intervals := intervals p; timeouts := timeouts p;
     alerts := alerts p; warnings := warnings p; nextHandle := nextHandle p |}.

Definition setAnalysisProgress (who : nat) (v : Js.value) (p : Page) : Page :=
  {| instance := instance p; isAnalyzing := isAnalyzing p;
     analysisProgress := if Nat.eqb who (instance p) then v else analysisProgress p;
     analysisMessage := analysisMessage p;
     gaitData := gaitData p; intervals := intervals p; timeouts := timeouts p;
     alerts := alerts p; warnings := warnings p; nextHandle := nextHandle p |}.

Definition setAnalysisMessage (who : nat) (v : Js.value) (p : Page) : Page :=
  {| instance := instance p; isAnalyzing := isAnalyzing p;
     analysisProgress := analysisProgress p;
     analysisMessage := if Nat.eqb who (instance p) then v else analysisMessage p;
     gaitData := gaitData p; intervals := intervals p; timeouts := timeouts p;
     alerts := alerts p; warnings := warnings p; nextHandle := nextHandle p |}.

Definition setGaitData (who : nat) (v : Js.value) (p : Page) : Page :=
  {| instance := instance p; isAnalyzing := isAnalyzing p;
     analysisProgress := analysisProgress p; analysisMessage := analysisMessage p;
     gaitData := if Nat.eqb who (instance p) then v else gaitData p;
     intervals := intervals p; timeouts := timeouts p;
     alerts := alerts p; warnings := warnings p; nextHandle := nextHandle p |}.

(** *** Browser effects: these do not depend on the instance. *)

Definition with_intervals (ls : list Loop) (p : Page) : Page :=
  {| instance := instance p; isAnalyzing := isAnalyzing p;
     analysisProgress := analysisProgress p; analysisMessage := analysisMessage p;
     gaitData := gaitData p; intervals := ls; timeouts := timeouts p;
     alerts := alerts p; warnings := warnings p; nextHandle := nextHandle p |}.

Definition with_timeouts (ts : list Done) (p : Page) : Page :=
  {| instance := instance p; isAnalyzing := isAnalyzing p;
     analysisProgress := analysisProgress p; analysisMessage := analysisMessage p;
     gaitData := gaitData p; intervals := intervals p; timeouts := ts;
     alerts := alerts p; warnings := warnings p; nextHandle := nextHandle p |}.

(** [alert(text)] *)
Definition alert (text : string) (p : Page) : Page :=
  {| instance := instance p; isAnalyzing := isAnalyzing p;
     analysisProgress := analysisProgress p; analysisMessage := analysisMessage p;
     gaitData := gaitData p; intervals := intervals p; timeouts := timeouts p;
     alerts := alerts p ++ [text]; warnings := warnings p;
     nextHandle := nextHandle p |}.

(** [console.warn('... 예상치 못한 결과 데이터 구조:', v)] *)
Definition warn (v : Js.value) (p : Page) : Page :=
  {| instance := instance p; isAnalyzing := isAnalyzing p;
     analysisProgress := analysisProgress p; analysisMessage := analysisMessage p;
     gaitData := gaitData p; intervals := intervals p; timeouts := timeouts p;
     alerts := alerts p; warnings := warnings p ++ [v];
     nextHandle := nextHandle p |}.

Definition same_handle (h : nat) (l : Loop) : bool := Nat.eqb (handle l) h.

Definition find_loop (h : nat) (p : Page) : option Loop :=
  find (same_handle h) (intervals p).

(** [clearInterval(checkResult)] *)
Definition clearInterval (h : nat) (p : Page) : Page :=
  with_intervals (filter (fun l => negb (same_handle h l)) (intervals p)) p.

(** [setInterval(callback, 1000)]: a fresh handle, [attempts = 0]. *)
Definition setInterval (who : nat) (nm id : Js.value) (p : Page) : Page :=
  let l := {| handle := nextHandle p; owner := who; user_name := nm;
              diagnosisId := id; attempts := 0 |} in
  {| instance := instance p; isAnalyzing := isAnalyzing p;
     analysisProgress := analysisProgress p; analysisMessage := analysisMessage p;
     gaitData := gaitData p; intervals := intervals p ++ [l];
     timeouts := timeouts p; alerts := alerts p; warnings := warnings p;
     nextHandle := S (nextHandle p) |}.

Definition bumped (l : Loop) : Loop :=
  {| handle := handle l; owner := owner l; user_name := user_name l;
     diagnosisId := diagnosisId l; attempts := attempts l + 1 |}.

(** [attempts++] in the closure of loop [h]. *)
Definition bump (h : nat) (p : Page) : Page :=
  with_intervals
    (map (fun l => if same_handle h l then bumped l else l) (intervals p)) p.

(** [setTimeout(() => { setIsAnalyzing(false); alert(...) }, 1000)] *)
Definition setTimeout_done (who : nat) (nm : Js.value) (p : Page) : Page :=
  with_timeouts (timeouts p ++ [{| done_owner := who; done_name := nm |}]) p.

(** *** The polling callback (lines 65-209) *)

(** The text of the [alert] in the [catch] of the callback. *)
Definition polling_alert (message : string) : string :=
  "분석 중 오류가 발생했습니다: " ++ message.

(** The text of the [alert] of the completion timer. *)
Definition done_alert (nm : Js.value) : string :=
  Js.to_string nm ++ "님의 보행 분석이 완료되었습니다!".

(** How the [try] block of the callback ends. *)
Inductive Completion : Type :=
| Normal
| Thrown (message : string).

(** [finalResult]: the [data] field when the result has the
    [{success, data}] shape, the result itself otherwise. *)
Definition finalResult (result : Js.value) : Js.value :=
  if Js.truthy (Js.get result "success") && Js.truthy (Js.get result "data")
  then Js.get result "data"
  else result.

(** [finalResult && typeof finalResult === 'object'] *)
Definition usable (final : Js.value) : bool :=
  Js.truthy final && Js.typeof_object final.

(** A ['completed'] response whose result is an object. *)
Definition completed_with_result (body : Js.value) : bool :=
  Js.truthy (status_of body)
  && Js.is_str (Js.get (status_of body) "status") "completed"
  && Js.truthy (Js.get (status_of body) "result")
  && Js.has_properties (Js.get (status_of body) "result").

(** ... and whose final result is not an object. *)
Definition malformed_completion (body : Js.value) : bool :=
  completed_with_result body
  && negb (usable (finalResult (Js.get (status_of body) "result"))).

(** A ['failed'] response, and the text of the error thrown for it:
    [status.error || '분석 중 오류가 발생했습니다.'] *)
Definition server_failure (body : Js.value) : bool :=
  Js.truthy (status_of body)
  && Js.is_str (Js.get (status_of body) "status") "failed".

Definition failure_text (body : Js.value) : string :=
  Js.to_string (Js.or (Js.get (status_of body) "error") (Js.Str msg_failed)).

(** The page without what was written to the console. *)
Definition without_console (p : Page) : Page :=
  {| instance := instance p; isAnalyzing := isAnalyzing p;
     analysisProgress := analysisProgress p; analysisMessage := analysisMessage p;
     gaitData := gaitData p; intervals := intervals p; timeouts := timeouts p;
     alerts := alerts p; warnings := []; nextHandle := nextHandle p |}.

(** [case 'completed'].  The logging of lines 89-99 evaluates
    ['success' in status.result], which throws when the result is a
    primitive; the other logging calls cannot throw. *)
Definition on_completed (l : Loop) (status : Js.value) (p : Page)
  : Page * Completion :=
  let who := owner l in
  let p := clearInterval (handle l) p in
  let p := setAnalysisProgress who (Js.Num 100) p in
  let p := setAnalysisMessage who (Js.Str msg_done) p in
  let result := Js.get status "result" in
  if Js.truthy result then
    if Js.has_properties result then
      let final := finalResult result in
      let p := if usable final
               then setGaitData who final p
               else setGaitData who fallbackGaitData (warn final p) in
      (setTimeout_done who (user_name l) p, Normal)
    else (p, Thrown (in_operator_error "success" result))
  else (p, Thrown msg_no_result).

(** [if (attempts >= maxAttempts)], with [attempts] already incremented. *)
Definition check_deadline (l : Loop) (p : Page) : Page * Completion :=
  if maxAttempts <=? attempts l + 1
  then (clearInterval (handle l) p, Thrown msg_timeout)
  else (p, Normal).

(** The [try] block; [l] is the loop as it was before [attempts++]. *)
Definition try_tick (l : Loop) (out : Outcome) (p : Page) : Page * Completion :=
  let who := owner l in
  let p := bump (handle l) p in
  match out with
  | Throws message => (p, Thrown message)
  | Resolves statusResponse =>
      let status := status_of statusResponse in
      if Js.truthy status then
        let progress := Js.or (Js.get status "progress") (Js.Num 0) in
        let message := Js.or (Js.get status "message") (Js.Str msg_default) in
        let p := setAnalysisProgress who progress p in
        let p := setAnalysisMessage who message p in
        if Js.is_str (Js.get status "status") "completed" then
          on_completed l status p
        else if Js.is_str (Js.get status "status") "failed" then
          (p, Thrown (Js.to_string
                        (Js.or (Js.get status "error") (Js.Str msg_failed))))
        else check_deadline l p
      else check_deadline l p
  end.

(** The [catch] block. *)
Definition catch_tick (l : Loop) (message : string) (p : Page) : Page :=
  let p := clearInterval (handle l) p in
  let p := setIsAnalyzing (owner l) false p in
  alert (polling_alert message) p.

(** One firing of the interval with handle [h] together with the rest
    of its callback, the status query ending in [out] before anything
    else happens.  A cleared interval does not fire.  [InFlight] has the
    firing and the answer as two events. *)
Definition tick (h : nat) (out : Outcome) (p : Page) : Page :=
  match find_loop h p with
  | None => p
  | Some l =>
      match try_tick l out p with
      | (p', Normal) => p'
      | (p', Thrown message) => catch_tick l message p'
      end
  end.

(** *** [handleStartAnalysis] (lines 23-218) *)

(** The outer [catch]. *)
Definition request_failed (who : nat) (message : string) (p : Page) : Page :=
  let p := setIsAnalyzing who false p in
  let p := setAnalysisProgress who (Js.Num 0) p in
  let p := setAnalysisMessage who (Js.Str EmptyString) p in
  alert ("보행 분석 요청에 실패했습니다: " ++ message) p.

(** [request] is how [await requestLangGraphAnalysis(...)] ends; the
    handler is run here with its request answered before anything else
    happens.  [InFlight] has the two halves as two events. *)
Definition handleStartAnalysis (u : UserInfo) (request : Outcome) (p : Page) : Page :=
  let who := instance p in
  let p := setIsAnalyzing who true p in
  let p := setAnalysisProgress who (Js.Num 10) p in
  let p := setAnalysisMessage who (Js.Str "진단 요청을 보내는 중...") p in
  if negb (Js.truthy (name u)) || negb (Js.truthy (height u))
     || negb (Js.truthy (gender u))
  then setIsAnalyzing who false (alert "사용자 정보가 없습니다. 다시 로그인해주세요." p)
  else
    match request with
    | Throws message => request_failed who message p
    | Resolves diagnosisRequest =>
        let id := Js.opt_get (Js.opt_get diagnosisRequest "data") "diagnosisId" in
        if negb (Js.truthy id) then request_failed who "진단 요청에 실패했습니다." p
        else
          let p := setAnalysisProgress who (Js.Num 20) p in
          let p := setAnalysisMessage who (Js.Str "랭그래프 분석 중...") p in
          setInterval who (name u) id p
    end.

(** The start button: [onClick={handleStartAnalysis}] with
    [disabled={isAnalyzing}]. *)
Definition click_start (u : UserInfo) (request : Outcome) (p : Page) : Page :=
  if isAnalyzing p then p else handleStartAnalysis u request p.

(** The oldest pending completion timer fires (all have the same delay). *)
Definition fire_done (p : Page) : Page :=
  match timeouts p with
  | [] => p
  | d :: rest =>
      let p := with_timeouts rest p in
      let p := setIsAnalyzing (done_owner d) false p in
      alert (done_alert (done_name d)) p
  end.

(** The page is left and entered again: a new instance with fresh React
    state.  Nothing in the component clears its timers on unmount. *)
Definition remount (p : Page) : Page :=
  {| instance := S (instance p); isAnalyzing := false;
     analysisProgress := Js.Num 0; analysisMessage := Js.Str EmptyString;
     gaitData := waitingGaitData; intervals := intervals p;
     timeouts := timeouts p; alerts := alerts p; warnings := warnings p;
     nextHandle := nextHandle p |}.

Definition initial : Page :=
  {| instance := 0%nat; isAnalyzing := false;
     analysisProgress := Js.Num 0; analysisMessage := Js.Str EmptyString;
     gaitData := waitingGaitData; intervals := []; timeouts := [];
     alerts := []; warnings := []; nextHandle := 0%nat |}.

Inductive Event : Type :=
| ClickStart (u : UserInfo) (request : Outcome)
| Tick (h : nat) (out : Outcome)
| FireDone
| Remount.

Definition step (p : Page) (e : Event) : Page :=
  match e with
  | ClickStart u request => click_start u request p
  | Tick h out => tick h out p
  | FireDone => fire_done p
  | Remount => remount p
  end.

Definition run (evs : list Event) : Page := fold_left step evs initial.

(** *** Vocabulary *)

(** What the page shows of the analysis. *)
Definition display (p : Page) : bool * Js.value * Js.value * Js.value :=
  (isAnalyzing p, analysisProgress p, analysisMessage p, gaitData p).

(** [ticks h outs p]: successive firings of the interval [h]. *)
Definition ticks (h : nat) (outs : list Outcome) (p : Page) : Page :=
  fold_left (fun q out => tick h out q) outs p.

End Polling.

(** ** RealtimeAlertMonitor: [useFallAlert.js] *)

Module FallHook.

(** [import.meta.env]: a variable that is not set reads [undefined]. *)
Record Env : Type := {
  VITE_SUPABASE_URL : option string;
  VITE_SUPABASE_ANON_KEY : option string
}.

(** [!v] for an environment variable. *)
Definition unset (v : option string) : bool :=
  match v with
  | None => true
  | Some s => String.eqb s EmptyString
  end.

(** [s.includes(sub)] *)
Fixpoint includes (s sub : string) : bool :=
  String.prefix sub s ||
  match s with
  | EmptyString => false
  | String _ rest => includes rest sub
  end.

(** The two guards of lines 47-60, in order. *)
Inductive EnvCheck : Type :=
| EnvMissing
| EnvServiceRole
| EnvOk.

Definition check_env (env : Env) : EnvCheck :=
  if unset (VITE_SUPABASE_URL env) || unset (VITE_SUPABASE_ANON_KEY env)
  then EnvMissing
  else
    match VITE_SUPABASE_ANON_KEY env with
    | Some key => if includes key "service_role" then EnvServiceRole else EnvOk
    | None => EnvMissing
    end.

(** The statuses the realtime client passes to the [subscribe] callback. *)
Inductive SubscribeStatus : Type :=
| SUBSCRIBED
| TIMED_OUT
| CLOSED
| CHANNEL_ERROR.

Definition status_text (s : SubscribeStatus) : string :=
  match s with
  | SUBSCRIBED => "SUBSCRIBED"
  | TIMED_OUT => "TIMED_OUT"
  | CLOSED => "CLOSED"
  | CHANNEL_ERROR => "CHANNEL_ERROR"
  end.

(** A channel created by the effect, with the two state values its
    callbacks close over (those of the render the effect ran in). *)
Record Channel : Type := {
  chan : nat;
  seen_active : bool;
  seen_attempts : Z
}.

(** The callbacks given to [setTimeout]. *)
Inductive Timer : Type :=
| Reconnect (delay : Z) (nextAttempt : Z)
| Resume (delay : Z).

(** React state (first four fields), refs (next three), whether the last
    run of the effect returned its cleanup function, and the world:
    channels whose callbacks are registered with the client, number of
    channels created, pending timers, toasts, the console line of
    [handleEmergencyCall], [tel:] navigations and alerts. *)
Record Hook : Type := {
  isFallDetected : bool;
  isSubscriptionActive : bool;
  connectionStatus : string;
  reconnectAttempts : Z;
  reconnectTimeoutRef : option nat;
  channelRef : option nat;
  isReconnectingRef : bool;
  hasCleanup : bool;
  channels : list Channel;
  opened : nat;
  timers : list (nat * Timer);
  nextTimer : nat;
  toasts : list string;
  emergencyLog : list string;
  dialled : list string;
  alerts : list string
}.

Definition maxReconnectAttempts : Z := 3.

Definition setIsFallDetected (v : bool) (h : Hook) : Hook :=
  {| isFallDetected := v; isSubscriptionActive := isSubscriptionActive h;
     connectionStatus := connectionStatus h;
     reconnectAttempts := reconnectAttempts h;
     reconnectTimeoutRef := reconnectTimeoutRef h;
     channelRef := channelRef h;
     isReconnectingRef := isReconnectingRef h;
     hasCleanup := hasCleanup h; channels := channels h;
     opened := opened h; timers := timers h; nextTimer := nextTimer h;
     toasts := toasts h; emergencyLog := emergencyLog h;
     dialled := dialled h; alerts := alerts h |}.

Definition setIsSubscriptionActive (v : bool) (h : Hook) : Hook :=
  {| isFallDetected := isFallDetected h; isSubscriptionActive := v;
     connectionStatus := connectionStatus h;
     reconnectAttempts := reconnectAttempts h;
     reconnectTimeoutRef := reconnectTimeoutRef h;
     channelRef := channelRef h;
     isReconnectingRef := isReconnectingRef h;
     hasCleanup := hasCleanup h; channels := channels h;
     opened := opened h; timers := timers h; nextTimer := nextTimer h;
     toasts := toasts h; emergencyLog := emergencyLog h;
     dialled := dialled h; alerts := alerts h |}.

Definition setConnectionStatus (v : string) (h : Hook) : Hook :=
  {| isFallDetected := isFallDetected h;
     isSubscriptionActive := isSubscriptionActive h;
     connectionStatus := v; reconnectAttempts := reconnectAttempts h;
     reconnectTimeoutRef := reconnectTimeoutRef h;
     channelRef := channelRef h;
     isReconnectingRef := isReconnectingRef h;
     hasCleanup := hasCleanup h; channels := channels h;
     opened := opened h; timers := timers h; nextTimer := nextTimer h;
     toasts := toasts h; emergencyLog := emergencyLog h;
     dialled := dialled h; alerts := alerts h |}.

Definition setReconnectAttempts (v : Z) (h : Hook) : Hook :=
  {| isFallDetected := isFallDetected h;
     isSubscriptionActive := isSubscriptionActive h;
     connectionStatus := connectionStatus h; reconnectAttempts := v;
     reconnectTimeoutRef := reconnectTimeoutRef h;
     channelRef := channelRef h;
     isReconnectingRef := isReconnectingRef h;
     hasCleanup := hasCleanup h; channels := channels h;
     opened := opened h; timers := timers h; nextTimer := nextTimer h;
     toasts := toasts h; emergencyLog := emergencyLog h;
     dialled := dialled h; alerts := alerts h |}.

Definition with_reconnectTimeoutRef (v : option nat) (h : Hook) : Hook :=
  {| isFallDetected := isFallDetected h;
     isSubscriptionActive := isSubscriptionActive h;
     connectionStatus := connectionStatus h;
     reconnectAttempts := reconnectAttempts h; reconnectTimeoutRef := v;
     channelRef := channelRef h;
     isReconnectingRef := isReconnectingRef h;
     hasCleanup := hasCleanup h; channels := channels h;
     opened := opened h; timers := timers h; nextTimer := nextTimer h;
     toasts := toasts h; emergencyLog := emergencyLog h;
     dialled := dialled h; alerts := alerts h |}.

Definition with_channelRef (v : option nat) (h : Hook) : Hook :=
  {| isFallDetected := isFallDetected h;
     isSubscriptionActive := isSubscriptionActive h;
     connectionStatus := connectionStatus h;
     reconnectAttempts := reconnectAttempts h;
     reconnectTimeoutRef := reconnectTimeoutRef h; channelRef := v;
     isReconnectingRef := isReconnectingRef h;
     hasCleanup := hasCleanup h; channels := channels h;
     opened := opened h; timers := timers h; nextTimer := nextTimer h;
     toasts := toasts h; emergencyLog := emergencyLog h;
     dialled := dialled h; alerts := alerts h |}.

Definition with_isReconnectingRef (v : bool) (h : Hook) : Hook :=
  {| isFallDetected := isFallDetected h;
     isSubscriptionActive := isSubscriptionActive h;
     connectionStatus := connectionStatus h;
     reconnectAttempts := reconnectAttempts h;
     reconnectTimeoutRef := reconnectTimeoutRef h;
     channelRef := channelRef h; isReconnectingRef := v;
     hasCleanup := hasCleanup h; channels := channels h;
     opened := opened h; timers := timers h; nextTimer := nextTimer h;
     toasts := toasts h; emergencyLog := emergencyLog h;
     dialled := dialled h; alerts := alerts h |}.

Definition with_hasCleanup (v : bool) (h : Hook) : Hook :=
  {| isFallDetected := isFallDetected h;
     isSubscriptionActive := isSubscriptionActive h;
     connectionStatus := connectionStatus h;
     reconnectAttempts := reconnectAttempts h;
     reconnectTimeoutRef := reconnectTimeoutRef h;
     channelRef := channelRef h;
     isReconnectingRef := isReconnectingRef h; hasCleanup := v;
     channels := channels h; opened := opened h; timers := timers h;
     nextTimer := nextTimer h; toasts := toasts h;
     emergencyLog := emergencyLog h; dialled := dialled h;
     alerts := alerts h |}.

Definition with_channels (v : list Channel) (h : Hook) : Hook :=
  {| isFallDetected := isFallDetected h;
     isSubscriptionActive := isSubscriptionActive h;
     connectionStatus := connectionStatus h;
     reconnectAttempts := reconnectAttempts h;
     reconnectTimeoutRef := reconnectTimeoutRef h;
     channelRef := channelRef h;
     isReconnectingRef := isReconnectingRef h;
     hasCleanup := hasCleanup h; channels := v; opened := opened h;
     timers := timers h; nextTimer := nextTimer h; toasts := toasts h;
     emergencyLog := emergencyLog h; dialled := dialled h;
     alerts := alerts h |}.

Definition with_opened (v : nat) (h : Hook) : Hook :=
  {| isFallDetected := isFallDetected h;
     isSubscriptionActive := isSubscriptionActive h;
     connectionStatus := connectionStatus h;
     reconnectAttempts := reconnectAttempts h;
     reconnectTimeoutRef := reconnectTimeoutRef h;
     channelRef := channelRef h;
     isReconnectingRef := isReconnectingRef h;
     hasCleanup := hasCleanup h; channels := channels h; opened := v;
     timers := timers h; nextTimer := nextTimer h; toasts := toasts h;
     emergencyLog := emergencyLog h; dialled := dialled h;
     alerts := alerts h |}.

Definition with_timers (v : list (nat * Timer)) (h : Hook) : Hook :=
  {| isFallDetected := isFallDetected h;
     isSubscriptionActive := isSubscriptionActive h;
     connectionStatus := connectionStatus h;
     reconnectAttempts := reconnectAttempts h;
     reconnectTimeoutRef := reconnectTimeoutRef h;
     channelRef := channelRef h;
     isReconnectingRef := isReconnectingRef h;
     hasCleanup := hasCleanup h; channels := channels h;
     opened := opened h; timers := v; nextTimer := nextTimer h;
     toasts := toasts h; emergencyLog := emergencyLog h;
     dialled := dialled h; alerts := alerts h |}.

Definition with_nextTimer (v : nat) (h : Hook) : Hook :=
  {| isFallDetected := isFallDetected h;
     isSubscriptionActive := isSubscriptionActive h;
     connectionStatus := connectionStatus h;
     reconnectAttempts := reconnectAttempts h;
     reconnectTimeoutRef := reconnectTimeoutRef h;
     channelRef := channelRef h;
     isReconnectingRef := isReconnectingRef h;
     hasCleanup := hasCleanup h; channels := channels h;
     opened := opened h; timers := timers h; nextTimer := v;
     toasts := toasts h; emergencyLog := emergencyLog h;
     dialled := dialled h; alerts := alerts h |}.

Definition with_toasts (v : list string) (h : Hook) : Hook :=
  {| isFallDetected := isFallDetected h;
     isSubscriptionActive := isSubscriptionActive h;
     connectionStatus := connectionStatus h;
     reconnectAttempts := reconnectAttempts h;
     reconnectTimeoutRef := reconnectTimeoutRef h;
     channelRef := channelRef h;
     isReconnectingRef := isReconnectingRef h;
     hasCleanup := hasCleanup h; channels := channels h;
     opened := opened h; timers := timers h; nextTimer := nextTimer h;
     toasts := v; emergencyLog := emergencyLog h; dialled := dialled h;
     alerts := alerts h |}.

Definition with_emergencyLog (v : list string) (h : Hook) : Hook :=
  {| isFallDetected := isFallDetected h;
     isSubscriptionActive := isSubscriptionActive h;
     connectionStatus := connectionStatus h;
     reconnectAttempts := reconnectAttempts h;
     reconnectTimeoutRef := reconnectTimeoutRef h;
     channelRef := channelRef h;
     isReconnectingRef := isReconnectingRef h;
     hasCleanup := hasCleanup h; channels := channels h;
     opened := opened h; timers := timers h; nextTimer := nextTimer h;
     toasts := toasts h; emergencyLog := v; dialled := dialled h;
     alerts := alerts h |}.

Definition with_dialled (v : list string) (h : Hook) : Hook :=
  {| isFallDetected := isFallDetected h;
     isSubscriptionActive := isSubscriptionActive h;
     connectionStatus := connectionStatus h;
     reconnectAttempts := reconnectAttempts h;
     reconnectTimeoutRef := reconnectTimeoutRef h;
     channelRef := channelRef h;
     isReconnectingRef := isReconnectingRef h;
     hasCleanup := hasCleanup h; channels := channels h;
     opened := opened h; timers := timers h; nextTimer := nextTimer h;
     toasts := toasts h; emergencyLog := emergencyLog h; dialled := v;
     alerts := alerts h |}.

Definition with_alerts (v : list string) (h : Hook) : Hook :=
  {| isFallDetected := isFallDetected h;
     isSubscriptionActive := isSubscriptionActive h;
     connectionStatus := connectionStatus h;
     reconnectAttempts := reconnectAttempts h;
     reconnectTimeoutRef := reconnectTimeoutRef h;
     channelRef := channelRef h;
     isReconnectingRef := isReconnectingRef h;
     hasCleanup := hasCleanup h; channels := channels h;
     opened := opened h; timers := timers h; nextTimer := nextTimer h;
     toasts := toasts h; emergencyLog := emergencyLog h;
     dialled := dialled h; alerts := v |}.

(** *** Browser and client effects *)

Definition toast (text : string) (h : Hook) : Hook :=
  with_toasts (toasts h ++ [text]) h.

(** [setTimeout(callback, delay)]; returns the state and the timer id. *)
Definition setTimeout (cb : Timer) (h : Hook) : Hook * nat :=
  let id := nextTimer h in
  (with_nextTimer (S id) (with_timers (timers h ++ [(id, cb)]) h), id).

(** [clearTimeout(id)]: nothing happens when [id] has fired already. *)
Definition clearTimeout (id : nat) (h : Hook) : Hook :=
  with_timers (filter (fun t => negb (Nat.eqb (fst t) id)) (timers h)) h.

(** [supabase.channel(...).on(...).subscribe(...)] in a render that saw
    the current [isSubscriptionActive] and [reconnectAttempts]. *)
Definition subscribe (h : Hook) : Hook * nat :=
  let c := opened h in
  let k := {| chan := c; seen_active := isSubscriptionActive h;
              seen_attempts := reconnectAttempts h |} in
  (with_opened (S c) (with_channels (channels h ++ [k]) h), c).

Definition find_channel (c : nat) (h : Hook) : option Channel :=
  find (fun k => Nat.eqb (chan k) c) (channels h).

Definition find_timer (id : nat) (h : Hook) : option Timer :=
  option_map snd (find (fun t => Nat.eqb (fst t) id) (timers h)).

(** *** Callbacks of a channel *)

(** The [postgres_changes] callback (lines 84-99). *)
Definition on_insert (h : Hook) : Hook :=
  let h := toast "낙상이 감지되었습니다!" h in
  let h := setIsFallDetected true h in
  setIsSubscriptionActive false h.

(** [Math.min(5000 * nextAttempt, 30000)] *)
Definition reconnect_delay (nextAttempt : Z) : Z :=
  Z.min (5000 * nextAttempt) 30000.

Definition progress_text (nextAttempt : Z) : string :=
  "(" ++ Js.of_Z nextAttempt ++ "/" ++ Js.of_Z maxReconnectAttempts ++ ")".

(** The branch for [CHANNEL_ERROR] and [TIMED_OUT] (lines 126-159). *)
Definition on_failure (k : Channel) (errorType : string) (h : Hook) : Hook :=
  if (seen_attempts k <? maxReconnectAttempts) && negb (isReconnectingRef h) then
    let h := with_isReconnectingRef true h in
    let nextAttempt := seen_attempts k + 1 in
    let delay := reconnect_delay nextAttempt in
    let h := setConnectionStatus ("재연결 대기 중... " ++ progress_text nextAttempt) h in
    let h := toast (errorType ++ " 오류 - " ++ Js.of_Z (delay / 1000)
                    ++ "초 후 재연결... " ++ progress_text nextAttempt) h in
    let (h, id) := setTimeout (Reconnect delay nextAttempt) h in
    with_reconnectTimeoutRef (Some id) h
  else
    let h := setConnectionStatus "연결 실패" h in
    let h := with_isReconnectingRef false h in
    toast "연결에 계속 실패합니다. 페이지를 새로고침해주세요." h.

(** The branch for [CLOSED] (lines 160-181). *)
Definition on_closed (k : Channel) (h : Hook) : Hook :=
  if seen_active k && negb (isReconnectingRef h)
     && (seen_attempts k <? maxReconnectAttempts) then
    let h := with_isReconnectingRef true h in
    let nextAttempt := seen_attempts k + 1 in
    let delay := 3000 in
    let h := setConnectionStatus ("재연결 준비 중... " ++ progress_text nextAttempt) h in
    let (h, id) := setTimeout (Reconnect delay nextAttempt) h in
    with_reconnectTimeoutRef (Some id) h
  else
    with_isReconnectingRef false (setConnectionStatus "연결 종료" h).

(** The branch for [SUBSCRIBED] (lines 111-125). *)
Definition on_subscribed (h : Hook) : Hook :=
  let h := setReconnectAttempts 0 h in
  let h := with_isReconnectingRef false h in
  let h := match reconnectTimeoutRef h with
           | Some id => with_reconnectTimeoutRef None (clearTimeout id h)
           | None => h
           end in
  toast "낙상 감지 시스템이 활성화되었습니다" h.

(** The [subscribe] callback of channel [k] (lines 101-183). *)
Definition on_status (k : Channel) (status : SubscribeStatus) (err : option string)
    (h : Hook) : Hook :=
  match err with
  | Some message =>
      toast ("연결 에러: " ++ message) (setConnectionStatus ("에러: " ++ message) h)
  | None =>
      let h := setConnectionStatus (status_text status) h in
      match status with
      | SUBSCRIBED => on_subscribed h
      | CHANNEL_ERROR => on_failure k "채널" h
      | TIMED_OUT => on_failure k "타임아웃" h
      | CLOSED => on_closed k h
      end
  end.

(** *** Leaving a channel *)

(** [supabase.removeChannel(c)].  The client leaves the channel and,
    before the call returns, runs the [subscribe] callback of [c] with
    [CLOSED] and no error object; that callback still holds the state
    values of the render that created [c].  No callback of [c] runs
    afterwards. *)
Definition removeChannel (c : nat) (h : Hook) : Hook :=
  match find_channel c h with
  | Some k =>
      on_status k CLOSED None
        (with_channels (filter (fun k => negb (Nat.eqb (chan k) c)) (channels h)) h)
  | None => h
  end.

(** *** The effect (lines 27-212) *)

(** The function returned by the effect (lines 192-211). *)
Definition cleanup (h : Hook) : Hook :=
  let h := match reconnectTimeoutRef h with
           | Some id => with_reconnectTimeoutRef None (clearTimeout id h)
           | None => h
           end in
  let h := with_isReconnectingRef false h in
  let h := setConnectionStatus "연결 해제됨" h in
  match channelRef h with
  | Some c => with_channelRef None (removeChannel c h)
  | None => h
  end.

(** The cleanup up to the point where it leaves the channel (lines
    193-204). *)
Definition cleanup_head (h : Hook) : Hook :=
  setConnectionStatus "연결 해제됨"
    (with_isReconnectingRef false
       match reconnectTimeoutRef h with
       | Some id => with_reconnectTimeoutRef None (clearTimeout id h)
       | None => h
       end).

(** The body of the effect. *)
Definition effect (env : Env) (h : Hook) : Hook :=
  if negb (isSubscriptionActive h) then
    with_hasCleanup false (setConnectionStatus "구독 비활성화" h)
  else if isReconnectingRef h then with_hasCleanup false h
  else
    let h := setConnectionStatus "연결 중..." h in
    match check_env env with
    | EnvMissing =>
        let h := setConnectionStatus "환경변수 오류" h in
        with_hasCleanup false (toast "Supabase 설정을 확인해주세요" h)
    | EnvServiceRole =>
        let h := setConnectionStatus "보안 오류" h in
        with_hasCleanup false (toast "⚠️ 보안 오류: anon key를 사용해야 합니다!" h)
    | EnvOk =>
        let h := match channelRef h with
                 | Some c => with_channelRef None (removeChannel c h)
                 | None => h
                 end in
        let (h, c) := subscribe h in
        with_hasCleanup true (with_channelRef (Some c) h)
    end.

(** React after a handler: when a dependency of the effect
    ([isSubscriptionActive], [reconnectAttempts]) differs from its value
    [before] the handler, the stored cleanup runs, then the effect. *)
Definition rerender (env : Env) (before h : Hook) : Hook :=
  if Bool.eqb (isSubscriptionActive before) (isSubscriptionActive h)
     && (reconnectAttempts before =? reconnectAttempts h)
  then h
  else effect env (if hasCleanup h then cleanup h else h).

(** *** Timer callbacks *)

Definition fire (cb : Timer) (h : Hook) : Hook :=
  match cb with
  | Reconnect _ nextAttempt =>
      let h := setReconnectAttempts nextAttempt h in
      let h := setIsSubscriptionActive false h in
      fst (setTimeout (Resume 1000) h)
  | Resume _ => setIsSubscriptionActive true h
  end.

(** *** The handlers returned by the hook *)

(** [handleAlertCancel] (lines 215-225) *)
Definition handleAlertCancel (h : Hook) : Hook :=
  let h := setIsFallDetected false h in
  let h := setReconnectAttempts 0 h in
  let h := with_isReconnectingRef false h in
  fst (setTimeout (Resume 2000) h).

(** [handleEmergencyCall] (lines 228-252) *)
Definition handleEmergencyCall (guardianPhone : string) (h : Hook) : Hook :=
  let h := with_emergencyLog (emergencyLog h ++ [guardianPhone]) h in
  let h := if negb (String.eqb guardianPhone EmptyString)
           then with_dialled (dialled h ++ ["tel:" ++ guardianPhone]) h
           else with_alerts (alerts h ++ ["보호자 전화번호가 설정되지 않았습니다."]) h in
  let h := setIsFallDetected false h in
  let h := setReconnectAttempts 0 h in
  let h := with_isReconnectingRef false h in
  fst (setTimeout (Resume 2000) h).

(** *** Events *)

Inductive Event : Type :=
| Insert (c : nat)
| Status (c : nat) (status : SubscribeStatus) (err : option string)
| Fire (id : nat)
| AlertCancel
| EmergencyCall (guardianPhone : string).

(** What the handler of an event does, before React renders again.  An
    event for a channel that is not registered, or for a timer that is
    not pending, does not occur. *)
Definition handle (e : Event) (h : Hook) : Hook :=
  match e with
  | Insert c =>
      match find_channel c h with
      | Some _ => on_insert h
      | None => h
      end
  | Status c status err =>
      match find_channel c h with
      | Some k => on_status k status err h
      | None => h
      end
  | Fire id =>
      match find_timer id h with
      | Some cb => fire cb (clearTimeout id h)
      | None => h
      end
  | AlertCancel => handleAlertCancel h
  | EmergencyCall guardianPhone => handleEmergencyCall guardianPhone h
  end.

Definition step (env : Env) (h : Hook) (e : Event) : Hook :=
  rerender env h (handle e h).

(** The state given by the [useState] and [useRef] initialisers. *)
Definition initial : Hook :=
  {| isFallDetected := false; isSubscriptionActive := true;
     connectionStatus := "연결 중..."; reconnectAttempts := 0;
     reconnectTimeoutRef := None; channelRef := None;
     isReconnectingRef := false; hasCleanup := false;
     channels := []; opened := 0%nat; timers := []; nextTimer := 1%nat;
     toasts := []; emergencyLog := []; dialled := []; alerts := [] |}.

(** The first render: the effect runs once. *)
Definition mount (env : Env) : Hook := effect env initial.

Definition run_from (env : Env) (h : Hook) (evs : list Event) : Hook :=
  fold_left (step env) evs h.

Definition run (env : Env) (evs : list Event) : Hook :=
  run_from env (mount env) evs.

(** *** Vocabulary for the invariants *)


Definition in_budget (n : Z) : Prop := 0 <= n <= maxReconnectAttempts.

Definition timer_ok (t : nat * Timer) : Prop :=
  match snd t with
  | Reconnect _ nextAttempt => in_budget nextAttempt
  | Resume _ => True
  end.

(** The counter, and every value it can be set to later, is within the
    budget. *)
Definition counter_inv (h : Hook) : Prop :=
  in_budget (reconnectAttempts h) /\
  Forall (fun k => in_budget (seen_attempts k)) (channels h) /\
  Forall timer_ok (timers h).

(** Timer ids handed out so far are below [nextTimer]. *)
Definition fresh_inv (h : Hook) : Prop :=
  Forall (fun t => (fst t < nextTimer h)%nat) (timers h) /\
  match reconnectTimeoutRef h with
  | Some id => (id < nextTimer h)%nat
  | None => True
  end.

(** The channels registered with the client, as left by a handler: none,
    or the one in [channelRef], for which the cleanup is stored. *)
Definition channel_shape (h : Hook) : Prop :=
  match channelRef h with
  | Some c =>
      hasCleanup h = true /\
      exists k, channels h = [k] /\ chan k = c /\ in_budget (seen_attempts k)
  | None => hasCleanup h = false /\ channels h = []
  end.

(** ... and, once React has run the effect, that channel has seen the
    current state. *)
Definition channel_inv (h : Hook) : Prop :=
  match channelRef h with
  | Some c =>
      hasCleanup h = true /\ isSubscriptionActive h = true /\
      channels h = [{| chan := c; seen_active := true;
                       seen_attempts := reconnectAttempts h |}]
  | None => hasCleanup h = false /\ channels h = []
  end.

Definition hook_inv (h : Hook) : Prop :=
  counter_inv h /\ fresh_inv h /\ channel_inv h.

(** The state as a handler leaves it, before React renders again. *)
Definition settled (h : Hook) : Prop :=
  counter_inv h /\ fresh_inv h /\ channel_shape h.

(** A handler does not touch the channels. *)
Definition same_channels (h h' : Hook) : Prop :=
  channelRef h' = channelRef h /\ hasCleanup h' = hasCleanup h /\
  channels h' = channels h.

(** What holds in every state when the environment check fails. *)
Definition env_error_inv (h : Hook) : Prop :=
  opened h = 0%nat /\ channels h = [] /\ channelRef h = None /\
  isSubscriptionActive h = true /\ reconnectAttempts h = 0 /\
  (connectionStatus h = "환경변수 오류" \/ connectionStatus h = "보안 오류") /\
  Forall (fun t => exists delay, snd t = Resume delay) (timers h).



(** [CHANNEL_ERROR] or [TIMED_OUT]. *)
Definition is_error (s : SubscribeStatus) : bool :=
  match s with
  | CHANNEL_ERROR | TIMED_OUT => true
  | SUBSCRIBED | CLOSED => false
  end.

End FallHook.

(** ** The alert modal: [FallAlert.jsx], wired to the hook as in [App.jsx] *)

Module FallAlertUI.

(** [App] renders [FallAlert] with [isVisible = isFallDetected],
    [onCancel = onAlertCancel] and [onEmergencyCall = onEmergencyCall] of
    the hook.  [isVisible] is the value of the prop in the render whose
    effect ran last; [interval] tells whether the [setInterval] of that
    effect is still set.  [clock] is the time in milliseconds since the
    page was mounted and [due] the time at which the interval, when one
    is set, fires next. *)
Record App : Type := {
  hook : FallHook.Hook;
  guardianPhone : string;
  countdown : Z;
  isCallInProgress : bool;
  interval : bool;
  isVisible : bool;
  clock : Z;
  due : Z
}.

Definition with_hook (h : FallHook.Hook) (a : App) : App :=
  {| hook := h; guardianPhone := guardianPhone a; countdown := countdown a;
     isCallInProgress := isCallInProgress a; interval := interval a;
     isVisible := isVisible a; clock := clock a; due := due a |}.

Definition setCountdown (n : Z) (a : App) : App :=
  {| hook := hook a; guardianPhone := guardianPhone a; countdown := n;
     isCallInProgress := isCallInProgress a; interval := interval a;
     isVisible := isVisible a; clock := clock a; due := due a |}.

Definition setIsCallInProgress (b : bool) (a : App) : App :=
  {| hook := hook a; guardianPhone := guardianPhone a; countdown := countdown a;
     isCallInProgress := b; interval := interval a; isVisible := isVisible a;
     clock := clock a; due := due a |}.

Definition with_interval (b : bool) (a : App) : App :=
  {| hook := hook a; guardianPhone := guardianPhone a; countdown := countdown a;
     isCallInProgress := isCallInProgress a; interval := b;
     isVisible := isVisible a; clock := clock a; due := due a |}.

Definition with_isVisible (b : bool) (a : App) : App :=
  {| hook := hook a; guardianPhone := guardianPhone a; countdown := countdown a;
     isCallInProgress := isCallInProgress a; interval := interval a;
     isVisible := b; clock := clock a; due := due a |}.

Definition with_clock (t : Z) (a : App) : App :=
  {| hook := hook a; guardianPhone := guardianPhone a; countdown := countdown a;
     isCallInProgress := isCallInProgress a; interval := interval a;
     isVisible := isVisible a; clock := t; due := due a |}.

Definition with_due (t : Z) (a : App) : App :=
  {| hook := hook a; guardianPhone := guardianPhone a; countdown := countdown a;
     isCallInProgress := isCallInProgress a; interval := interval a;
     isVisible := isVisible a; clock := clock a; due := t |}.

(** [useState(10)] and the period of the interval, in milliseconds. *)
Definition countdown_start : Z := 10.
Definition period : Z := 1000.

(** [setInterval(callback, ms)]: the first firing is due [ms] after the
    call. *)
Definition setInterval (ms : Z) (a : App) : App :=
  with_due (clock a + ms) (with_interval true a).

(** [clearInterval(timer)] *)
Definition clearInterval (a : App) : App := with_interval false a.

(** The effect of [FallAlert] (lines 17-36), for a render with
    [isVisible = visible]. *)
Definition alert_effect (visible : bool) (a : App) : App :=
  if negb visible then
    setIsCallInProgress false (setCountdown countdown_start a)
  else setInterval period a.

(** React after the hook state changed: when [isFallDetected] differs
    from the prop of the last effect run, the cleanup of that run
    ([clearInterval(timer)]) and then the effect run. *)
Definition rerender (a : App) : App :=
  let visible := FallHook.isFallDetected (hook a) in
  if Bool.eqb visible (isVisible a) then a
  else alert_effect visible (with_isVisible visible (clearInterval a)).

(** [handleEmergencyCall] of the component (lines 38-43). *)
Definition handleEmergencyCall (env : FallHook.Env) (a : App) : App :=
  let a := setIsCallInProgress true a in
  with_hook (FallHook.step env (hook a) (FallHook.EmergencyCall (guardianPhone a))) a.

(** [handleCancel] of the component (lines 45-49). *)
Definition handleCancel (env : FallHook.Env) (a : App) : App :=
  with_hook (FallHook.step env (hook a) FallHook.AlertCancel) a.

(** One firing of the interval, at the time it is due; the next one is
    due one period later.  The callback runs the updater given to
    [setCountdown] (lines 25-32). *)
Definition countdown_tick (env : FallHook.Env) (a : App) : App :=
  if interval a then
    let a := with_due (due a + period) (with_clock (due a) a) in
    if countdown a <=? 1
    then rerender (setCountdown 0 (handleEmergencyCall env a))
    else setCountdown (countdown a - 1) a
  else a.

(** Time passes without a firing of the interval: [dt] milliseconds
    that end before the interval, if one is set, is due. *)
Definition elapse (dt : Z) (a : App) : App :=
  if (0 <=? dt) && (negb (interval a) || (clock a + dt <? due a))
  then with_clock (clock a + dt) a
  else a.

(** The two buttons exist while the modal is rendered and are disabled
    while [isCallInProgress]. *)
Definition click_emergency (env : FallHook.Env) (a : App) : App :=
  if FallHook.isFallDetected (hook a) && negb (isCallInProgress a)
  then rerender (handleEmergencyCall env a)
  else a.

Definition click_cancel (env : FallHook.Env) (a : App) : App :=
  if FallHook.isFallDetected (hook a) && negb (isCallInProgress a)
  then rerender (handleCancel env a)
  else a.

Inductive Event : Type :=
| Transport (e : FallHook.Event)
| CountdownTick
| ClickEmergency
| ClickCancel
| Elapse (dt : Z).

(** Only the transport and the timers drive the hook directly; its two
    handlers are reached through the buttons and the countdown. *)
Definition external (e : FallHook.Event) : bool :=
  match e with
  | FallHook.Insert _ | FallHook.Status _ _ _ | FallHook.Fire _ => true
  | FallHook.AlertCancel | FallHook.EmergencyCall _ => false
  end.

Definition step (env : FallHook.Env) (a : App) (e : Event) : App :=
  match e with
  | Transport e =>
      if external e then rerender (with_hook (FallHook.step env (hook a) e) a)
      else a
  | CountdownTick => countdown_tick env a
  | ClickEmergency => click_emergency env a
  | ClickCancel => click_cancel env a
  | Elapse dt => elapse dt a
  end.

(** First render of [App]; the modal is hidden, so its effect resets the
    countdown and sets no interval. *)
Definition mount (env : FallHook.Env) (phone : string) : App :=
  {| hook := FallHook.mount env; guardianPhone := phone;
     countdown := countdown_start; isCallInProgress := false;
     interval := false; isVisible := false; clock := 0; due := 0 |}.

Definition run_from (env : FallHook.Env) (a : App) (evs : list Event) : App :=
  fold_left (step env) evs a.

Definition run (env : FallHook.Env) (phone : string) (evs : list Event) : App :=
  fold_left (step env) evs (mount env phone).

(** The interval is set exactly while the modal is shown, and a hidden
    modal has its countdown back at the start. *)
Definition ui_shape (a : App) : Prop :=
  interval a = isVisible a /\
  (isVisible a = false ->
   countdown a = countdown_start /\ isCallInProgress a = false).

Definition ui_inv (phone : string) (a : App) : Prop :=
  isVisible a = FallHook.isFallDetected (hook a) /\ ui_shape a /\
  guardianPhone a = phone.

(** The modal has just been shown for the guardian [phone]. *)
Definition shown (phone : string) (a : App) : Prop :=
  FallHook.isFallDetected (hook a) = true /\ isVisible a = true /\
  interval a = true /\ countdown a = countdown_start /\
  isCallInProgress a = false /\ guardianPhone a = phone.

(** [n] firings of the interval in a row. *)
Fixpoint countdown_ticks (env : FallHook.Env) (n : nat) (a : App) : App :=
  match n with
  | O => a
  | S n' => countdown_ticks env n' (countdown_tick env a)
  end.

(** What happens while the user does nothing: time passes, the interval
    fires, the transport and the timers of the hook run. *)
Definition waits (e : Event) : bool :=
  match e with
  | CountdownTick | Elapse _ => true
  | Transport e => external e
  | ClickEmergency | ClickCancel => false
  end.

(** ... and no fall is reported. *)
Definition calm (e : Event) : bool :=
  match e with
  | Transport (FallHook.Insert _) => false
  | _ => waits e
  end.

Definition is_tick (e : Event) : bool :=
  match e with
  | CountdownTick => true
  | _ => false
  end.

(** The number of firings of the interval among [evs]. *)
Definition ticks_in (evs : list Event) : nat :=
  List.length (filter is_tick evs).

(** The emergency calls made so far: the numbers handed to the hook and
    the [tel:] links opened. *)
Definition calls (a : App) : list string * list string :=
  (FallHook.emergencyLog (hook a), FallHook.dialled (hook a)).

(** The modal [k] firings after it was shown at time [t0], the record
    of calls being [made] as it was then. *)
Definition counting (made : list string * list string) (phone : string)
    (t0 : Z) (k : nat) (a : App) : Prop :=
  FallHook.isFallDetected (hook a) = true /\ calls a = made /\
  guardianPhone a = phone /\ isVisible a = true /\
  interval a = true /\ isCallInProgress a = false /\
  countdown a = countdown_start - Z.of_nat k /\
  due a = t0 + (Z.of_nat k + 1) * period /\
  t0 + Z.of_nat k * period <= clock a < due a.

(** The modal hidden, the record of calls being [made]. *)
Definition hidden (made : list string * list string) (a : App) : Prop :=
  FallHook.isFallDetected (hook a) = false /\ calls a = made /\
  isVisible a = false /\ interval a = false.

End FallAlertUI.

(** ** Concrete inputs used by the examples below *)

Module Scenario.

Import Polling.

Definition alice : UserInfo :=
  {| name := Js.Str "Alice"; height := Js.Num 165; gender := Js.Str "female" |}.

(** Response of [POST /gait-analysis/langgraph-diagnosis]. *)
Definition accepted (id : string) : Js.value :=
  Js.Obj [("success", Js.Bool true);
          ("data", Js.Obj [("diagnosisId", Js.Str id);
                           ("status", Js.Str "processing")])].

(** Response of [GET /gait-analysis/diagnosis/status/{id}]. *)
Definition status_body (status : string) (progress : Z) (extra : list (string * Js.value))
  : Js.value :=
  Js.Obj [("success", Js.Bool true);
          ("data", Js.Obj ([("diagnosisId", Js.Str "d1");
                            ("status", Js.Str status);
                            ("progress", Js.Num progress)] ++ extra))].

(** A result of the [{success, data}] shape. *)
Definition wrapped (data : Js.value) : Js.value :=
  Js.Obj [("success", Js.Bool true); ("data", data)].

(** The page after the start button was pressed and the request accepted. *)
Definition started : Page := run [ClickStart alice (Resolves (accepted "d1"))].

(** Its polling loop. *)
Definition first_loop : Loop :=
  {| handle := 0; owner := 0; user_name := Js.Str "Alice";
     diagnosisId := Js.Str "d1"; attempts := 0 |}.

Definition good_env : FallHook.Env :=
  {| FallHook.VITE_SUPABASE_URL := Some "https://project.supabase.co";
     FallHook.VITE_SUPABASE_ANON_KEY := Some "anon-public-key" |}.

End Scenario.

(** ** The polling callbacks as they run: firings and answers apart

    The callback given to [setInterval] is [async]: a firing runs
    [attempts++] and sends the status query; the rest of the callback
    runs when the query is answered, which may be after later firings
    of the same interval and after the interval was cleared.
    [handleStartAnalysis] likewise waits for its request between
    [setIsAnalyzing(true)] and [setInterval].  [Polling.tick] and
    [Polling.handleStartAnalysis] describe a firing whose query, and a
    start whose request, is answered before anything else happens; the
    events below split both at their [await]. *)

Module InFlight.

Import Polling.

(** A status query sent by a firing of the interval [asker] and not yet
    answered. *)
Record Query : Type := {
  query : nat;
  asker : nat
}.

(** A diagnosis request sent by [handleStartAnalysis] of the instance
    [requester], rendered with the user information [info], and not yet
    answered. *)
Record Request : Type := {
  request : nat;
  requester : nat;
  info : UserInfo
}.

(** The page, the queries and requests in flight, and the closures of
    the intervals that were cleared: a callback that is still waiting
    for its answer reads the variable [attempts] of its closure, which
    no firing changes any more. *)
Record World : Type := {
  page : Page;
  cleared : list Loop;
  queries : list Query;
  requests : list Request;
  nextQuery : nat;
  nextRequest : nat
}.

Definition with_page (p : Page) (w : World) : World :=
  {| page := p; cleared := cleared w; queries := queries w;
     requests := requests w; nextQuery := nextQuery w;
     nextRequest := nextRequest w |}.

Definition find_query (q : nat) (w : World) : option Query :=
  find (fun x => Nat.eqb (query x) q) (queries w).

Definition find_request (r : nat) (w : World) : option Request :=
  find (fun x => Nat.eqb (request x) r) (requests w).

(** The variables of the callback of interval [h]: those of the live
    interval, or those it had when it was cleared. *)
Definition closure (h : nat) (w : World) : option Loop :=
  match find_loop h (page w) with
  | Some l => Some l
  | None => find (same_handle h) (cleared w)
  end.

(** *** [handleStartAnalysis], up to its [await] (lines 24-52)

    The result tells whether the request is sent. *)
Definition start_request (u : UserInfo) (p : Page) : Page * bool :=
  let who := instance p in
  let p := setIsAnalyzing who true p in
  let p := setAnalysisProgress who (Js.Num 10) p in
  let p := setAnalysisMessage who (Js.Str "진단 요청을 보내는 중...") p in
  if negb (Js.truthy (name u)) || negb (Js.truthy (height u))
     || negb (Js.truthy (gender u))
  then (setIsAnalyzing who false
          (alert "사용자 정보가 없습니다. 다시 로그인해주세요." p), false)
  else (p, true).

(** ... and from the answer on (lines 52-217); [who] is the instance
    whose handler this is. *)
Definition start_polling (who : nat) (u : UserInfo) (out : Outcome) (p : Page)
  : Page :=
  match out with
  | Throws message => request_failed who message p
  | Resolves diagnosisRequest =>
      let id := Js.opt_get (Js.opt_get diagnosisRequest "data") "diagnosisId" in
      if negb (Js.truthy id) then request_failed who "진단 요청에 실패했습니다." p
      else
        let p := setAnalysisProgress who (Js.Num 20) p in
        let p := setAnalysisMessage who (Js.Str "랭그래프 분석 중...") p in
        setInterval who (name u) id p
  end.

(** The start button is pressed; it is disabled while [isAnalyzing]. *)
Definition click (u : UserInfo) (w : World) : World :=
  if isAnalyzing (page w) then w
  else
    match start_request u (page w) with
    | (p, true) =>
        {| page := p; cleared := cleared w; queries := queries w;
           requests := (requests w ++ [{| request := nextRequest w;
                                          requester := instance (page w);
                                          info := u |}])%list;
           nextQuery := nextQuery w; nextRequest := S (nextRequest w) |}
    | (p, false) => with_page p w
    end.

(** The request [r] is answered. *)
Definition respond (r : nat) (out : Outcome) (w : World) : World :=
  match find_request r w with
  | None => w
  | Some x =>
      {| page := start_polling (requester x) (info x) out (page w);
         cleared := cleared w; queries := queries w;
         requests := filter (fun y => negb (Nat.eqb (request y) r)) (requests w);
         nextQuery := nextQuery w; nextRequest := nextRequest w |}
  end.

(** *** The polling callback, up to its [await] (lines 65-69)

    The interval [h] fires: [attempts++], and the status query is sent.
    A cleared interval does not fire. *)
Definition fire (h : nat) (w : World) : World :=
  match find_loop h (page w) with
  | None => w
  | Some _ =>
      {| page := bump h (page w); cleared := cleared w;
         queries := (queries w ++ [{| query := nextQuery w; asker := h |}])%list;
         requests := requests w;
         nextQuery := S (nextQuery w); nextRequest := nextRequest w |}
  end.

(** *** ... and from the answer on (lines 69-208) *)

(** [if (attempts >= maxAttempts)], with the value [attempts] has when
    the answer arrives. *)
Definition check_deadline (l : Loop) (p : Page) : Page * Completion :=
  if maxAttempts <=? attempts l
  then (clearInterval (handle l) p, Thrown msg_timeout)
  else (p, Normal).

(** The rest of the [try] block; [l] holds the variables of the
    closure as the answer finds them. *)
Definition try_answer (l : Loop) (out : Outcome) (p : Page) : Page * Completion :=
  let who := owner l in
  match out with
  | Throws message => (p, Thrown message)
  | Resolves statusResponse =>
      let status := status_of statusResponse in
      if Js.truthy status then
        let progress := Js.or (Js.get status "progress") (Js.Num 0) in
        let message := Js.or (Js.get status "message") (Js.Str msg_default) in
        let p := setAnalysisProgress who progress p in
        let p := setAnalysisMessage who message p in
        if Js.is_str (Js.get status "status") "completed" then
          on_completed l status p
        else if Js.is_str (Js.get status "status") "failed" then
          (p, Thrown (Js.to_string
                        (Js.or (Js.get status "error") (Js.Str msg_failed))))
        else check_deadline l p
      else check_deadline l p
  end.

(** The rest of the callback, with its [catch]. *)
Definition answer_page (l : Loop) (out : Outcome) (p : Page) : Page :=
  match try_answer l out p with
  | (p', Normal) => p'
  | (p', Thrown message) => catch_tick l message p'
  end.

(** The query [q] is answered.  When the callback clears its interval,
    the closure is kept for the callbacks still waiting. *)
Definition answer (q : nat) (out : Outcome) (w : World) : World :=
  match find_query q w with
  | None => w
  | Some x =>
      let rest := filter (fun y => negb (Nat.eqb (query y) q)) (queries w) in
      match closure (asker x) w with
      | None =>
          {| page := page w; cleared := cleared w; queries := rest;
             requests := requests w; nextQuery := nextQuery w;
             nextRequest := nextRequest w |}
      | Some l =>
          let p := answer_page l out (page w) in
          {| page := p;
             cleared := match find_loop (asker x) (page w), find_loop (asker x) p with
                        | Some _, None => (cleared w ++ [l])%list
                        | _, _ => cleared w
                        end;
             queries := rest; requests := requests w;
             nextQuery := nextQuery w; nextRequest := nextRequest w |}
      end
  end.

Definition initial : World :=
  {| page := Polling.initial; cleared := []; queries := []; requests := [];
     nextQuery := 0%nat; nextRequest := 0%nat |}.

Inductive Event : Type :=
| Click (u : UserInfo)
| Respond (r : nat) (out : Outcome)
| Fire (h : nat)
| Answer (q : nat) (out : Outcome)
| FireDone
| Remount.

Definition step (w : World) (e : Event) : World :=
  match e with
  | Click u => click u w
  | Respond r out => respond r out w
  | Fire h => fire h w
  | Answer q out => answer q out w
  | FireDone => with_page (fire_done (page w)) w
  | Remount => with_page (remount (page w)) w
  end.

Definition run_from (w : World) (evs : list Event) : World :=
  fold_left step evs w.

Definition run (evs : list Event) : World := run_from initial evs.

(** *** The schedule of [Polling.tick]: each query is answered before
    the interval fires again *)

Definition round (h : nat) (out : Outcome) (w : World) : World :=
  answer (nextQuery w) out (fire h w).

Definition rounds (h : nat) (outs : list Outcome) (w : World) : World :=
  fold_left (fun v out => round h out v) outs w.

(** ... and of [Polling.click_start]: the request is answered at once. *)
Definition start (u : UserInfo) (out : Outcome) (w : World) : World :=
  respond (nextRequest w) out (click u w).

(** *** Vocabulary *)

(** The numbers of the queries and requests in flight are below the
    next ones. *)
Definition fresh (w : World) : bool :=
  forallb (fun x => Nat.ltb (query x) (nextQuery w)) (queries w)
  && forallb (fun x => Nat.ltb (request x) (nextRequest w)) (requests w).

(** The events of [handleStartAnalysis]. *)
Definition starts (e : Event) : bool :=
  match e with
  | Click _ | Respond _ _ => true
  | _ => false
  end.

(** The world after the start button was pressed and the request for
    job [d1] accepted. *)
Definition started : World :=
  run [Click Scenario.alice; Respond 0 (Resolves (Scenario.accepted "d1"))].

(** Two jobs started from one page.  Job [d1]: the interval fires twice
    before the first query fails; that failure clears the interval and
    enables the start button.  Job [d2] is started; then the second
    query of [d1] fails and enables the button again, while the interval
    of [d2] is set. *)
Definition two_jobs : list Event :=
  [Click Scenario.alice; Respond 0 (Resolves (Scenario.accepted "d1"));
   Fire 0; Fire 0; Answer 0 (Throws "Network Error");
   Click Scenario.alice; Respond 1 (Resolves (Scenario.accepted "d2"));
   Answer 1 (Throws "Network Error")].

(** ... and job [d3] is started. *)
Definition three_jobs : list Event :=
  (two_jobs ++ [Click Scenario.alice;
                Respond 2 (Resolves (Scenario.accepted "d3"))])%list.

End InFlight.

(** ** Vocabulary for the outcomes of a polling loop *)

Module PollingLoops.

Import Polling.


(** The text of the error thrown for a ['completed'] status whose
    result is not an object. *)
Definition no_object_text (result : Js.value) : string :=
  if Js.truthy result then in_operator_error "success" result else msg_no_result.

End PollingLoops.

(** ** Vocabulary for the channels of the realtime alert monitor *)

Module FallHookChannels.

Import FallHook.

(** The channel in [channelRef] is the one created last. *)
Definition latest_inv (h : Hook) : Prop :=
  match channelRef h with
  | Some c => opened h = S c
  | None => True
  end.

(** An event delivered by the realtime client to a channel callback. *)
Definition transport (e : Event) : bool :=
  match e with
  | Insert _ | Status _ _ _ => true
  | _ => false
  end.

(** An event that happens without the user: the transport or a timer. *)
Definition automatic (e : Event) : bool :=
  match e with
  | AlertCancel | EmergencyCall _ => false
  | _ => true
  end.

(** A reconnect is marked as under way while no channel is registered
    and no cleanup is stored. *)
Definition waiting (h : Hook) : Prop :=
  isReconnectingRef h = true /\ channelRef h = None /\
  hasCleanup h = false /\ channels h = [].

(** A status passed to the [subscribe] callback together with an error
    object. *)
Definition with_error (e : Event) : bool :=
  match e with
  | Status _ _ (Some _) => true
  | _ => false
  end.

(** The channel the effect registers in a render that sees
    [reconnectAttempts = n]. *)
Definition registered (c : nat) (n : Z) : Channel :=
  {| chan := c; seen_active := true; seen_attempts := n |}.

(** What a run of status events that carry an error object can change:
    the status line and the toasts. *)
Definition same_but_display (h h' : Hook) : Prop :=
  isFallDetected h' = isFallDetected h /\
  isSubscriptionActive h' = isSubscriptionActive h /\
  reconnectAttempts h' = reconnectAttempts h /\
  reconnectTimeoutRef h' = reconnectTimeoutRef h /\
  channelRef h' = channelRef h /\
  isReconnectingRef h' = isReconnectingRef h /\
  hasCleanup h' = hasCleanup h /\
  channels h' = channels h /\ opened h' = opened h /\
  timers h' = timers h /\ nextTimer h' = nextTimer h /\
  emergencyLog h' = emergencyLog h /\ dialled h' = dialled h /\
  alerts h' = alerts h.

End FallHookChannels.

(** ** Vocabulary for the states of the alert modal *)

Module FallAlertModal.

Import FallAlertUI.

(** Between two events no call is in progress, and the countdown shown
    is between 1 and its start. *)
Definition rest_inv (a : App) : Prop :=
  isCallInProgress a = false /\ 1 <= countdown a <= countdown_start.

(** What [handleEmergencyCall] of the hook adds for the number [phone]. *)
Definition called (phone : string) (a : App) : list string * list string :=
  ((FallHook.emergencyLog (hook a) ++ [phone])%list,
   if negb (String.eqb phone EmptyString)
   then (FallHook.dialled (hook a) ++ [("tel:" ++ phone)%string])%list
   else FallHook.dialled (hook a)).

End FallAlertModal.

(** ** The guardian's number: [getGuardianPhone] of [App.jsx] *)

Module App.

Section GuardianPhone.

(** [JSON.parse]: [None] when it throws a [SyntaxError]. *)
Variable parse : string -> option Js.value.

(** [localStorage.getItem('userInfo') || '{}']; [getItem] returns [null]
    ([None]) for a key that is not stored. *)
Definition stored_text (item : option string) : string :=
  match item with
  | Some s => if String.eqb s EmptyString then "{}" else s
  | None => "{}"
  end.

(** [getGuardianPhone] (lines 19-26).  Reading a property of [null]
    throws a [TypeError]; both errors end in the [catch]. *)
Definition getGuardianPhone (item : option string) : Js.value :=
  match parse (stored_text item) with
  | None => Js.Str EmptyString
  | Some userInfo =>
      match userInfo with
      | Js.Undefined | Js.Null => Js.Str EmptyString
      | _ => Js.or (Js.get userInfo "guardianPhone") (Js.Str EmptyString)
      end
  end.

End GuardianPhone.

End App.

(** ** The emergency button of the main page: [MainPage.jsx] *)

Module MainPage.

(** How [handleEmergencyCall] ends: [window.location.href] is set to a
    [tel:] link, or an [alert] is shown. *)
Inductive Call : Type :=
| Dial (href : string)
| Warn (message : string).

(** The line feed of the one message that has one. *)
Definition newline : string := String (Ascii.ascii_of_nat 10) EmptyString.

Definition msg_not_set : string :=
  "보호자 전화번호가 설정되지 않았습니다." ++ newline
  ++ "로그인 시 보호자 전화번호를 입력해주세요.".

Definition msg_call_failed : string := "긴급연락에 실패했습니다.".

Section EmergencyCall.

(** [JSON.parse], as in [App.getGuardianPhone]. *)
Variable parse : string -> option Js.value.

(** [handleEmergencyCall] (lines 6-23); [item] is
    [localStorage.getItem('userInfo')]. *)
Definition handleEmergencyCall (item : option string) : Call :=
  match parse (App.stored_text item) with
  | None => Warn msg_call_failed
  | Some userInfo =>
      match userInfo with
      | Js.Undefined | Js.Null => Warn msg_call_failed
      | _ =>
          let guardianPhone := Js.get userInfo "guardianPhone" in
          if Js.truthy guardianPhone
          then Dial ("tel:" ++ Js.to_string guardianPhone)
          else Warn msg_not_set
      end
  end.

End EmergencyCall.

(** The [tel:] links a call outcome adds to the navigations. *)
Definition links (c : Call) : list string :=
  match c with
  | Dial href => [href]
  | Warn _ => []
  end.

End MainPage.

(** ** The profile form: [handleUserInfoSubmit] of [LoginPage.jsx] *)

Module LoginPage.

(** A string as JavaScript has it: the list of its UTF-16 code units. *)
Definition text : Type := list N.

(** [userInfo.height] is set by [parseInt(e.target.value) || '']: the
    empty string, an integer, or [Infinity]. *)
Inductive Height : Type :=
| Blank
| Cm (n : Z)
| Infinite.

(** [userInfo.gender]: [''] until one of the two buttons is pressed. *)
Inductive Gender : Type :=
| Unset
| Male
| Female.

Record UserInfo : Type := {
  name : text;
  height : Height;
  gender : Gender;
  guardianPhone : text
}.

(** White space and line terminators: what [trim] removes and what [\s]
    matches. *)
Definition is_space (c : N) : bool :=
  ((9 <=? c) && (c <=? 13) || (c =? 32) || (c =? 160) || (c =? 5760)
   || (8192 <=? c) && (c <=? 8202) || (c =? 8232) || (c =? 8233)
   || (c =? 8239) || (c =? 8287) || (c =? 12288) || (c =? 65279))%N.

Fixpoint trimStart (s : text) : text :=
  match s with
  | [] => []
  | c :: rest => if is_space c then trimStart rest else s
  end.

(** [s.trim()] *)
Definition trim (s : text) : text := rev (trimStart (rev (trimStart s))).

(** [!s.trim()] *)
Definition blank (s : text) : bool :=
  match trim s with
  | [] => true
  | _ :: _ => false
  end.

(** [s.replace(/\s/g, '')] *)
Definition without_spaces (s : text) : text :=
  filter (fun c => negb (is_space c)) s.

(** The class [[0-9-+\s()]] of [phoneRegex]. *)
Definition phone_char (c : N) : bool :=
  ((48 <=? c) && (c <=? 57) || (c =? 45) || (c =? 43) || is_space c
   || (c =? 40) || (c =? 41))%N.

(** [/^[0-9-+\s()]{10,15}$/.test(s)] *)
Definition phoneRegex_test (s : text) : bool :=
  (10 <=? List.length s)%nat && (List.length s <=? 15)%nat && forallb phone_char s.

(** [!h || h < 100 || h > 250] *)
Definition height_rejected (h : Height) : bool :=
  match h with
  | Blank => true
  | Cm n => (n =? 0) || (n <? 100) || (250 <? n)
  | Infinite => true
  end.

(** How [handleUserInfoSubmit] ends: with one [alert], or with the two
    [localStorage.setItem] calls followed by [onLoginClick()]. *)
Inductive Submit : Type :=
| Alert (message : string)
| Saved (userInfo : UserInfo) (userId : string).

(** [handleUserInfoSubmit] (lines 24-57); [now] is [Date.now()]. *)
Definition handleUserInfoSubmit (now : Z) (userInfo : UserInfo) : Submit :=
  if blank (name userInfo) then Alert "이름을 입력해주세요."
  else if height_rejected (height userInfo)
  then Alert "키를 올바르게 입력해주세요. (100-250cm)"
  else
    match gender userInfo with
    | Unset => Alert "성별을 선택해주세요."
    | _ =>
        if blank (guardianPhone userInfo) then Alert "보호자 전화번호를 입력해주세요."
        else if negb (phoneRegex_test (without_spaces (guardianPhone userInfo)))
        then Alert "올바른 전화번호 형식을 입력해주세요."
        else Saved userInfo ("user_" ++ Js.of_Z now)
    end.

(** The characters a saved number is made of, besides white space:
    digits, [+], [-], [(] and [)]. *)
Definition dial_char (c : N) : bool :=
  ((48 <=? c) && (c <=? 57) || (c =? 43) || (c =? 45) || (c =? 40) || (c =? 41))%N.

(** The code units of an ASCII string. *)
Fixpoint units (s : string) : text :=
  match s with
  | EmptyString => []
  | String c rest => Ascii.N_of_ascii c :: units rest
  end.

(** What a profile must satisfy to be saved. *)
Definition acceptable (u : UserInfo) : Prop :=
  (exists c, In c (name u) /\ is_space c = false) /\
  (exists n, height u = Cm n /\ 100 <= n <= 250) /\
  gender u <> Unset /\
  (forall c, In c (guardianPhone u) -> is_space c = true \/ dial_char c = true) /\
  (10 <= List.length (without_spaces (guardianPhone u)) <= 15)%nat.

End LoginPage.

(** ** Properties of the polling monitor *)

Module PollingFacts.

Import Polling.

(** *** What the setters leave alone *)

Ltac unfold_page :=
  cbn [catch_tick request_failed setTimeout_done setInterval bump clearInterval
       warn alert with_timeouts with_intervals setGaitData setAnalysisMessage
       setAnalysisProgress setIsAnalyzing without_console
       instance isAnalyzing analysisProgress analysisMessage gaitData
       intervals timeouts alerts warnings nextHandle] in *.

(** Setters called by any instance: both cases. *)
Ltac setters :=
  unfold_page;
  repeat match goal with
         | |- context [if Nat.eqb ?a ?b then _ else _] => destruct (Nat.eqb a b)
         end.

(** Setters called by the instance that owns the state. *)
Ltac own Ho :=
  unfold_page; rewrite ?Ho, ?Nat.eqb_refl.

Lemma same_handle_eq h l : same_handle h l = true -> handle l = h.
Proof. unfold same_handle. apply Nat.eqb_eq. Qed.

Lemma find_loop_handle h p l : find_loop h p = Some l -> handle l = h.
Proof.
  unfold find_loop. intros H. apply find_some in H. now apply same_handle_eq.
Qed.

Lemma find_after_clear h (ls : list Loop) :
  find (same_handle h) (filter (fun l => negb (same_handle h l)) ls) = None.
Proof.
  induction ls as [|l ls IH]; simpl; [reflexivity|].
  destruct (same_handle h l) eqn:E; simpl; [exact IH|].
  now rewrite E.
Qed.

Lemma find_loop_bump h p l :
  find_loop h p = Some l -> find_loop h (bump h p) = Some (bumped l).
Proof.
  unfold find_loop. setters. induction (intervals p) as [|x ls IH]; simpl; [discriminate|].
  destruct (same_handle h x) eqn:E.
  - intros [= ->]. unfold same_handle in *. simpl. now rewrite E.
  - intros H. rewrite E. now apply IH.
Qed.

(** A tick that ends without a terminal status, before the deadline. *)
Lemma tick_non_terminal h p l out :
  find_loop h p = Some l -> non_terminal out = true ->
  attempts l + 1 < maxAttempts ->
  let p' := tick h out p in
  find_loop h p' = Some (bumped l) /\ intervals p' = intervals (bump h p) /\
  alerts p' = alerts p /\ timeouts p' = timeouts p /\
  warnings p' = warnings p /\ instance p' = instance p /\
  isAnalyzing p' = isAnalyzing p /\ gaitData p' = gaitData p.
Proof.
  intros H N D p'. pose proof (find_loop_handle _ _ _ H) as Hh.
  pose proof (find_loop_bump _ _ _ H) as Hb.
  assert (L : (maxAttempts <=? attempts l + 1) = false) by (apply Z.leb_gt; lia).
  destruct out as [m|body]; [discriminate|]. simpl in N.
  unfold p', tick, try_tick, check_deadline. rewrite H, L.
  destruct (Js.truthy (status_of body)) eqn:T; simpl in N.
  - unfold in_progress in N. rewrite T in N. simpl in N.
    apply andb_true_iff in N as [N1 N2].
    apply negb_true_iff in N1, N2. rewrite N1, N2.
    unfold find_loop in *. setters; rewrite ?Hh; auto 10.
  - unfold find_loop in *. setters; rewrite ?Hh; auto 10.
Qed.

(** *** C1: a failed status query *)

(** C1, as the code has it.  A tick whose status query throws ends the
    loop at once: the interval is cleared, the error is delivered in an
    alert on that very tick and [isAnalyzing] is reset, whatever the
    number of attempts used so far.  Only a tick whose response carries
    no status data is inconclusive: while the budget is not used up it
    changes nothing but the attempt counter, and the loop goes on. *)
Theorem tick_failure_ends_loop (p : Page) (h : nat) (l : Loop) (message : string) :
  find_loop h p = Some l ->
  let p' := tick h (Throws message) p in
  find_loop h p' = None /\
  alerts p' = (alerts p ++ [polling_alert message])%list /\
  (owner l = instance p -> isAnalyzing p' = false) /\
  (forall body,
      Js.truthy (status_of body) = false ->
      attempts l + 1 < maxAttempts ->
      tick h (Resolves body) p = bump h p /\
      find_loop h (bump h p) = Some (bumped l)).
Proof.
  intros H p'. pose proof (find_loop_handle _ _ _ H) as Hh.
  assert (E : p' = catch_tick l message (bump h p)).
  { unfold p', tick. rewrite H. simpl. now rewrite Hh. }
  repeat split.
  - rewrite E. unfold catch_tick. rewrite Hh.
    unfold find_loop. setters; apply find_after_clear.
  - rewrite E. now setters.
  - intros Ho. rewrite E. now own Ho.
  - unfold tick, try_tick, check_deadline. rewrite H, H0.
    destruct (maxAttempts <=? attempts l + 1) eqn:D; [|now rewrite Hh].
    apply Z.leb_le in D. lia.
  - now apply find_loop_bump.
Qed.

Lemma tick_failure_ends_loop_witness :
  find_loop 0 Scenario.started = Some Scenario.first_loop /\
  find_loop 0 (tick 0 (Throws "Network Error") Scenario.started) = None /\
  tick 0 (Resolves (Js.Str "<html>")) Scenario.started = bump 0 Scenario.started.
Proof.
  split; [reflexivity|].
  pose proof (tick_failure_ends_loop Scenario.started 0 _ "Network Error" eq_refl)
    as W.
  split; [exact (proj1 W)|].
  exact (proj1 (proj2 (proj2 (proj2 W)) (Js.Str "<html>") eq_refl eq_refl)).
Defined.

(** C1 as stated fails: the first tick of a fresh loop throws (1 attempt
    of 60 used); the claim wants the loop to go on and no error to be
    delivered, but the interval is cleared and the alert is shown. *)
Lemma tick_failure_is_not_inconclusive :
  let p := Scenario.started in
  let p' := tick 0 (Throws "Network Error") p in
  (exists l, find_loop 0 p = Some l /\ attempts l + 1 < maxAttempts) /\
  find_loop 0 p' = None /\
  alerts p' = [polling_alert "Network Error"] /\
  ~ (find_loop 0 p' <> None /\ alerts p' = alerts p).
Proof.
  repeat split.
  - eexists. split; [reflexivity|reflexivity].
  - intros [H _]. now apply H.
Qed.

(** *** C5: displayed progress *)

Lemma tick_in_progress_display h p l body :
  find_loop h p = Some l -> owner l = instance p -> in_progress body = true ->
  analysisProgress (tick h (Resolves body) p) = reported_progress body.
Proof.
  intros H Ho N. unfold in_progress in N.
  apply andb_true_iff in N as [N N2]. apply andb_true_iff in N as [T N1].
  apply negb_true_iff in N1, N2.
  unfold tick, try_tick, check_deadline. rewrite H, T, N1, N2.
  destruct (maxAttempts <=? attempts l + 1); own Ho; reflexivity.
Qed.

Lemma reported_number body n :
  Js.get (status_of body) "progress" = Js.Num n -> reported_progress body = Js.Num n.
Proof.
  intros E. unfold reported_progress, Js.or. rewrite E. simpl.
  destruct (Z.eqb_spec n 0) as [->|]; reflexivity.
Qed.

(** C5, as the code has it.  After a successful tick whose status is not
    terminal the displayed progress is the value reported in that very
    response ([status.progress || 0]), whatever was displayed before.
    Hence over two successive such ticks the displayed progress does not
    decrease provided the reported numbers do not decrease. *)
Theorem displayed_progress_follows_server (p : Page) (h : nat) (l : Loop)
    (body1 body2 : Js.value) :
  find_loop h p = Some l -> owner l = instance p ->
  attempts l + 1 < maxAttempts ->
  in_progress body1 = true -> in_progress body2 = true ->
  let p1 := tick h (Resolves body1) p in
  let p2 := tick h (Resolves body2) p1 in
  analysisProgress p1 = reported_progress body1 /\
  analysisProgress p2 = reported_progress body2 /\
  (forall n1 n2,
      Js.get (status_of body1) "progress" = Js.Num n1 ->
      Js.get (status_of body2) "progress" = Js.Num n2 ->
      n1 <= n2 ->
      exists d1 d2,
        analysisProgress p1 = Js.Num d1 /\ analysisProgress p2 = Js.Num d2 /\
        d1 <= d2).
Proof.
  intros H Ho D N1 N2 p1 p2.
  assert (NT : non_terminal (Resolves body1) = true)
    by (simpl; rewrite N1; apply orb_true_r).
  destruct (tick_non_terminal h p l _ H NT D) as (F & _ & _ & _ & _ & I & _).
  fold p1 in F, I.
  assert (E1 : analysisProgress p1 = reported_progress body1)
    by now apply (tick_in_progress_display h p l).
  assert (E2 : analysisProgress p2 = reported_progress body2).
  { apply (tick_in_progress_display h p1 (bumped l)); auto.
    simpl. now rewrite I. }
  repeat split; auto.
  intros n1 n2 G1 G2 Le. exists n1, n2.
  rewrite E1, E2. repeat split; auto using reported_number.
Qed.

Lemma displayed_progress_follows_server_witness :
  let body1 := Scenario.status_body "processing" 30 [] in
  let body2 := Scenario.status_body "analyzing" 60 [] in
  30 <= 60 /\
  exists d1 d2,
    analysisProgress (tick 0 (Resolves body1) Scenario.started) = Js.Num d1 /\
    analysisProgress
      (tick 0 (Resolves body2) (tick 0 (Resolves body1) Scenario.started))
    = Js.Num d2 /\
    d1 <= d2.
Proof.
  intros body1 body2. split; [lia|].
  assert (D : attempts Scenario.first_loop + 1 < maxAttempts) by reflexivity.
  pose proof (displayed_progress_follows_server Scenario.started 0
                Scenario.first_loop body1 body2 eq_refl eq_refl D eq_refl eq_refl)
    as W.
  apply (proj2 (proj2 W) 30 60); [reflexivity|reflexivity|lia].
Defined.

(** C5 as stated fails: two successive successful ticks of the same job,
    the server reporting 50 and then 30 while still processing; the page
    shows 50 and then 30. *)
Lemma displayed_progress_can_decrease :
  let p1 := tick 0 (Resolves (Scenario.status_body "processing" 50 [])) Scenario.started in
  let p2 := tick 0 (Resolves (Scenario.status_body "processing" 30 [])) p1 in
  analysisProgress p1 = Js.Num 50 /\ analysisProgress p2 = Js.Num 30 /\
  isAnalyzing p2 = true /\ find_loop 0 p2 <> None /\ ~ (50 <= 30).
Proof.
  repeat split; try reflexivity; [discriminate | lia].
Qed.

(** *** C2: a completed status with a malformed result *)

Lemma completed_with_result_inv body :
  completed_with_result body = true ->
  Js.truthy (status_of body) = true /\
  Js.is_str (Js.get (status_of body) "status") "completed" = true /\
  Js.truthy (Js.get (status_of body) "result") = true /\
  Js.has_properties (Js.get (status_of body) "result") = true.
Proof.
  unfold completed_with_result. intros H.
  apply andb_true_iff in H as [H O]. apply andb_true_iff in H as [H R].
  apply andb_true_iff in H as [T C]. auto.
Qed.

(** C2, as the code has it.  On a ['completed'] status whose result is
    an object but whose final result (its [data] field, when [success]
    and [data] are set) is not an object, the callback does not throw:
    it clears the interval, shows 100 percent, stores the hard-coded
    placeholder as the result and schedules the usual completion alert.  The anomaly goes to the console only; what the
    caller gets (state, alerts, timers) is exactly what a well-formed
    completion carrying the placeholder object would give. *)
Theorem malformed_completion_falls_back (p : Page) (h : nat) (l : Loop)
    (body : Js.value) :
  find_loop h p = Some l -> owner l = instance p ->
  malformed_completion body = true ->
  let final := finalResult (Js.get (status_of body) "result") in
  let p' := tick h (Resolves body) p in
  find_loop h p' = None /\
  gaitData p' = fallbackGaitData /\
  analysisProgress p' = Js.Num 100 /\
  analysisMessage p' = Js.Str msg_done /\
  warnings p' = (warnings p ++ [final])%list /\
  alerts p' = alerts p /\
  timeouts p' =
    (timeouts p ++ [{| done_owner := owner l; done_name := user_name l |}])%list /\
  (forall body2,
      completed_with_result body2 = true ->
      finalResult (Js.get (status_of body2) "result") = fallbackGaitData ->
      without_console (tick h (Resolves body2) p) = without_console p').
Proof.
  intros H Ho M final p'. pose proof (find_loop_handle _ _ _ H) as Hh.
  unfold malformed_completion in M. apply andb_true_iff in M as [M U].
  apply completed_with_result_inv in M as (T & C & R & O).
  apply negb_true_iff in U. fold final in U.
  assert (E : p' =
    setTimeout_done (owner l) (user_name l)
      (setGaitData (owner l) fallbackGaitData
         (warn final
            (setAnalysisMessage (owner l) (Js.Str msg_done)
               (setAnalysisProgress (owner l) (Js.Num 100)
                  (clearInterval h
                     (setAnalysisMessage (owner l)
                        (Js.or (Js.get (status_of body) "message") (Js.Str msg_default))
                        (setAnalysisProgress (owner l) (reported_progress body)
                           (bump h p))))))))).
  { unfold p', tick, try_tick, on_completed. rewrite H, T, C, R, O.
    fold final. now rewrite U, Hh. }
  repeat split; try (rewrite E; own Ho; reflexivity).
  - rewrite E. unfold find_loop. own Ho. apply find_after_clear.
  - intros body2 M2 F2.
    apply completed_with_result_inv in M2 as (T2 & C2 & R2 & O2).
    rewrite E. unfold tick, try_tick, on_completed.
    rewrite H, T2, C2, R2, O2, F2, Hh.
    change (usable fallbackGaitData) with true. cbv iota.
    unfold without_console. own Ho. reflexivity.
Qed.

Lemma malformed_completion_falls_back_witness :
  let body := Scenario.status_body "completed" 100
                [("result", Scenario.wrapped (Js.Num 5))] in
  let body2 := Scenario.status_body "completed" 100 [("result", fallbackGaitData)] in
  malformed_completion body = true /\
  gaitData (tick 0 (Resolves body) Scenario.started) = fallbackGaitData /\
  without_console (tick 0 (Resolves body2) Scenario.started)
  = without_console (tick 0 (Resolves body) Scenario.started).
Proof.
  intros body body2. split; [reflexivity|].
  pose proof (malformed_completion_falls_back Scenario.started 0
                Scenario.first_loop body eq_refl eq_refl eq_refl) as W.
  split; [exact (proj1 (proj2 W))|].
  exact (proj2 (proj2 (proj2 (proj2 (proj2 (proj2 (proj2 W)))))) body2 eq_refl eq_refl).
Defined.

(** C2 as stated fails on the warning flag: a completion whose result is
    [{success: true, data: 'oops'}] and a completion whose result is the
    placeholder object itself leave the caller with the same state, the
    same timers and, one second later, the same alert; only the console
    differs. *)
Lemma malformed_completion_is_not_flagged :
  let body := Scenario.status_body "completed" 100
                [("result", Scenario.wrapped (Js.Str "oops"))] in
  let body2 := Scenario.status_body "completed" 100 [("result", fallbackGaitData)] in
  let bad := tick 0 (Resolves body) Scenario.started in
  let fine := tick 0 (Resolves body2) Scenario.started in
  malformed_completion body = true /\ malformed_completion body2 = false /\
  find_loop 0 bad = None /\ gaitData bad = fallbackGaitData /\
  warnings bad = [Js.Str "oops"] /\
  without_console bad = without_console fine /\
  without_console (fire_done bad) = without_console (fire_done fine) /\
  alerts (fire_done bad) = [done_alert (Js.Str "Alice")].
Proof. vm_compute. repeat split. Qed.

(** A completion whose result is a primitive does not reach the
    placeholder: the logging throws and the tick ends in the [catch]. *)
Lemma primitive_result_throws :
  let body := Scenario.status_body "completed" 100 [("result", Js.Num 5)] in
  let p := tick 0 (Resolves body) Scenario.started in
  find_loop 0 p = None /\ isAnalyzing p = false /\
  gaitData p = gaitData Scenario.started /\ timeouts p = [] /\
  alerts p = [polling_alert (in_operator_error "success" (Js.Num 5))].
Proof. vm_compute. repeat split. Qed.

(** *** Ticks in a row *)

Lemma ticks_app h outs1 outs2 p :
  ticks h (outs1 ++ outs2) p = ticks h outs2 (ticks h outs1 p).
Proof. unfold ticks. apply fold_left_app. Qed.

(** Ticks without a terminal status, the budget not yet used up: the
    loop stays, the counter advances, nothing is reported. *)
Lemma ticks_non_terminal h outs :
  forall p l,
    find_loop h p = Some l ->
    Forall (fun out => non_terminal out = true) outs ->
    attempts l + Z.of_nat (List.length outs) < maxAttempts ->
    let p' := ticks h outs p in
    exists l',
      find_loop h p' = Some l' /\ owner l' = owner l /\
      attempts l' = attempts l + Z.of_nat (List.length outs) /\
      alerts p' = alerts p /\ instance p' = instance p /\
      isAnalyzing p' = isAnalyzing p.
Proof.
  induction outs as [|out outs IH]; intros p l H N D.
  - exists l. simpl. rewrite Z.add_0_r. auto 10.
  - inversion N as [|? ? N1 N2]; subst.
    cbn [List.length] in D. rewrite Nat2Z.inj_succ in D.
    destruct (tick_non_terminal h p l out H N1 ltac:(lia))
      as (F & _ & A & _ & _ & I & B & _).
    destruct (IH (tick h out p) (bumped l) F N2) as (l' & F' & O' & T' & A' & I' & B').
    { simpl. lia. }
    exists l'. cbn [List.length]. rewrite Nat2Z.inj_succ.
    change (ticks h (out :: outs) p) with (ticks h outs (tick h out p)).
    simpl in O', T'. repeat split; try congruence. lia.
Qed.

(** The tick on which the counter reaches [maxAttempts]. *)
Lemma tick_deadline h p l out :
  find_loop h p = Some l -> non_terminal out = true ->
  maxAttempts <= attempts l + 1 ->
  let p' := tick h out p in
  find_loop h p' = None /\
  alerts p' = (alerts p ++ [polling_alert msg_timeout])%list /\
  (owner l = instance p -> isAnalyzing p' = false).
Proof.
  intros H N D p'. pose proof (find_loop_handle _ _ _ H) as Hh.
  assert (L : (maxAttempts <=? attempts l + 1) = true) by (apply Z.leb_le; lia).
  destruct out as [m|body]; [discriminate|]. simpl in N.
  assert (E : exists q, p' = catch_tick l msg_timeout (clearInterval h q) /\
                        alerts q = alerts p /\ instance q = instance p).
  { unfold p', tick. rewrite H. unfold try_tick, check_deadline.
    rewrite L, Hh.
    destruct (Js.truthy (status_of body)) eqn:T; simpl in N.
    - unfold in_progress in N. rewrite T in N. simpl in N.
      apply andb_true_iff in N as [N1 N2].
      apply negb_true_iff in N1, N2. rewrite N1, N2.
      eexists. split; [reflexivity|]. now setters.
    - eexists. split; [reflexivity|]. now setters. }
  destruct E as (q & -> & A & I). repeat split.
  - unfold find_loop, catch_tick. rewrite Hh. setters; apply find_after_clear.
  - setters; now rewrite A.
  - intros Ho. unfold_page. now rewrite I, Ho, Nat.eqb_refl.
Qed.

Lemma Forall_firstn {A} (P : A -> Prop) (xs : list A) :
  Forall P xs -> forall k, Forall P (firstn k xs).
Proof.
  induction 1 as [|x xs Hx _ IH]; intros [|k]; simpl; auto.
Qed.

Lemma append_inj_l (pre a b : string) : (pre ++ a)%string = (pre ++ b)%string -> a = b.
Proof. induction pre as [|c pre IH]; simpl; [auto|]. intros [= E]. auto. Qed.

Lemma failed_is_not_completed v :
  Js.is_str v "failed" = true -> Js.is_str v "completed" = false.
Proof.
  destruct v; simpl; try discriminate. intros E.
  apply String.eqb_eq in E. now subst.
Qed.

(** *** Lists *)

Section Counting.

Context {A : Type} (f g : A -> bool).

Lemma filter_twice (xs : list A) : filter g (filter g xs) = filter g xs.
Proof.
  induction xs as [|x xs IH]; simpl; [reflexivity|].
  destruct (g x) eqn:E; simpl; rewrite ?E, IH; reflexivity.
Qed.

End Counting.

End PollingFacts.

(** ** Properties of the polling callbacks, firings and answers apart *)

Module InFlightFacts.

Import Polling InFlight.
Import PollingFacts.

(** *** The atomic tick is one round *)

(** A firing whose query is answered at once is [Polling.tick]. *)
Lemma tick_as_answer h out p l :
  find_loop h p = Some l ->
  tick h out p = answer_page (bumped l) out (bump h p).
Proof.
  intros H. pose proof (find_loop_handle _ _ _ H) as Hh.
  unfold tick, answer_page. rewrite H. subst h.
  unfold try_tick, try_answer, Polling.check_deadline, check_deadline,
    on_completed.
  cbn [bumped handle owner user_name attempts]. reflexivity.
Qed.

(** ... and a start whose request is answered at once is
    [Polling.handleStartAnalysis]. *)
Lemma start_as_handler u out p :
  handleStartAnalysis u out p
  = match start_request u p with
    | (p', true) => start_polling (instance p) u out p'
    | (p', false) => p'
    end.
Proof.
  unfold handleStartAnalysis, start_request.
  now destruct (negb (Js.truthy (name u)) || negb (Js.truthy (height u))
                || negb (Js.truthy (gender u))).
Qed.

Lemma find_snoc_fresh {A : Type} (key : A -> nat) (n : nat) (xs : list A) (x : A) :
  forallb (fun y => Nat.ltb (key y) n) xs = true -> key x = n ->
  find (fun y => Nat.eqb (key y) n) (xs ++ [x]) = Some x /\
  filter (fun y => negb (Nat.eqb (key y) n)) (xs ++ [x]) = xs /\
  find (fun y => Nat.eqb (key y) n) xs = None.
Proof.
  intros F K. induction xs as [|a xs IH]; cbn [app find filter forallb] in *.
  - rewrite K, Nat.eqb_refl. auto.
  - apply andb_true_iff in F as [Fa Fx]. apply Nat.ltb_lt in Fa.
    destruct (Nat.eqb_spec (key a) n) as [E|_]; [lia|]. cbn [negb].
    destruct (IH Fx) as (I1 & I2 & I3). rewrite I2. auto.
Qed.

Lemma forallb_weaken {A : Type} (key : A -> nat) (n : nat) (xs : list A) :
  forallb (fun y => Nat.ltb (key y) n) xs = true ->
  forallb (fun y => Nat.ltb (key y) (S n)) xs = true.
Proof.
  rewrite !forallb_forall. intros F x I. specialize (F x I).
  apply Nat.ltb_lt in F. apply Nat.ltb_lt. lia.
Qed.

Lemma start_page u out w :
  fresh w = true ->
  page (start u out w) = click_start u out (page w) /\ fresh (start u out w) = true.
Proof.
  intros F. unfold fresh in F. apply andb_true_iff in F as [Fq Fr].
  unfold start, click, click_start.
  assert (N : find_request (nextRequest w) w = None).
  { unfold find_request.
    destruct (find _ (requests w)) as [x|] eqn:E; [|reflexivity].
    apply find_some in E as [I E]. apply Nat.eqb_eq in E.
    rewrite forallb_forall in Fr. specialize (Fr x I).
    apply Nat.ltb_lt in Fr. lia. }
  destruct (isAnalyzing (page w)).
  { unfold respond. rewrite N. split; [reflexivity|].
    unfold fresh. now rewrite Fq, Fr. }
  rewrite start_as_handler.
  destruct (start_request u (page w)) as [p [|]].
  - destruct (find_snoc_fresh request (nextRequest w) (requests w)
                {| request := nextRequest w; requester := instance (page w);
                   info := u |} Fr eq_refl) as (S1 & S2 & _).
    unfold respond, find_request. cbn [requests nextRequest]. rewrite S1, S2.
    cbn [page requester info]. split; [reflexivity|].
    unfold fresh. cbn [queries requests nextQuery nextRequest].
    rewrite Fq. now apply forallb_weaken.
  - unfold respond, find_request, with_page. cbn [requests nextRequest].
    fold (find_request (nextRequest w) w). rewrite N. split; [reflexivity|].
    unfold fresh. cbn [queries requests nextQuery nextRequest].
    now rewrite Fq, Fr.
Qed.

Lemma round_page h out w :
  fresh w = true ->
  page (round h out w) = tick h out (page w) /\ fresh (round h out w) = true.
Proof.
  intros F. pose proof F as F'. unfold fresh in F.
  apply andb_true_iff in F as [Fq Fr]. unfold round, fire.
  destruct (find_loop h (page w)) as [l|] eqn:H.
  - destruct (find_snoc_fresh query (nextQuery w) (queries w)
                {| query := nextQuery w; asker := h |} Fq eq_refl) as (S1 & S2 & _).
    unfold answer, find_query, closure. cbn [queries page asker nextQuery].
    rewrite S1, S2. cbn [asker].
    rewrite (find_loop_bump h (page w) l H). cbn [page].
    split; [symmetry; now apply tick_as_answer|].
    unfold fresh. cbn [queries requests nextQuery nextRequest].
    rewrite Fr, andb_true_r. now apply forallb_weaken.
  - assert (N : find_query (nextQuery w) w = None).
    { unfold find_query.
      destruct (find _ (queries w)) as [x|] eqn:E; [|reflexivity].
      apply find_some in E as [I E]. apply Nat.eqb_eq in E.
      rewrite forallb_forall in Fq. specialize (Fq x I).
      apply Nat.ltb_lt in Fq. lia. }
    unfold answer. rewrite N. split; [|exact F'].
    unfold tick. now rewrite H.
Qed.

Lemma rounds_page h outs :
  forall w, fresh w = true ->
            page (rounds h outs w) = ticks h outs (page w) /\
            fresh (rounds h outs w) = true.
Proof.
  induction outs as [|out outs IH]; intros w F; [auto|].
  destruct (round_page h out w F) as (P & F1).
  destruct (IH (round h out w) F1) as (P2 & F2).
  change (rounds h (out :: outs) w) with (rounds h outs (round h out w)).
  change (ticks h (out :: outs) (page w)) with (ticks h outs (tick h out (page w))).
  rewrite <- P. auto.
Qed.

(** *** One answer *)

Lemma closure_handle h w l : closure h w = Some l -> handle l = h.
Proof.
  unfold closure. destruct (find_loop h (page w)) as [l'|] eqn:H.
  - intros [= <-]. now apply find_loop_handle with (page w).
  - intros F. apply find_some in F as [_ F]. now apply same_handle_eq.
Qed.

Lemma answer_found q out w x l :
  find_query q w = Some x -> closure (asker x) w = Some l ->
  page (step w (Answer q out)) = answer_page l out (page w).
Proof. intros Q C. cbn [step]. unfold answer. now rewrite Q, C. Qed.

Ltac answer_cases body l :=
  destruct (Js.truthy (status_of body));
  [destruct (Js.is_str (Js.get (status_of body) "status") "completed");
   [destruct (Js.truthy (Js.get (status_of body) "result"));
    [destruct (Js.has_properties (Js.get (status_of body) "result"));
     [destruct (usable _)|]|]
   |destruct (Js.is_str (Js.get (status_of body) "status") "failed")]|];
  try destruct (maxAttempts <=? attempts l).

(** An answer for a loop that belongs to an earlier instance shows
    nothing. *)
Lemma answer_foreign_display l out p :
  owner l <> instance p -> display (answer_page l out p) = display p.
Proof.
  intros Ne. apply Nat.eqb_neq in Ne.
  unfold answer_page, try_answer, on_completed, check_deadline, display.
  destruct out as [m|body].
  - unfold_page. now rewrite Ne.
  - answer_cases body l; unfold_page; now rewrite ?Ne.
Qed.

(** An answer in progress for a loop of the mounted instance is shown. *)
Lemma answer_progress l body p :
  owner l = instance p -> in_progress body = true ->
  analysisProgress (answer_page l (Resolves body) p) = reported_progress body.
Proof.
  intros O N. unfold in_progress in N.
  apply andb_true_iff in N as [N N3]. apply andb_true_iff in N as [N1 N2].
  apply negb_true_iff in N2, N3.
  unfold answer_page, try_answer, check_deadline, reported_progress.
  rewrite N1, N2, N3.
  destruct (maxAttempts <=? attempts l); unfold_page;
    now rewrite O, Nat.eqb_refl.
Qed.

(** A failed query ends in the [catch]. *)
Lemma answer_throws l m p :
  let p' := answer_page l (Throws m) p in
  find_loop (handle l) p' = None /\
  alerts p' = (alerts p ++ [polling_alert m])%list /\
  (owner l = instance p -> isAnalyzing p' = false).
Proof.
  unfold answer_page, try_answer, catch_tick. cbv zeta.
  split; [|split].
  - unfold find_loop. setters; apply find_after_clear.
  - now setters.
  - intros O. unfold_page. now rewrite O, Nat.eqb_refl.
Qed.

(** An answer without a terminal status that finds the counter below
    the budget reports nothing and leaves the timers alone. *)
Lemma answer_non_terminal_early l out p :
  non_terminal out = true -> attempts l < maxAttempts ->
  let p' := answer_page l out p in
  alerts p' = alerts p /\ intervals p' = intervals p /\
  timeouts p' = timeouts p /\ isAnalyzing p' = isAnalyzing p.
Proof.
  intros N D. assert (L : (maxAttempts <=? attempts l) = false)
    by (apply Z.leb_gt; lia).
  destruct out as [m|body]; [discriminate|]. cbn [non_terminal] in N.
  unfold answer_page, try_answer, check_deadline. rewrite L.
  destruct (Js.truthy (status_of body)) eqn:T; cbn [negb orb] in N.
  - unfold in_progress in N. rewrite T in N. cbn [andb] in N.
    apply andb_true_iff in N as [N1 N2]. apply negb_true_iff in N1, N2.
    rewrite N1, N2. cbv zeta. repeat split; now setters.
  - cbv zeta. auto.
Qed.

(** ... and one that finds the counter at the budget, or beyond it. *)
Lemma answer_non_terminal_late l out p :
  non_terminal out = true -> maxAttempts <= attempts l ->
  let p' := answer_page l out p in
  find_loop (handle l) p' = None /\
  alerts p' = (alerts p ++ [polling_alert msg_timeout])%list /\
  (owner l = instance p -> isAnalyzing p' = false).
Proof.
  intros N D. assert (L : (maxAttempts <=? attempts l) = true)
    by (apply Z.leb_le; lia).
  destruct out as [m|body]; [discriminate|]. cbn [non_terminal] in N.
  assert (E : exists q, answer_page l (Resolves body) p
                        = catch_tick l msg_timeout (clearInterval (handle l) q) /\
                        alerts q = alerts p /\ instance q = instance p).
  { unfold answer_page, try_answer, check_deadline. rewrite L.
    destruct (Js.truthy (status_of body)) eqn:T; cbn [negb orb] in N.
    - unfold in_progress in N. rewrite T in N. cbn [andb] in N.
      apply andb_true_iff in N as [N1 N2]. apply negb_true_iff in N1, N2.
      rewrite N1, N2. eexists. split; [reflexivity|]. now setters.
    - eexists. split; [reflexivity|]. auto. }
  destruct E as (q & E & A & I). cbv zeta. rewrite E.
  split; [|split].
  - unfold find_loop, catch_tick. setters; apply find_after_clear.
  - setters; now rewrite A.
  - intros Ho. unfold_page. now rewrite I, Ho, Nat.eqb_refl.
Qed.

(** A ['failed'] status: the server's text goes through the same [catch]. *)
Lemma answer_server_failure l body p :
  server_failure body = true ->
  alerts (answer_page l (Resolves body) p)
  = (alerts p ++ [polling_alert (failure_text body)])%list.
Proof.
  intros S. unfold server_failure in S. apply andb_true_iff in S as [T F].
  pose proof (failed_is_not_completed _ F) as C.
  unfold answer_page, try_answer. rewrite T, C, F. now setters.
Qed.

(** *** C4: the deadline *)

(** C4, as the code has it.  The counter [attempts] counts the firings
    of the interval; the deadline is tested when an answer arrives.  An
    answer without a terminal status that finds the counter below 60
    reports nothing and leaves the interval set.  Every such answer that
    finds the counter at 60 or more clears the interval, resets
    [isAnalyzing] and shows the alert built from the fixed timeout text.
    When each query is answered before the interval fires again and
    none of the first 60 answers has a terminal status, the loop is live
    and silent through answer 59, and answer 60 is the one that reports
    the timeout.  A server-reported failure goes through the same
    [catch] and shows the alert built from the server's text (or the
    default failure text), so the two alerts differ exactly when that
    text is not the timeout text; the default failure text is not. *)
Theorem deadline_reports_timeout (w : World) (h : nat) (l : Loop)
    (outs : list Outcome) :
  (forall q x c out,
     find_query q w = Some x -> closure (asker x) w = Some c ->
     non_terminal out = true ->
     let w' := step w (Answer q out) in
     (attempts c < maxAttempts ->
      alerts (page w') = alerts (page w) /\
      intervals (page w') = intervals (page w) /\
      isAnalyzing (page w') = isAnalyzing (page w)) /\
     (maxAttempts <= attempts c ->
      find_loop (asker x) (page w') = None /\
      alerts (page w') = (alerts (page w) ++ [polling_alert msg_timeout])%list /\
      (owner c = instance (page w) -> isAnalyzing (page w') = false))) /\
  (fresh w = true -> find_loop h (page w) = Some l -> attempts l = 0 ->
   Z.of_nat (List.length outs) = maxAttempts ->
   Forall (fun out => non_terminal out = true) outs ->
   (forall k, (k < List.length outs)%nat ->
      find_loop h (page (rounds h (firstn k outs) w)) <> None /\
      alerts (page (rounds h (firstn k outs) w)) = alerts (page w)) /\
   (let w' := rounds h outs w in
    find_loop h (page w') = None /\
    alerts (page w') = (alerts (page w) ++ [polling_alert msg_timeout])%list /\
    (owner l = instance (page w) -> isAnalyzing (page w') = false))) /\
  (forall q x c body,
     find_query q w = Some x -> closure (asker x) w = Some c ->
     server_failure body = true ->
     alerts (page (step w (Answer q (Resolves body))))
     = (alerts (page w) ++ [polling_alert (failure_text body)])%list /\
     (polling_alert (failure_text body) = polling_alert msg_timeout
      <-> failure_text body = msg_timeout)) /\
  polling_alert msg_failed <> polling_alert msg_timeout.
Proof.
  split; [|split; [|split]].
  - intros q x c out Q C N w'. unfold w'.
    rewrite (answer_found q out w x c Q C).
    pose proof (closure_handle _ _ _ C) as Hc. split.
    + intros D.
      destruct (answer_non_terminal_early c out (page w) N D) as (A & I & _ & B).
      auto.
    + intros D.
      destruct (answer_non_terminal_late c out (page w) N D) as (F & A & B).
      rewrite Hc in F. auto.
  - intros F H A0 Len N. unfold maxAttempts in Len. split.
    + intros k Hk.
      destruct (rounds_page h (firstn k outs) w F) as (P & _). rewrite P.
      destruct (ticks_non_terminal h (firstn k outs) (page w) l H)
        as (l' & Fl & _ & _ & A & _).
      * now apply Forall_firstn.
      * rewrite length_firstn. unfold maxAttempts. lia.
      * cbv zeta in Fl. rewrite Fl. split; [discriminate|exact A].
    + destruct (rounds_page h outs w F) as (P & _). cbv zeta. rewrite P.
      destruct (exists_last (l := outs)) as (init & out & ->).
      { intros ->. simpl in Len. lia. }
      rewrite length_app in Len. simpl in Len.
      apply Forall_app in N as [Ni No]. inversion No as [|? ? No1 _]; subst.
      destruct (ticks_non_terminal h init (page w) l H Ni)
        as (l' & Fl & O & T & A & I & B).
      { unfold maxAttempts. lia. }
      rewrite ticks_app. change (ticks h [out] ?y) with (tick h out y).
      destruct (tick_deadline h _ l' out Fl No1) as (F' & A' & B').
      { unfold maxAttempts. lia. }
      cbv zeta in Fl, A, I. split; [exact F'|]. split.
      * now rewrite A', A.
      * intros Ho. apply B'. now rewrite O, I.
  - intros q x c body Q C S.
    rewrite (answer_found q _ w x c Q C). split.
    + now apply answer_server_failure.
    + split; [apply append_inj_l | now intros ->].
  - intros E. apply append_inj_l in E. discriminate E.
Qed.

Lemma deadline_reports_timeout_witness :
  let proc := Resolves (Scenario.status_body "processing" 40 []) in
  let outs := repeat proc 60 in
  let body := Scenario.status_body "failed" 40 [] in
  let late := run_from (rounds 0 (repeat proc 59) started) [Fire 0; Fire 0] in
  fresh started = true /\
  find_loop 0 (page (rounds 0 outs started)) = None /\
  alerts (page (rounds 0 outs started)) = [polling_alert msg_timeout] /\
  isAnalyzing (page (rounds 0 outs started)) = false /\
  find_loop 0 (page (rounds 0 (firstn 59 outs) started)) <> None /\
  alerts (page (step late (Answer 59 proc))) = [polling_alert msg_timeout] /\
  alerts (page (step late (Answer 60 (Resolves body)))) = [polling_alert msg_failed].
Proof.
  intros proc outs body late.
  assert (N : Forall (fun out => non_terminal out = true) outs).
  { apply Forall_forall. intros out I. apply repeat_spec in I. now subst. }
  pose proof (deadline_reports_timeout started 0 Scenario.first_loop outs)
    as (_ & W & _).
  destruct (W eq_refl eq_refl eq_refl eq_refl N) as (W1 & W2 & W3 & W4).
  pose proof (deadline_reports_timeout late 0 Scenario.first_loop outs)
    as (L1 & _ & L3 & _).
  assert (Q : find_query 59 late = Some {| query := 59; asker := 0 |})
    by (vm_compute; reflexivity).
  assert (Q' : find_query 60 late = Some {| query := 60; asker := 0 |})
    by (vm_compute; reflexivity).
  assert (C : closure 0 late
              = Some {| handle := 0; owner := 0; user_name := Js.Str "Alice";
                        diagnosisId := Js.Str "d1"; attempts := 61 |})
    by (vm_compute; reflexivity).
  destruct (L1 59%nat _ _ proc Q C eq_refl) as (_ & La).
  destruct La as (_ & La & _); [vm_compute; discriminate|].
  destruct (L3 60%nat _ _ body Q' C eq_refl) as (Lf & _).
  split; [reflexivity|]. split; [exact W2|]. split; [exact W3|].
  split; [exact (W4 eq_refl)|].
  split; [exact (proj1 (W1 59%nat ltac:(simpl; lia)))|].
  split; [exact La|exact Lf].
Defined.

(** C4 as stated fails.  It fails on the distinctness: after 59 rounds
    in progress and a 60th firing, an answer still in progress (the
    timeout) and an answer reporting ['failed'] with the same fields and
    the timeout text as its error leave the same state with the same
    alert.  And the loop neither cancels itself after firing 60 nor
    reports one outcome when answers are late: here the interval fires
    a 59th and a 60th time before the 59th query is answered; the
    answer to the 59th query finds the counter at 60 and reports the
    timeout, and so does the answer to the 60th. *)
Lemma timeout_not_distinct_from_failure :
  let body := Scenario.status_body "processing" 40 [] in
  let failed := Scenario.status_body "failed" 40 [("error", Js.Str msg_timeout)] in
  let before := fire 0 (rounds 0 (repeat (Resolves body) 59) started) in
  let late := run_from (rounds 0 (repeat (Resolves body) 58) started)
                [Fire 0; Fire 0] in
  let once := step late (Answer 58 (Resolves body)) in
  let twice := step once (Answer 59 (Resolves body)) in
  non_terminal (Resolves body) = true /\ server_failure failed = true /\
  find_loop 0 (page before) <> None /\
  step before (Answer 59 (Resolves body)) = step before (Answer 59 (Resolves failed)) /\
  alerts (page (step before (Answer 59 (Resolves failed))))
  = [polling_alert msg_timeout] /\
  alerts (page late) = [] /\
  alerts (page once) = [polling_alert msg_timeout] /\
  alerts (page twice) = [polling_alert msg_timeout; polling_alert msg_timeout].
Proof. vm_compute. repeat split. discriminate. Qed.

(** *** C3: starting a job while a loop is in flight *)

Lemma start_request_shape u p :
  intervals (fst (start_request u p)) = intervals p.
Proof.
  unfold start_request.
  destruct (negb (Js.truthy (name u)) || negb (Js.truthy (height u))
            || negb (Js.truthy (gender u))); now setters.
Qed.

Lemma start_polling_shape who u out p :
  exists added, intervals (start_polling who u out p) = (intervals p ++ added)%list.
Proof.
  unfold start_polling, request_failed. destruct out as [m|d].
  - exists []. rewrite app_nil_r. now setters.
  - destruct (negb (Js.truthy _)).
    + exists []. rewrite app_nil_r. now setters.
    + eexists. unfold setInterval. cbn [intervals]. setters. reflexivity.
Qed.

(** C3, as the code has it.  [handleStartAnalysis] invalidates nothing:
    neither before nor after its request is answered does it clear an
    interval or drop a status query in flight; it only ever adds an
    interval.  The one guard is the start button, disabled while
    [isAnalyzing]: pressed then, it does nothing.  The answers of a loop
    that belongs to an earlier instance of the page are discarded, its
    state updates being dropped: they never change what the mounted
    page displays.  The answers of a loop of the mounted instance are
    not, whether or not its interval is still set and whether or not a
    newer job was started: an answer in progress sets the displayed
    progress, and a failed query resets [isAnalyzing] and shows an
    alert. *)
Theorem start_keeps_earlier_loops (w : World) :
  (forall e, starts e = true ->
     (exists added,
        intervals (page (step w e)) = (intervals (page w) ++ added)%list) /\
     queries (step w e) = queries w /\ cleared (step w e) = cleared w) /\
  (forall u, isAnalyzing (page w) = true -> step w (Click u) = w) /\
  (forall q x l out,
     find_query q w = Some x -> closure (asker x) w = Some l ->
     owner l <> instance (page w) ->
     display (page (step w (Answer q out))) = display (page w)) /\
  (forall q x l body,
     find_query q w = Some x -> closure (asker x) w = Some l ->
     owner l = instance (page w) -> in_progress body = true ->
     analysisProgress (page (step w (Answer q (Resolves body))))
     = reported_progress body) /\
  (forall q x l m,
     find_query q w = Some x -> closure (asker x) w = Some l ->
     owner l = instance (page w) ->
     isAnalyzing (page (step w (Answer q (Throws m)))) = false /\
     alerts (page (step w (Answer q (Throws m))))
     = (alerts (page w) ++ [polling_alert m])%list).
Proof.
  split; [|split; [|split; [|split]]].
  - intros e S. destruct e as [u|r out|h|q out| |]; try discriminate; cbn [step].
    + unfold click. destruct (isAnalyzing (page w)).
      { split; [exists []; now rewrite app_nil_r|auto]. }
      pose proof (start_request_shape u (page w)) as I.
      destruct (start_request u (page w)) as [p [|]]; cbn [fst] in I;
        cbn [page queries cleared with_page]; rewrite I;
        (split; [exists []; now rewrite app_nil_r|auto]).
    + unfold respond. destruct (find_request r w) as [x|].
      * cbn [page queries cleared]. split; [apply start_polling_shape|auto].
      * split; [exists []; now rewrite app_nil_r|auto].
  - intros u B. cbn [step]. unfold click. now rewrite B.
  - intros q x l out Q C Ne. rewrite (answer_found q out w x l Q C).
    now apply answer_foreign_display.
  - intros q x l body Q C O N. rewrite (answer_found q _ w x l Q C).
    now apply answer_progress.
  - intros q x l m Q C O. rewrite (answer_found q _ w x l Q C).
    destruct (answer_throws l m (page w)) as (_ & A & B). auto.
Qed.

Lemma start_keeps_earlier_loops_witness :
  let w := run [Click Scenario.alice; Respond 0 (Resolves (Scenario.accepted "d1"));
                Fire 0; Remount; Click Scenario.alice] in
  let body := Scenario.status_body "processing" 70 [] in
  isAnalyzing (page w) = true /\
  step w (Click Scenario.alice) = w /\
  find_loop 0 (page (step w (Respond 1 (Resolves (Scenario.accepted "d2"))))) <> None /\
  display (page (step w (Answer 0 (Resolves body)))) = display (page w).
Proof.
  intros w body.
  pose proof (start_keeps_earlier_loops w) as (W1 & W2 & W3 & _).
  assert (B : isAnalyzing (page w) = true) by (vm_compute; reflexivity).
  assert (Q : find_query 0 w = Some {| query := 0; asker := 0 |})
    by (vm_compute; reflexivity).
  assert (C : closure 0 w
              = Some {| handle := 0; owner := 0; user_name := Js.Str "Alice";
                        diagnosisId := Js.Str "d1"; attempts := 1 |})
    by (vm_compute; reflexivity).
  assert (Ne : owner {| handle := 0; owner := 0; user_name := Js.Str "Alice";
                        diagnosisId := Js.Str "d1"; attempts := 1 |}
               <> instance (page w)) by (vm_compute; discriminate).
  destruct (W1 (Respond 1 (Resolves (Scenario.accepted "d2"))) eq_refl)
    as ((added & I) & _).
  split; [exact B|]. split; [exact (W2 Scenario.alice B)|]. split.
  - assert (L : In {| handle := 0; owner := 0; user_name := Js.Str "Alice";
                      diagnosisId := Js.Str "d1"; attempts := 1 |}
                   (intervals (page w))) by (vm_compute; now left).
    unfold find_loop. rewrite I. intros F.
    pose proof (find_none _ _ F _ (in_or_app _ _ _ (or_introl L))) as X.
    discriminate X.
  - exact (W3 0%nat _ _ (Resolves body) Q C Ne).
Defined.

(** C3 as stated fails.  After the run [two_jobs] the interval of job
    [d2] is set and the start button is enabled.  Job [d3] is started:
    the interval of [d2] is still set next to the new one.  It fires,
    and the answer to its query, a status in progress, replaces the
    progress and the message displayed for job [d3]. *)
Lemma superseded_loop_updates_display :
  let before := run two_jobs in
  let w := run three_jobs in
  let body := Scenario.status_body "processing" 70 [("message", Js.Str "job d2")] in
  let w' := run_from w [Fire 1; Answer 2 (Resolves body)] in
  map diagnosisId (intervals (page before)) = [Js.Str "d2"] /\
  isAnalyzing (page before) = false /\
  map diagnosisId (intervals (page w)) = [Js.Str "d2"; Js.Str "d3"] /\
  find_loop 1 (page w) <> None /\
  analysisProgress (page w) = Js.Num 20 /\
  analysisMessage (page w) = Js.Str "랭그래프 분석 중..." /\
  analysisProgress (page w') = Js.Num 70 /\
  analysisMessage (page w') = Js.Str "job d2".
Proof. vm_compute. repeat split. discriminate. Qed.

End InFlightFacts.

(** ** Properties of the realtime alert monitor *)

Module FallHookFacts.

Import FallHook.

Ltac unfold_hook :=
  cbn [handleEmergencyCall handleAlertCancel fire on_subscribed on_closed
       on_failure on_insert subscribe removeChannel clearTimeout setTimeout
       toast fst snd
       setIsFallDetected setIsSubscriptionActive setConnectionStatus
       setReconnectAttempts with_reconnectTimeoutRef with_channelRef
       with_isReconnectingRef with_hasCleanup with_channels with_opened
       with_timers with_nextTimer with_toasts with_emergencyLog with_dialled
       with_alerts
       isFallDetected isSubscriptionActive connectionStatus reconnectAttempts
       reconnectTimeoutRef channelRef isReconnectingRef hasCleanup channels
       opened timers nextTimer toasts emergencyLog dialled alerts] in *.

(** Split syntactic conjunctions only. *)
Ltac splits := repeat match goal with |- _ /\ _ => split end.

(** *** C7: the backoff delay *)

(** C7.  The delay [min(5000 * nextAttempt, 30000)] does not decrease
    when the attempt number grows and never exceeds 30000 ms, for all
    attempt numbers (those from 0 to [maxReconnectAttempts] included);
    it is the delay of the timer that the failure branch schedules. *)
Theorem reconnect_delay_monotone_bounded (a b : Z) :
  a <= b ->
  reconnect_delay a <= reconnect_delay b /\
  reconnect_delay b <= 30000 /\
  (forall k errorType h,
      seen_attempts k + 1 = b -> seen_attempts k < maxReconnectAttempts ->
      isReconnectingRef h = false ->
      timers (on_failure k errorType h)
      = (timers h ++ [(nextTimer h, Reconnect (reconnect_delay b) b)])%list).
Proof.
  intros Hab. unfold reconnect_delay. repeat split; try lia.
  intros k errorType h Hk Lt Hr. unfold on_failure.
  apply Z.ltb_lt in Lt. rewrite Lt, Hr, Hk. reflexivity.
Qed.

Lemma reconnect_delay_monotone_bounded_witness :
  1 <= 3 /\
  reconnect_delay 1 <= reconnect_delay 3 /\
  reconnect_delay 3 <= 30000 /\
  timers (on_failure {| chan := 0; seen_active := true; seen_attempts := 2 |}
            "채널" initial)
  = [(1%nat, Reconnect (reconnect_delay 3) 3)].
Proof.
  assert (A : 1 <= 3) by lia.
  pose proof (reconnect_delay_monotone_bounded 1 3 A) as (W1 & W2 & W3).
  split; [exact A|]. split; [exact W1|]. split; [exact W2|].
  exact (W3 {| chan := 0; seen_active := true; seen_attempts := 2 |} "채널"
            initial eq_refl eq_refl eq_refl).
Defined.

(** *** The invariants of the hook *)

Section Lists.

Context {A : Type} (P : A -> Prop) (f : A -> bool).

Lemma Forall_filter_keep (xs : list A) : Forall P xs -> Forall P (filter f xs).
Proof.
  induction 1 as [|x xs Hx _ IH]; simpl; [constructor|].
  destruct (f x); auto.
Qed.

Lemma Forall_snoc (xs : list A) (x : A) : Forall P xs -> P x -> Forall P (xs ++ [x]).
Proof. intros. apply Forall_app. auto. Qed.

End Lists.

Lemma fresh_weaken h (ts : list (nat * Timer)) :
  Forall (fun t => (fst t < nextTimer h)%nat) ts ->
  Forall (fun t => (fst t < S (nextTimer h))%nat) ts.
Proof. apply Forall_impl. intros; lia. Qed.

Lemma shape_of_inv h : counter_inv h -> channel_inv h -> channel_shape h.
Proof.
  intros (Ca & _) J. unfold channel_inv, channel_shape in *.
  destruct (channelRef h) as [c|]; [|exact J].
  destruct J as (Hc & _ & K). split; [exact Hc|].
  eexists. split; [exact K|]. split; [reflexivity|exact Ca].
Qed.

Lemma zero_in_budget : in_budget 0.
Proof. unfold in_budget, maxReconnectAttempts. lia. Qed.

Lemma next_in_budget n :
  in_budget n -> (n <? maxReconnectAttempts) = true -> in_budget (n + 1).
Proof. unfold in_budget. intros B L. apply Z.ltb_lt in L. lia. Qed.

(** Closing tactics for the goals left by a handler. *)
Ltac forall_solve :=
  repeat match goal with
         | H : Forall ?P ?xs |- Forall ?P ?xs => exact H
         | |- Forall _ (_ ++ [_]) => apply Forall_snoc
         | |- Forall _ (filter _ _) => apply Forall_filter_keep
         | |- Forall (fun t => (fst t < S _)%nat) _ => apply fresh_weaken
         end.

Ltac hook_solve :=
  unfold counter_inv, fresh_inv, same_channels; unfold_hook; splits;
  forall_solve;
  auto using zero_in_budget, next_in_budget;
  try (cbn [fst snd]; lia);
  try (unfold timer_ok; cbn [snd]; now auto using zero_in_budget, next_in_budget);
  try match goal with
      | T : reconnectTimeoutRef ?h = None |- context [reconnectTimeoutRef ?h] =>
          rewrite T; exact I
      end.

Lemma on_status_settled k status err h :
  counter_inv h -> fresh_inv h -> in_budget (seen_attempts k) ->
  let h' := on_status k status err h in
  counter_inv h' /\ fresh_inv h' /\ same_channels h h'.
Proof.
  intros (Ca & Cc & Ct) (Ft & Fr) Bk. unfold on_status.
  destruct err as [message|]; [hook_solve|].
  destruct status; unfold on_subscribed, on_failure, on_closed.
  - unfold_hook. destruct (reconnectTimeoutRef h) eqn:T; hook_solve.
  - destruct ((seen_attempts k <? maxReconnectAttempts) && _) eqn:D.
    + apply andb_true_iff in D as [D _]. hook_solve.
    + hook_solve.
  - destruct (seen_active k && _ && (seen_attempts k <? maxReconnectAttempts)) eqn:D.
    + apply andb_true_iff in D as [_ D]. hook_solve.
    + hook_solve.
  - destruct ((seen_attempts k <? maxReconnectAttempts) && _) eqn:D.
    + apply andb_true_iff in D as [D _]. hook_solve.
    + hook_solve.
Qed.

(** The [CLOSED] callback changes neither the state variables the
    effect depends on nor the record of what the user was shown. *)
Lemma on_closed_frame k h :
  let h' := on_status k CLOSED None h in
  isSubscriptionActive h' = isSubscriptionActive h /\
  reconnectAttempts h' = reconnectAttempts h /\
  isFallDetected h' = isFallDetected h /\
  opened h' = opened h /\ toasts h' = toasts h /\
  emergencyLog h' = emergencyLog h /\ dialled h' = dialled h /\
  alerts h' = alerts h.
Proof.
  unfold on_status, on_closed.
  destruct (seen_active k && _ && _); unfold_hook; auto 10.
Qed.

Lemma cleanup_head_settled h :
  counter_inv h -> fresh_inv h ->
  let h' := cleanup_head h in
  counter_inv h' /\ fresh_inv h' /\ same_channels h h' /\
  isSubscriptionActive h' = isSubscriptionActive h /\
  reconnectAttempts h' = reconnectAttempts h /\
  isReconnectingRef h' = false.
Proof.
  intros (Ca & Cc & Ct) (Ft & Fr). unfold cleanup_head.
  destruct (reconnectTimeoutRef h) eqn:T; hook_solve.
Qed.

Lemma cleanup_unfold h :
  cleanup h = match channelRef h with
              | Some c => with_channelRef None (removeChannel c (cleanup_head h))
              | None => cleanup_head h
              end.
Proof.
  unfold cleanup, cleanup_head.
  destruct (reconnectTimeoutRef h); unfold_hook; reflexivity.
Qed.

(** After the stored cleanup, if any, no channel is registered. *)
Lemma cleared h :
  settled h ->
  let x := if hasCleanup h then cleanup h else h in
  counter_inv x /\ fresh_inv x /\ channelRef x = None /\ channels x = [] /\
  isSubscriptionActive x = isSubscriptionActive h /\
  reconnectAttempts x = reconnectAttempts h /\
  (hasCleanup h = false -> x = h).
Proof.
  intros (C & F & Sh). unfold channel_shape in Sh.
  destruct (channelRef h) as [c|] eqn:R.
  - destruct Sh as (Hc & k & Hk & Ck & Bk). rewrite Hc. cbv zeta.
    rewrite cleanup_unfold, R.
    destruct (cleanup_head_settled h C F) as (C1 & F1 & (R1 & H1 & K1) & A1 & N1 & _).
    unfold removeChannel, find_channel. rewrite K1, Hk. cbn [find filter].
    rewrite Ck, Nat.eqb_refl. cbn [negb].
    set (y := with_channels [] (cleanup_head h)).
    assert (Cy : counter_inv y).
    { destruct C1 as (Ca & _ & Ct). unfold y, counter_inv. unfold_hook.
      splits; auto. }
    assert (Fy : fresh_inv y) by exact F1.
    destruct (on_status_settled k CLOSED None y Cy Fy Bk) as (C2 & F2 & (R2 & H2 & K2)).
    destruct (on_closed_frame k y) as (A2 & N2 & _).
    unfold counter_inv, fresh_inv in *. unfold_hook.
    rewrite K2, A2, N2. unfold y. unfold_hook. rewrite A1, N1.
    splits; try tauto. discriminate.
  - destruct Sh as (Hc & Hk). rewrite Hc. cbv zeta.
    destruct C as (Ca & Cc & Ct). destruct F as (Ft & Fr).
    unfold counter_inv, fresh_inv. splits; auto.
Qed.

(** The effect run in a state without registered channel. *)
Lemma effect_inv env x :
  counter_inv x -> fresh_inv x -> channelRef x = None -> channels x = [] ->
  hook_inv (effect env x).
Proof.
  intros (Ca & Cc & Ct) (Ft & Fr) R K. unfold effect.
  destruct (negb (isSubscriptionActive x)) eqn:Act;
    [|destruct (isReconnectingRef x); [|destruct (check_env env)]];
    unfold hook_inv, counter_inv, fresh_inv, channel_inv; unfold_hook;
    rewrite ?R; unfold_hook; rewrite ?K;
    splits; auto.
  - constructor; [exact Ca|constructor].
  - now apply negb_false_iff in Act.
  - apply negb_false_iff in Act. now rewrite Act.
Qed.

Lemma mount_inv env : hook_inv (mount env).
Proof.
  apply effect_inv; try reflexivity.
  - unfold counter_inv, in_budget, maxReconnectAttempts. simpl.
    splits; auto; lia.
  - split; simpl; auto.
Qed.

Lemma rerender_inv env before h :
  hook_inv before -> settled h ->
  channelRef h = channelRef before -> hasCleanup h = hasCleanup before ->
  channels h = channels before ->
  hook_inv (rerender env before h).
Proof.
  intros (_ & _ & Jb) S R C K. unfold rerender.
  destruct (Bool.eqb _ _ && (_ =? _)) eqn:D.
  - apply andb_true_iff in D as [Da Dn].
    apply Bool.eqb_prop in Da. apply Z.eqb_eq in Dn.
    destruct S as (Sc & Sf & _). split; [exact Sc|]. split; [exact Sf|].
    unfold channel_inv in *. rewrite R, C, K, <- Da, <- Dn. exact Jb.
  - destruct (cleared h S) as (Xc & Xf & Xr & Xk & _).
    now apply effect_inv.
Qed.

Lemma find_channel_in c h k : find_channel c h = Some k -> In k (channels h).
Proof. unfold find_channel. intros F. now apply find_some in F. Qed.

Lemma find_timer_in id h cb :
  find_timer id h = Some cb -> exists id', In (id', cb) (timers h).
Proof.
  unfold find_timer. destruct (find _ (timers h)) as [[id' cb']|] eqn:F;
    simpl; [|discriminate].
  intros [= ->]. apply find_some in F. exists id'. tauto.
Qed.

Lemma fire_settled id cb h :
  counter_inv h -> fresh_inv h -> find_timer id h = Some cb ->
  let h' := fire cb (clearTimeout id h) in
  counter_inv h' /\ fresh_inv h' /\ same_channels h h'.
Proof.
  intros (Ca & Cc & Ct) (Ft & Fr) F.
  destruct (find_timer_in _ _ _ F) as (id' & Hin).
  assert (Ok : timer_ok (id', cb)) by (rewrite Forall_forall in Ct; auto).
  destruct cb as [delay nextAttempt|delay]; unfold fire; hook_solve.
  destruct (reconnectTimeoutRef h); [lia|exact I].
Qed.

Lemma handlers_settled phone h :
  counter_inv h -> fresh_inv h ->
  (counter_inv (on_insert h) /\ fresh_inv (on_insert h) /\
   same_channels h (on_insert h)) /\
  (counter_inv (handleAlertCancel h) /\ fresh_inv (handleAlertCancel h) /\
   same_channels h (handleAlertCancel h)) /\
  (counter_inv (handleEmergencyCall phone h) /\
   fresh_inv (handleEmergencyCall phone h) /\
   same_channels h (handleEmergencyCall phone h)).
Proof.
  intros (Ca & Cc & Ct) (Ft & Fr).
  unfold on_insert, handleAlertCancel, handleEmergencyCall.
  destruct (negb (String.eqb phone EmptyString)); hook_solve;
    destruct (reconnectTimeoutRef h); auto; lia.
Qed.

Lemma handle_settled e h :
  hook_inv h ->
  settled (handle e h) /\ same_channels h (handle e h).
Proof.
  intros (C & F & J). pose proof (shape_of_inv h C J) as Sh.
  assert (Keep : forall h', counter_inv h' /\ fresh_inv h' /\ same_channels h h' ->
                            settled h' /\ same_channels h h').
  { intros h' (C' & F' & S'). split; [|exact S'].
    split; [exact C'|]. split; [exact F'|].
    destruct S' as (R & Hc & K). unfold channel_shape. now rewrite R, Hc, K. }
  assert (Id : settled h /\ same_channels h h).
  { apply Keep. unfold same_channels. auto. }
  destruct (handlers_settled EmptyString h C F) as (Hi & Hc & _).
  destruct e as [c|c status err|id| |phone]; cbn [handle].
  - destruct (find_channel c h); auto.
  - destruct (find_channel c h) as [k|] eqn:Fk; [|exact Id].
    apply Keep. apply on_status_settled; auto.
    destruct C as (_ & Cc & _). rewrite Forall_forall in Cc.
    apply Cc. now apply find_channel_in with c.
  - destruct (find_timer id h) as [cb|] eqn:Ft; [|exact Id].
    apply Keep. now apply fire_settled.
  - auto.
  - apply Keep. now destruct (handlers_settled phone h C F) as (_ & _ & He).
Qed.

Lemma step_inv env h e : hook_inv h -> hook_inv (step env h e).
Proof.
  intros H. destruct (handle_settled e h H) as (S & R & C & K).
  unfold step. now apply rerender_inv.
Qed.

Lemma run_from_inv env evs : forall h, hook_inv h -> hook_inv (run_from env h evs).
Proof.
  induction evs as [|e evs IH]; simpl; auto using step_inv.
Qed.

Lemma run_inv env evs : hook_inv (run env evs).
Proof. apply run_from_inv, mount_inv. Qed.


(** *** C6: the reconnect budget *)

Lemma rerender_same env before h :
  isSubscriptionActive h = isSubscriptionActive before ->
  reconnectAttempts h = reconnectAttempts before ->
  rerender env before h = h.
Proof.
  intros A N. unfold rerender. now rewrite A, N, Bool.eqb_reflx, Z.eqb_refl.
Qed.






(** *** C10: the environment guards *)

Lemma env_error_step env h e : env_error_inv h -> env_error_inv (step env h e).
Proof.
  intros (O & K & R & A & N & S & T). unfold step.
  assert (Fc : forall c, find_channel c h = None)
    by (intros c; unfold find_channel; now rewrite K).
  destruct e as [c|c status err|id| |phone]; cbn [handle]; rewrite ?Fc.
  - rewrite rerender_same; unfold env_error_inv; auto 10.
  - rewrite rerender_same; unfold env_error_inv; auto 10.
  - destruct (find_timer id h) as [cb|] eqn:F;
      [|rewrite rerender_same; unfold env_error_inv; auto 10].
    destruct (find_timer_in _ _ _ F) as (id' & I).
    rewrite Forall_forall in T. destruct (T _ I) as (delay & D).
    simpl in D. subst cb. unfold fire.
    rewrite rerender_same; unfold env_error_inv; unfold_hook; splits; auto.
    apply Forall_filter_keep. now apply Forall_forall.
  - unfold handleAlertCancel.
    rewrite rerender_same; unfold env_error_inv; unfold_hook; splits; auto.
    apply Forall_snoc; [exact T|]. now exists 2000.
  - unfold handleEmergencyCall. destruct (negb (String.eqb phone EmptyString));
      (rewrite rerender_same; unfold env_error_inv; unfold_hook; splits; auto;
       apply Forall_snoc; [exact T|]; now exists 2000).
Qed.

(** C10.  When the URL or the key is missing, or the key contains
    [service_role], no run of the hook ever opens a channel: the effect
    returns at its guard, leaving one of the two error statuses. *)
Theorem no_channel_without_valid_env (env : Env) (evs : list Event) :
  VITE_SUPABASE_URL env = None \/ VITE_SUPABASE_ANON_KEY env = None \/
  (exists key, VITE_SUPABASE_ANON_KEY env = Some key /\
               includes key "service_role" = true) ->
  let h := run env evs in
  opened h = 0%nat /\ channels h = [] /\ channelRef h = None /\
  (connectionStatus h = "환경변수 오류" \/ connectionStatus h = "보안 오류").
Proof.
  intros Bad h.
  assert (Ne : check_env env <> EnvOk).
  { unfold check_env.
    destruct Bad as [U|[K|(key & K & S)]]; rewrite ?U, ?K; simpl.
    - discriminate.
    - rewrite orb_true_r. discriminate.
    - rewrite S. destruct (unset (VITE_SUPABASE_URL env) || _); discriminate. }
  assert (M : env_error_inv (mount env)).
  { unfold mount, effect. cbn [initial isSubscriptionActive isReconnectingRef negb].
    destruct (check_env env); [| |congruence];
      unfold env_error_inv; unfold_hook; simpl; auto 10. }
  assert (R : env_error_inv h).
  { unfold h, run. revert M. generalize (mount env).
    induction evs as [|e evs IH]; simpl; auto using env_error_step. }
  destruct R as (O & K & R & _ & _ & S & _). auto.
Qed.

Lemma no_channel_without_valid_env_witness :
  let env := {| VITE_SUPABASE_URL := Some "https://project.supabase.co";
                VITE_SUPABASE_ANON_KEY := Some "eyJ.service_role.sig" |} in
  let evs := [Status 0 SUBSCRIBED None; AlertCancel; Fire 1; Insert 0] in
  includes "eyJ.service_role.sig" "service_role" = true /\
  opened (run env evs) = 0%nat /\ connectionStatus (run env evs) = "보안 오류".
Proof.
  intros env evs. split; [reflexivity|].
  assert (Bad : VITE_SUPABASE_URL env = None \/ VITE_SUPABASE_ANON_KEY env = None \/
                (exists key, VITE_SUPABASE_ANON_KEY env = Some key /\
                             includes key "service_role" = true)).
  { right. right. exists "eyJ.service_role.sig". split; reflexivity. }
  pose proof (no_channel_without_valid_env env evs Bad) as (W1 & _ & _ & W4).
  split; [exact W1|]. destruct W4 as [W|W]; [|exact W].
  exfalso. vm_compute in W. discriminate W.
Defined.

(** *** C8: acknowledging or cancelling an alert *)

Lemma find_app_some {A : Type} (f : A -> bool) (xs ys : list A) (x : A) :
  find f xs = Some x -> find f (xs ++ ys) = Some x.
Proof.
  induction xs as [|a xs IH]; simpl; [discriminate|].
  destruct (f a); auto.
Qed.

Lemma find_filter_other (id id0 : nat) (ts : list (nat * Timer)) :
  id <> id0 ->
  find (fun t => Nat.eqb (fst t) id)
       (filter (fun t => negb (Nat.eqb (fst t) id0)) ts)
  = find (fun t => Nat.eqb (fst t) id) ts.
Proof.
  intros N. induction ts as [|t ts IH]; simpl; [reflexivity|].
  destruct (Nat.eqb_spec (fst t) id0) as [E|_]; simpl.
  - destruct (Nat.eqb_spec (fst t) id) as [E'|_]; [congruence|exact IH].
  - destruct (Nat.eqb (fst t) id); [reflexivity|exact IH].
Qed.

(** A pending timer is still pending after the [CLOSED] callback. *)
Lemma on_closed_timers k h id cb :
  find_timer id h = Some cb ->
  find_timer id (on_status k CLOSED None h) = Some cb.
Proof.
  unfold on_status, on_closed, find_timer.
  destruct (seen_active k && _ && _); unfold_hook; [|auto].
  destruct (find _ (timers h)) as [t|] eqn:F; [|discriminate].
  intros E. now rewrite (find_app_some _ _ _ _ F).
Qed.

(** What leaving a channel, the effect, its cleanup and a render leave
    alone. *)
Lemma removeChannel_frame c h :
  let r := removeChannel c h in
  reconnectAttempts r = reconnectAttempts h /\
  isSubscriptionActive r = isSubscriptionActive h /\
  isFallDetected r = isFallDetected h /\
  emergencyLog r = emergencyLog h /\
  dialled r = dialled h /\ alerts r = alerts h /\ opened r = opened h /\
  (forall id cb, find_timer id h = Some cb -> find_timer id r = Some cb).
Proof.
  unfold removeChannel. destruct (find_channel c h) as [k|]; [|auto 10].
  set (y := with_channels _ h).
  destruct (on_closed_frame k y) as (A & N & D & O & _ & L & Dl & Al).
  cbv zeta. rewrite A, N, D, O, L, Dl, Al. unfold y. unfold_hook.
  splits; auto. intros id cb F. now apply on_closed_timers.
Qed.

Lemma effect_frame env h :
  let r := effect env h in
  reconnectAttempts r = reconnectAttempts h /\
  isSubscriptionActive r = isSubscriptionActive h /\
  isFallDetected r = isFallDetected h /\
  emergencyLog r = emergencyLog h /\
  dialled r = dialled h /\ alerts r = alerts h /\
  (forall id cb, find_timer id h = Some cb -> find_timer id r = Some cb) /\
  (channelRef h = None ->
   nextTimer r = nextTimer h /\ timers r = timers h /\
   reconnectTimeoutRef r = reconnectTimeoutRef h).
Proof.
  unfold effect.
  destruct (negb (isSubscriptionActive h));
    [|destruct (isReconnectingRef h); [|destruct (check_env env)]];
    unfold_hook; try (splits; auto; fail).
  destruct (channelRef h) as [c|]; unfold_hook; [|splits; auto].
  destruct (removeChannel_frame c (setConnectionStatus "연결 중..." h))
    as (N & A & D & L & Dl & Al & O & T).
  cbv zeta in *. rewrite N, A, D, L, Dl, Al. unfold_hook.
  splits; auto. discriminate.
Qed.

Lemma cleanup_frame h :
  let r := cleanup h in
  reconnectAttempts r = reconnectAttempts h /\
  isSubscriptionActive r = isSubscriptionActive h /\
  isFallDetected r = isFallDetected h /\
  emergencyLog r = emergencyLog h /\
  dialled r = dialled h /\ alerts r = alerts h /\
  (forall id cb, find_timer id h = Some cb -> reconnectTimeoutRef h <> Some id ->
                 find_timer id r = Some cb).
Proof.
  cbv zeta. rewrite cleanup_unfold.
  assert (Hd : reconnectAttempts (cleanup_head h) = reconnectAttempts h /\
               isSubscriptionActive (cleanup_head h) = isSubscriptionActive h /\
               isFallDetected (cleanup_head h) = isFallDetected h /\
               emergencyLog (cleanup_head h) = emergencyLog h /\
               dialled (cleanup_head h) = dialled h /\
               alerts (cleanup_head h) = alerts h /\
               (forall id cb, find_timer id h = Some cb ->
                              reconnectTimeoutRef h <> Some id ->
                              find_timer id (cleanup_head h) = Some cb)).
  { unfold cleanup_head. destruct (reconnectTimeoutRef h) as [id0|]; unfold_hook;
      splits; auto.
    intros id cb F Ne. unfold find_timer in *. unfold_hook.
    rewrite find_filter_other; [exact F|congruence]. }
  destruct Hd as (N & A & D & L & Dl & Al & T).
  destruct (channelRef h) as [c|]; [|splits; auto].
  destruct (removeChannel_frame c (cleanup_head h))
    as (N' & A' & D' & L' & Dl' & Al' & _ & T').
  cbv zeta in *. unfold_hook. rewrite N', A', D', L', Dl', Al'.
  splits; auto.
  intros id cb F Ne. specialize (T' id cb (T id cb F Ne)).
  unfold find_timer in *. unfold_hook. exact T'.
Qed.

Lemma rerender_frame env before h :
  let r := rerender env before h in
  reconnectAttempts r = reconnectAttempts h /\
  isSubscriptionActive r = isSubscriptionActive h /\
  isFallDetected r = isFallDetected h /\
  emergencyLog r = emergencyLog h /\
  dialled r = dialled h /\ alerts r = alerts h /\
  (forall id cb, find_timer id h = Some cb -> reconnectTimeoutRef h <> Some id ->
                 find_timer id r = Some cb).
Proof.
  unfold rerender. destruct (Bool.eqb _ _ && (_ =? _)); [splits; auto|].
  destruct (hasCleanup h).
  - destruct (effect_frame env (cleanup h)) as (E1 & E2 & E3 & E4 & E5 & E6 & E7 & _).
    destruct (cleanup_frame h) as (C1 & C2 & C3 & C4 & C5 & C6 & C7).
    cbv zeta in *. rewrite E1, E2, E3, E4, E5, E6. splits; auto.
  - destruct (effect_frame env h) as (E1 & E2 & E3 & E4 & E5 & E6 & E7 & _).
    cbv zeta in *. splits; auto.
Qed.

Lemma rerender_dialled env before h :
  dialled (rerender env before h) = dialled h /\
  alerts (rerender env before h) = alerts h.
Proof.
  destruct (rerender_frame env before h) as (_ & _ & _ & _ & D & A & _).
  auto.
Qed.

Lemma find_fresh (n : nat) (cb : Timer) (ts : list (nat * Timer)) :
  Forall (fun t => (fst t < n)%nat) ts ->
  find (fun t => Nat.eqb (fst t) n) (ts ++ [(n, cb)]) = Some (n, cb).
Proof.
  induction 1 as [|t ts Ht _ IH]; simpl; [now rewrite Nat.eqb_refl|].
  destruct (Nat.eqb_spec (fst t) n); [lia|exact IH].
Qed.




Lemma handlers_shape phone h :
  let a := handleAlertCancel h in
  let e := handleEmergencyCall phone h in
  (reconnectAttempts a = 0 /\ isFallDetected a = false /\
   reconnectTimeoutRef a = reconnectTimeoutRef h /\
   timers a = (timers h ++ [(nextTimer h, Resume 2000)])%list /\
   isSubscriptionActive a = isSubscriptionActive h /\
   isReconnectingRef a = false /\ same_channels h a /\ opened a = opened h) /\
  (reconnectAttempts e = 0 /\ isFallDetected e = false /\
   reconnectTimeoutRef e = reconnectTimeoutRef h /\
   timers e = (timers h ++ [(nextTimer h, Resume 2000)])%list /\
   isSubscriptionActive e = isSubscriptionActive h /\
   isReconnectingRef e = false /\ same_channels h e /\ opened e = opened h /\
   emergencyLog e = (emergencyLog h ++ [phone])%list).
Proof.
  unfold handleAlertCancel, handleEmergencyCall, same_channels.
  destruct (negb (String.eqb phone EmptyString)); unfold_hook; auto 20.
Qed.

(** What [handleEmergencyCall] does with the number. *)
Lemma handler_dials phone h :
  let e := handleEmergencyCall phone h in
  (phone <> EmptyString ->
   dialled e = (dialled h ++ [("tel:" ++ phone)%string])%list /\ alerts e = alerts h) /\
  (phone = EmptyString ->
   alerts e = (alerts h ++ ["보호자 전화번호가 설정되지 않았습니다."])%list /\
   dialled e = dialled h).
Proof.
  unfold handleEmergencyCall. split.
  - intros Ne. apply String.eqb_neq in Ne. rewrite Ne. unfold_hook. auto.
  - intros ->. unfold_hook. auto.
Qed.




End FallHookFacts.

(** ** Properties of the alert modal *)

Module FallAlertUIFacts.

Import FallAlertUI.

Ltac unfold_ui :=
  cbn [alert_effect setInterval clearInterval with_hook setCountdown
       setIsCallInProgress with_interval with_isVisible with_clock with_due
       hook guardianPhone countdown isCallInProgress interval isVisible
       clock due negb] in *.

(** *** The invariant of the modal *)

Lemma rerender_ui phone a :
  ui_shape a -> guardianPhone a = phone -> ui_inv phone (rerender a).
Proof.
  intros (I & V) G. unfold rerender.
  destruct (Bool.eqb _ _) eqn:E.
  - apply Bool.eqb_prop in E. unfold ui_inv, ui_shape. auto.
  - destruct (FallHook.isFallDetected (hook a)) eqn:D; unfold ui_inv, ui_shape;
      unfold_ui; rewrite ?D; intuition congruence.
Qed.

Lemma ui_inv_tick env phone a : ui_inv phone a -> ui_inv phone (countdown_tick env a).
Proof.
  intros U. pose proof U as (V & (I & R) & G). unfold countdown_tick.
  destruct (interval a) eqn:Ia; [|exact U]. cbv zeta. unfold_ui.
  destruct (countdown a <=? 1).
  - apply rerender_ui; unfold ui_shape, handleEmergencyCall; unfold_ui; auto.
    rewrite Ia. split; [exact I|]. intros F. congruence.
  - unfold ui_inv, ui_shape. unfold_ui. rewrite Ia. intuition congruence.
Qed.

Lemma ui_inv_elapse phone dt a : ui_inv phone a -> ui_inv phone (elapse dt a).
Proof.
  intros U. unfold elapse. destruct (_ && _); exact U.
Qed.

Lemma ui_inv_step env phone a e : ui_inv phone a -> ui_inv phone (step env a e).
Proof.
  intros U. pose proof U as (V & (I & R) & G).
  destruct e as [e| | | |dt]; cbn [step].
  - destruct (external e); [|exact U].
    apply rerender_ui; unfold ui_shape; unfold_ui; auto.
  - now apply ui_inv_tick.
  - unfold click_emergency.
    destruct (FallHook.isFallDetected (hook a) && _) eqn:C; [|exact U].
    apply andb_true_iff in C as [C _].
    apply rerender_ui; unfold ui_shape, handleEmergencyCall; unfold_ui; auto.
    split; [exact I|]. intros F. congruence.
  - unfold click_cancel.
    destruct (FallHook.isFallDetected (hook a) && _) eqn:C; [|exact U].
    apply rerender_ui; unfold ui_shape, handleCancel; unfold_ui; auto.
  - now apply ui_inv_elapse.
Qed.

Lemma ui_inv_run env phone evs : ui_inv phone (run env phone evs).
Proof.
  unfold run.
  assert (M : ui_inv phone (mount env phone)).
  { unfold mount, ui_inv, ui_shape. unfold_ui. repeat split; auto.
    unfold FallHook.mount.
    now destruct (FallHookFacts.effect_frame env FallHook.initial) as (_ & _ & D & _). }
  revert M. generalize (mount env phone).
  induction evs as [|e evs IH]; simpl; auto using ui_inv_step.
Qed.

(** *** C9: the countdown *)

Lemma hook_rerender a : hook (rerender a) = hook a.
Proof.
  unfold rerender. destruct (Bool.eqb _ _); [reflexivity|].
  destruct (FallHook.isFallDetected (hook a)); reflexivity.
Qed.

Lemma hook_elapse dt a : hook (elapse dt a) = hook a.
Proof. unfold elapse. now destruct (_ && _). Qed.

(** The alert becomes visible: the countdown is at its start and the
    interval is set, its first firing due one period later. *)
Lemma becomes_shown env phone a e :
  ui_inv phone a -> FallHook.isFallDetected (hook a) = false ->
  FallHook.isFallDetected (hook (step env a e)) = true ->
  shown phone (step env a e) /\
  due (step env a e) = clock (step env a e) + period.
Proof.
  intros (V & (I & R) & G) F. rewrite F in V. rewrite V in I.
  destruct (R V) as (C & P).
  destruct e as [e| | | |dt]; cbn [step].
  - destruct (external e); [|congruence].
    rewrite hook_rerender. unfold_ui. intros T.
    unfold rerender. unfold_ui. rewrite T, V. cbn [Bool.eqb].
    unfold shown. unfold_ui. auto 10.
  - unfold countdown_tick. rewrite I. congruence.
  - unfold click_emergency. rewrite F. cbn [andb]. congruence.
  - unfold click_cancel. rewrite F. cbn [andb]. congruence.
  - rewrite hook_elapse. congruence.
Qed.

(** What the two handlers of the hook do to the alert, to the console
    line of the emergency call and to the dialled links. *)
Lemma hook_handlers env h phone :
  let a := FallHook.step env h FallHook.AlertCancel in
  let e := FallHook.step env h (FallHook.EmergencyCall phone) in
  FallHook.isFallDetected a = false /\
  FallHook.emergencyLog a = FallHook.emergencyLog h /\
  FallHook.isFallDetected e = false /\
  FallHook.emergencyLog e = (FallHook.emergencyLog h ++ [phone])%list /\
  (phone <> EmptyString ->
   FallHook.dialled e = (FallHook.dialled h ++ [("tel:" ++ phone)%string])%list) /\
  FallHook.dialled a = FallHook.dialled h.
Proof.
  unfold FallHook.step. cbn [FallHook.handle].
  destruct (FallHookFacts.rerender_frame env h (FallHook.handleAlertCancel h))
    as (_ & _ & Ad & Al & Adl & _).
  destruct (FallHookFacts.rerender_frame env h (FallHook.handleEmergencyCall phone h))
    as (_ & _ & Ed & El & Edl & _).
  destruct (FallHookFacts.handlers_shape phone h)
    as ((_ & Hd & _) & (_ & Gd & _ & _ & _ & _ & _ & _ & Gl)).
  destruct (FallHookFacts.handler_dials phone h) as (Dn & _).
  cbv zeta in *. rewrite Ad, Al, Ed, El, Edl, Adl.
  split; [exact Hd|]. split; [reflexivity|]. split; [exact Gd|].
  split; [exact Gl|]. split; [|reflexivity].
  intros Ne. exact (proj1 (Dn Ne)).
Qed.

(** Hiding the modal clears the interval. *)
Lemma rerender_hides a :
  isVisible a = true -> FallHook.isFallDetected (hook a) = false ->
  interval (rerender a) = false /\ countdown (rerender a) = countdown_start /\
  clock (rerender a) = clock a /\ isVisible (rerender a) = false.
Proof.
  intros V F. unfold rerender. rewrite V, F. cbn [Bool.eqb]. unfold_ui. auto.
Qed.

(** The transport and the timers make no call; they raise the alert
    (an insert does) but never hide it. *)
Lemma external_makes_no_call env h e :
  external e = true ->
  FallHook.emergencyLog (FallHook.step env h e) = FallHook.emergencyLog h /\
  FallHook.dialled (FallHook.step env h e) = FallHook.dialled h.
Proof.
  intros X. unfold FallHook.step.
  destruct (FallHookFacts.rerender_frame env h (FallHook.handle e h))
    as (_ & _ & _ & L & _).
  destruct (FallHookFacts.rerender_dialled env h (FallHook.handle e h)) as (D & _).
  cbv zeta in L. rewrite L, D. clear L D.
  destruct e as [c|c status err|id| |phone]; try discriminate; cbn [FallHook.handle].
  - now destruct (FallHook.find_channel c h).
  - destruct (FallHook.find_channel c h) as [k|]; [|auto].
    unfold FallHook.on_status. destruct err as [m|]; [auto|].
    destruct status;
      unfold FallHook.on_subscribed, FallHook.on_failure, FallHook.on_closed.
    + FallHookFacts.unfold_hook. now destruct (FallHook.reconnectTimeoutRef h).
    + now destruct ((FallHook.seen_attempts k <? FallHook.maxReconnectAttempts) && _).
    + now destruct (FallHook.seen_active k && _
                    && (FallHook.seen_attempts k <? FallHook.maxReconnectAttempts)).
    + now destruct ((FallHook.seen_attempts k <? FallHook.maxReconnectAttempts) && _).
  - destruct (FallHook.find_timer id h) as [[d n|d]|]; auto.
Qed.

Lemma external_alert env h e :
  external e = true ->
  (FallHook.isFallDetected h = true ->
   FallHook.isFallDetected (FallHook.step env h e) = true) /\
  (calm (Transport e) = true ->
   FallHook.isFallDetected (FallHook.step env h e) = FallHook.isFallDetected h).
Proof.
  intros X. unfold FallHook.step.
  destruct (FallHookFacts.rerender_frame env h (FallHook.handle e h))
    as (_ & _ & D & _).
  cbv zeta in D. rewrite D. clear D.
  destruct e as [c|c status err|id| |phone]; try discriminate; cbn [FallHook.handle].
  - split; [|discriminate]. now destruct (FallHook.find_channel c h).
  - assert (E : FallHook.isFallDetected
                  match FallHook.find_channel c h with
                  | Some k => FallHook.on_status k status err h
                  | None => h
                  end = FallHook.isFallDetected h).
    { destruct (FallHook.find_channel c h) as [k|]; [|reflexivity].
      unfold FallHook.on_status. destruct err as [m|]; [reflexivity|].
      destruct status;
        unfold FallHook.on_subscribed, FallHook.on_failure, FallHook.on_closed.
      - FallHookFacts.unfold_hook. now destruct (FallHook.reconnectTimeoutRef h).
      - now destruct ((FallHook.seen_attempts k <? FallHook.maxReconnectAttempts) && _).
      - now destruct (FallHook.seen_active k && _
                      && (FallHook.seen_attempts k <? FallHook.maxReconnectAttempts)).
      - now destruct ((FallHook.seen_attempts k <? FallHook.maxReconnectAttempts) && _). }
    rewrite E. auto.
  - assert (E : FallHook.isFallDetected
                  match FallHook.find_timer id h with
                  | Some cb => FallHook.fire cb (FallHook.clearTimeout id h)
                  | None => h
                  end = FallHook.isFallDetected h)
      by (destruct (FallHook.find_timer id h) as [[d n|d]|]; reflexivity).
    rewrite E. auto.
Qed.

(** With the modal hidden and no fall reported, nobody is called. *)
Lemma hidden_step env made a e :
  hidden made a -> calm e = true -> hidden made (step env a e).
Proof.
  intros (D & C & V & I) Q. unfold hidden.
  destruct e as [e| | | |dt]; try discriminate; cbn [step].
  - assert (X : external e = true) by (destruct e; try discriminate; reflexivity).
    rewrite X.
    destruct (external_makes_no_call env (hook a) e X) as (L & Dl).
    destruct (external_alert env (hook a) e X) as (_ & K). specialize (K Q).
    unfold rerender. unfold_ui. rewrite K, D, V. cbn [Bool.eqb].
    unfold calls in *. unfold_ui. rewrite K, L, Dl. auto.
  - unfold countdown_tick. rewrite I. auto.
  - unfold elapse. destruct (_ && _); unfold calls in *; unfold_ui; auto.
Qed.

Lemma hidden_run env made ws :
  forall a, hidden made a -> Forall (fun e => calm e = true) ws ->
            hidden made (run_from env a ws).
Proof.
  induction ws as [|e ws IH]; intros a H W; [exact H|].
  inversion W as [|? ? We Wws]; subst.
  change (run_from env a (e :: ws)) with (run_from env (step env a e) ws).
  apply IH; [|exact Wws]. now apply hidden_step.
Qed.

Lemma counting_start phone a :
  shown phone a -> due a = clock a + period ->
  counting (calls a) phone (clock a) 0 a.
Proof.
  intros (D & V & I & C & P & G) T. unfold counting, period in *.
  cbn [Z.of_nat]. repeat split; auto; lia.
Qed.

(** One event while the countdown runs and the user waits: time passes
    within the current second, the hook does something, or the interval
    fires at the end of the second. *)
Lemma counting_step env made phone t0 k a e :
  counting made phone t0 k a -> waits e = true ->
  (k + (if is_tick e then 1 else 0) < 10)%nat ->
  counting made phone t0 (k + (if is_tick e then 1 else 0)) (step env a e).
Proof.
  intros (D & M & G & V & I & P & C & Du & Cl) W L.
  destruct e as [e| | | |dt]; try discriminate; cbn [step is_tick waits] in *.
  - rewrite W, Nat.add_0_r.
    destruct (external_makes_no_call env (hook a) e W) as (Le & Dl).
    destruct (external_alert env (hook a) e W) as (K & _). specialize (K D).
    unfold rerender. unfold_ui. rewrite K, V. cbn [Bool.eqb].
    unfold counting, calls in *. unfold_ui. rewrite K, Le, Dl. auto 10.
  - unfold countdown_tick. rewrite I. cbv zeta. unfold_ui.
    destruct (Z.leb_spec (countdown a) 1) as [Le|_];
      [unfold countdown_start in C; lia|].
    unfold counting, calls, period in *. unfold_ui.
    rewrite Nat.add_1_r, Nat2Z.inj_succ. repeat split; auto; lia.
  - rewrite Nat.add_0_r. unfold elapse. rewrite I. cbn [negb orb].
    destruct (Z.leb_spec 0 dt) as [Dt|_]; cbn [andb];
      [|unfold counting; auto 10].
    destruct (Z.ltb_spec (clock a + dt) (due a)) as [Lt|_];
      [|unfold counting; auto 10].
    unfold counting, calls in *. unfold_ui. repeat split; auto; lia.
Qed.

Lemma ticks_in_cons e ws :
  ticks_in (e :: ws) = ((if is_tick e then 1 else 0) + ticks_in ws)%nat.
Proof. unfold ticks_in. cbn [filter]. now destruct (is_tick e). Qed.

Lemma counting_run env made phone t0 ws :
  forall k a,
    counting made phone t0 k a -> Forall (fun e => waits e = true) ws ->
    (k + ticks_in ws < 10)%nat ->
    counting made phone t0 (k + ticks_in ws) (run_from env a ws).
Proof.
  induction ws as [|e ws IH]; intros k a Ca W L.
  - unfold ticks_in in *. cbn [filter List.length] in *.
    now rewrite Nat.add_0_r.
  - inversion W as [|? ? We Wws]; subst. rewrite ticks_in_cons in *.
    rewrite Nat.add_assoc in *.
    change (run_from env a (e :: ws)) with (run_from env (step env a e) ws).
    apply IH; [|exact Wws|exact L].
    apply counting_step; [exact Ca|exact We|lia].
Qed.

(** The tenth firing: the updater finds the countdown at 1. *)
Lemma counting_ends env made phone t0 a :
  counting made phone t0 9 a ->
  let z := step env a CountdownTick in
  hook z = FallHook.step env (hook a) (FallHook.EmergencyCall phone) /\
  clock z = t0 + 10 * period /\ interval z = false /\ isVisible z = false.
Proof.
  intros (D & M & G & V & I & P & C & Du & Cl). cbv zeta. cbn [step].
  assert (C1 : countdown a = 1) by (rewrite C; reflexivity).
  unfold countdown_tick. rewrite I. cbv zeta. unfold_ui.
  rewrite C1. change (1 <=? 1) with true. cbv iota.
  destruct (hook_handlers env (hook a) phone) as (_ & _ & Ed & _).
  set (y := setCountdown 0 _).
  assert (Hy : hook y = FallHook.step env (hook a) (FallHook.EmergencyCall phone))
    by (unfold y, handleEmergencyCall; unfold_ui; now rewrite G).
  assert (Vy : isVisible y = true)
    by (unfold y, handleEmergencyCall; unfold_ui; exact V).
  assert (Cy : clock y = due a)
    by (unfold y, handleEmergencyCall; unfold_ui; reflexivity).
  destruct (rerender_hides y Vy) as (Ri & _ & Rk & Rv); [now rewrite Hy|].
  rewrite hook_rerender, Hy, Ri, Rk, Rv, Cy, Du.
  unfold period. repeat split; auto; lia.
Qed.

(** A cancel while the countdown runs. *)
Lemma counting_cancel env made phone t0 k a :
  counting made phone t0 k a ->
  let c := click_cancel env a in
  hook c = FallHook.step env (hook a) FallHook.AlertCancel /\
  interval c = false /\ isVisible c = false.
Proof.
  intros (D & M & G & V & I & P & C & Du & Cl). cbv zeta.
  unfold click_cancel. rewrite D, P. cbn [andb negb].
  destruct (hook_handlers env (hook a) phone) as (Ad & _).
  assert (Hy : hook (handleCancel env a)
               = FallHook.step env (hook a) FallHook.AlertCancel)
    by (unfold handleCancel; unfold_ui; reflexivity).
  destruct (rerender_hides (handleCancel env a)) as (Ri & _ & _ & Rv);
    [exact V|now rewrite Hy|].
  rewrite hook_rerender, Hy. auto.
Qed.

(** C9.  When the alert becomes visible the countdown stands at 10 and
    an interval is set whose firings are due every 1000 ms.  As long as
    the user only waits (whatever the transport and the timers of the
    hook do meanwhile) and fewer than ten firings have occurred, which
    is the case at every time before 10000 ms have passed, the
    countdown has been lowered by one per firing and nobody has been
    called; if the user cancels then, the interval is cleared and the
    emergency call is not made, however long the user waits afterwards,
    unless a new fall is reported.  Without a cancel, the tenth firing
    comes 10000 ms after the alert became visible: its updater calls the
    emergency handler once, for the guardian's number; the handler dials
    the number when one is set and hides the alert, which clears the
    interval, so that no second call follows. *)
Theorem countdown_then_call (env : FallHook.Env) (phone : string)
    (evs : list Event) (e : Event) :
  let a0 := run env phone evs in
  let a := step env a0 e in
  FallHook.isFallDetected (hook a0) = false ->
  FallHook.isFallDetected (hook a) = true ->
  countdown a = countdown_start /\ interval a = true /\
  due a = clock a + period /\
  (forall ws,
     Forall (fun e => waits e = true) ws -> (ticks_in ws < 10)%nat ->
     let k := Z.of_nat (ticks_in ws) in
     let b := run_from env a ws in
     let c := click_cancel env b in
     countdown b = countdown_start - k /\ interval b = true /\
     clock a + k * period <= clock b < clock a + (k + 1) * period /\
     clock b < clock a + 10000 /\
     calls b = calls a /\
     interval c = false /\ calls c = calls a /\
     forall ws', Forall (fun e => calm e = true) ws' ->
                 calls (run_from env c ws') = calls a) /\
  (forall ws,
     Forall (fun e => waits e = true) ws -> ticks_in ws = 9%nat ->
     let b := run_from env a ws in
     let z := step env b CountdownTick in
     clock z = clock a + 10000 /\
     FallHook.emergencyLog (hook z)
     = (FallHook.emergencyLog (hook a) ++ [phone])%list /\
     (phone <> EmptyString ->
      FallHook.dialled (hook z)
      = (FallHook.dialled (hook a) ++ [("tel:" ++ phone)%string])%list) /\
     FallHook.isFallDetected (hook z) = false /\ interval z = false /\
     forall ws', Forall (fun e => calm e = true) ws' ->
                 calls (run_from env z ws') = calls z).
Proof.
  intros a0 a F0 F1.
  destruct (becomes_shown env phone a0 e (ui_inv_run env phone evs) F0 F1)
    as (Sh & T).
  fold a in Sh, T. pose proof (counting_start phone a Sh T) as C0.
  destruct Sh as (D & V & I & C & P & G).
  split; [exact C|]. split; [exact I|]. split; [exact T|]. split.
  - intros ws W L k b c.
    pose proof (counting_run env _ _ _ ws 0%nat a C0 W L) as Cb.
    cbn [Nat.add] in Cb. fold b in Cb.
    destruct (counting_cancel env _ _ _ _ b Cb) as (Hc & Ic & Vc).
    fold c in Hc, Ic, Vc.
    destruct Cb as (Db & Mb & _ & _ & Ib & _ & Cb & Du & Cl).
    fold k in Cb, Du, Cl. unfold period in *.
    destruct (hook_handlers env (hook b) phone) as (Ad & Al & _ & _ & _ & Adl).
    assert (Mc : calls c = calls a).
    { rewrite <- Mb. unfold calls. rewrite Hc. cbv zeta in Al, Adl.
      now rewrite Al, Adl. }
    split; [exact Cb|]. split; [exact Ib|]. split; [lia|]. split; [lia|].
    split; [exact Mb|]. split; [exact Ic|]. split; [exact Mc|].
    intros ws' W'.
    assert (Hd : hidden (calls a) c).
    { unfold hidden. rewrite Hc. auto. }
    now destruct (hidden_run env _ ws' c Hd W') as (_ & M & _).
  - intros ws W N b z.
    assert (L : (0 + ticks_in ws < 10)%nat) by lia.
    pose proof (counting_run env _ _ _ ws 0%nat a C0 W L) as Cb.
    cbn [Nat.add] in Cb. rewrite N in Cb. fold b in Cb.
    destruct (counting_ends env _ _ _ b Cb) as (Hz & Cz & Iz & Vz).
    fold z in Hz, Cz, Iz, Vz. unfold period in Cz.
    destruct Cb as (Db & Mb & _).
    destruct (hook_handlers env (hook b) phone) as (_ & _ & Ed & El & Et & _).
    unfold calls in Mb. injection Mb as Ml Md.
    cbv zeta in Ed, El, Et. rewrite Ml, Md in *.
    split; [lia|]. rewrite Hz. split; [exact El|]. split; [exact Et|].
    split; [exact Ed|]. split; [exact Iz|].
    intros ws' W'.
    assert (Hd : hidden (calls z) z).
    { unfold hidden. rewrite Hz. auto. }
    now destruct (hidden_run env _ ws' z Hd W') as (_ & M & _).
Qed.

Lemma countdown_then_call_witness :
  let env := Scenario.good_env in
  let a0 := run env "01012345678"
              [Transport (FallHook.Status 0 FallHook.SUBSCRIBED None)] in
  let a := step env a0 (Transport (FallHook.Insert 0)) in
  let three := [CountdownTick; Elapse 400; CountdownTick; CountdownTick;
                Transport (FallHook.Fire 1); Elapse 250] in
  let nine := [CountdownTick; CountdownTick; CountdownTick;
               Transport (FallHook.Fire 1); Elapse 999;
               CountdownTick; Transport (FallHook.Fire 2);
               CountdownTick; CountdownTick; CountdownTick;
               CountdownTick; CountdownTick] in
  FallHook.isFallDetected (hook a0) = false /\
  FallHook.isFallDetected (hook a) = true /\
  countdown a = countdown_start /\
  interval (click_cancel env (run_from env a three)) = false /\
  calls (click_cancel env (run_from env a three)) = ([], []) /\
  clock (step env (run_from env a nine) CountdownTick) = clock a + 10000 /\
  FallHook.dialled (hook (step env (run_from env a nine) CountdownTick))
  = (FallHook.dialled (hook a) ++ ["tel:01012345678"])%list.
Proof.
  intros env a0 a three nine.
  assert (F0 : FallHook.isFallDetected (hook a0) = false) by (vm_compute; reflexivity).
  assert (F1 : FallHook.isFallDetected (hook a) = true) by (vm_compute; reflexivity).
  pose proof (countdown_then_call env "01012345678"
                [Transport (FallHook.Status 0 FallHook.SUBSCRIBED None)]
                (Transport (FallHook.Insert 0)) F0 F1) as (W1 & _ & _ & W3 & W4).
  assert (W : Forall (fun e => waits e = true) three) by (repeat constructor).
  assert (L : (ticks_in three < 10)%nat) by (vm_compute; lia).
  assert (W' : Forall (fun e => waits e = true) nine) by (repeat constructor).
  assert (Ne : "01012345678" <> EmptyString) by discriminate.
  destruct (W3 three W L) as (_ & _ & _ & _ & _ & Wc & Wm & _).
  destruct (W4 nine W' eq_refl) as (Wt & _ & Wd & _).
  split; [exact F0|]. split; [exact F1|]. split; [exact W1|].
  split; [exact Wc|]. split; [exact Wm|]. split; [exact Wt|exact (Wd Ne)].
Defined.

End FallAlertUIFacts.

(** ** The life of a polling loop *)

Module PollingLoopsFacts.

Import Polling PollingLoops.
Import PollingFacts.

(** *** The intervals after a tick *)

(** What a tick does to the intervals: the loop goes on only while its
    budget is not used up. *)
Lemma tick_intervals h out p l :
  find_loop h p = Some l ->
  let p' := tick h out p in
  nextHandle p' = nextHandle p /\
  ((intervals p' = intervals (bump h p) /\ attempts l + 1 < maxAttempts) \/
   intervals p' = intervals (clearInterval h (bump h p))).
Proof.
  intros H p'. pose proof (find_loop_handle _ _ _ H) as Hh.
  unfold p', tick. rewrite H. unfold try_tick, on_completed, check_deadline.
  rewrite Hh.
  destruct out as [m|body].
  - split; [now setters|]. right. unfold_page. now rewrite ?Hh, ?filter_twice.
  - destruct (Js.truthy (status_of body));
      [destruct (Js.is_str (Js.get (status_of body) "status") "completed");
       [destruct (Js.truthy (Js.get (status_of body) "result"));
        [destruct (Js.has_properties (Js.get (status_of body) "result"));
         [destruct (usable _)|]|]
       |destruct (Js.is_str (Js.get (status_of body) "status") "failed")]|];
      try (destruct (maxAttempts <=? attempts l + 1) eqn:D;
           [|apply Z.leb_gt in D]);
      (split; [now setters|]); unfold_page; rewrite ?Hh, ?filter_twice; auto.
Qed.

(** *** Completion *)

(** X4.  On a ['completed'] status whose final result is an object, the
    result is shown as the server sent it: a [{success, data}] wrapper is
    removed and nothing else is changed.  The interval is cleared, the
    page shows 100 percent and the completion text, nothing is reported
    as an error, and one completion timer is set; when that timer fires
    the analysis is shown as over and the user is told so by name. *)
Theorem completion_stores_result (p : Page) (h : nat) (l : Loop) (body : Js.value) :
  find_loop h p = Some l -> owner l = instance p ->
  completed_with_result body = true ->
  let result := Js.get (status_of body) "result" in
  usable (finalResult result) = true ->
  let p' := tick h (Resolves body) p in
  gaitData p' = (if Js.truthy (Js.get result "success")
                    && Js.truthy (Js.get result "data")
                 then Js.get result "data" else result) /\
  analysisProgress p' = Js.Num 100 /\
  analysisMessage p' = Js.Str msg_done /\
  find_loop h p' = None /\
  alerts p' = alerts p /\ warnings p' = warnings p /\
  isAnalyzing p' = isAnalyzing p /\
  timeouts p' =
    (timeouts p ++ [{| done_owner := owner l; done_name := user_name l |}])%list /\
  (timeouts p = [] ->
   let p'' := fire_done p' in
   alerts p'' = (alerts p ++ [done_alert (user_name l)])%list /\
   isAnalyzing p'' = false /\ timeouts p'' = [] /\ gaitData p'' = gaitData p').
Proof.
  intros H Ho M result U p'. pose proof (find_loop_handle _ _ _ H) as Hh.
  apply completed_with_result_inv in M as (T & C & R & O).
  assert (E : p' =
    setTimeout_done (owner l) (user_name l)
      (setGaitData (owner l) (finalResult result)
         (setAnalysisMessage (owner l) (Js.Str msg_done)
            (setAnalysisProgress (owner l) (Js.Num 100)
               (clearInterval h
                  (setAnalysisMessage (owner l)
                     (Js.or (Js.get (status_of body) "message") (Js.Str msg_default))
                     (setAnalysisProgress (owner l) (reported_progress body)
                        (bump h p)))))))).
  { unfold p', tick, try_tick, on_completed. rewrite H, T, C, R, O.
    fold result. now rewrite U, Hh. }
  assert (Et : timeouts p' =
    (timeouts p ++ [{| done_owner := owner l; done_name := user_name l |}])%list)
    by (rewrite E; own Ho; reflexivity).
  repeat match goal with |- _ /\ _ => split end;
    try (rewrite E; own Ho; reflexivity).
  - rewrite E. unfold find_loop. own Ho. apply find_after_clear.
  - intros T0 p''. unfold p'', fire_done. rewrite Et, T0. cbn [app].
    rewrite E. own Ho. auto.
Qed.

Lemma completion_stores_result_witness :
  let report := Js.Obj [("score", Js.Num 72); ("status", Js.Str "주의")] in
  let body := Scenario.status_body "completed" 100
                [("result", Scenario.wrapped report)] in
  gaitData (tick 0 (Resolves body) Scenario.started) = report /\
  alerts (fire_done (tick 0 (Resolves body) Scenario.started))
  = [done_alert (Js.Str "Alice")].
Proof.
  intros report body.
  pose proof (completion_stores_result Scenario.started 0 Scenario.first_loop body
                eq_refl eq_refl eq_refl eq_refl) as W.
  split; [exact (proj1 W)|].
  exact (proj1 (proj2 (proj2 (proj2 (proj2 (proj2 (proj2 (proj2 (proj2 W)))))))
                  eq_refl)).
Defined.

(** X5.  A ['completed'] status whose result is missing, or is not an
    object, is an error: the loop ends in the [catch] with the fixed
    no-result text (result missing or falsy) or with the [TypeError] of
    the [in] test (a primitive result).  The stored gait data is not
    touched and no completion timer is set, although the page has
    already been told 100 percent and the completion text. *)
Theorem completion_without_object_is_error (p : Page) (h : nat) (l : Loop)
    (body : Js.value) :
  find_loop h p = Some l ->
  Js.truthy (status_of body) = true ->
  Js.is_str (Js.get (status_of body) "status") "completed" = true ->
  let result := Js.get (status_of body) "result" in
  Js.truthy result && Js.has_properties result = false ->
  let p' := tick h (Resolves body) p in
  find_loop h p' = None /\
  gaitData p' = gaitData p /\ timeouts p' = timeouts p /\
  alerts p' = (alerts p ++ [polling_alert (no_object_text result)])%list /\
  (owner l = instance p ->
   isAnalyzing p' = false /\ analysisProgress p' = Js.Num 100 /\
   analysisMessage p' = Js.Str msg_done).
Proof.
  intros H T C result R p'. pose proof (find_loop_handle _ _ _ H) as Hh.
  unfold p', tick, try_tick, on_completed, no_object_text. rewrite H, T, C.
  fold result. unfold find_loop.
  destruct (Js.truthy result); simpl in R; [rewrite R|];
    unfold_page; rewrite ?Hh, ?filter_twice;
    (split; [apply find_after_clear|]);
    (split; [reflexivity|]); (split; [reflexivity|]); (split; [reflexivity|]);
    intros Ho; rewrite Ho, Nat.eqb_refl; auto.
Qed.

Lemma completion_without_object_is_error_witness :
  let body := Scenario.status_body "completed" 100 [] in
  let p' := tick 0 (Resolves body) Scenario.started in
  alerts p' = [polling_alert msg_no_result] /\ gaitData p' = waitingGaitData /\
  isAnalyzing p' = false /\ analysisProgress p' = Js.Num 100.
Proof.
  intros body p'.
  pose proof (completion_without_object_is_error Scenario.started 0
                Scenario.first_loop body eq_refl eq_refl eq_refl eq_refl)
    as (_ & G & _ & A & B).
  split; [exact A|]. split; [exact G|].
  destruct (B eq_refl) as (B1 & B2 & _). split; [exact B1|exact B2].
Defined.



(** *** Starting a job *)



(** *** Loops do not interfere *)

Lemma find_other_bumped h h' (ls : list Loop) :
  h' <> h ->
  find (same_handle h') (map (fun x => if same_handle h x then bumped x else x) ls)
  = find (same_handle h') ls.
Proof.
  intros Ne. induction ls as [|x ls IH]; simpl; [reflexivity|].
  destruct (same_handle h x) eqn:E.
  - apply same_handle_eq in E.
    assert (F : same_handle h' x = false)
      by (unfold same_handle; apply Nat.eqb_neq; congruence).
    unfold same_handle in *. simpl. now rewrite F.
  - destruct (same_handle h' x); [reflexivity|exact IH].
Qed.

Lemma find_other_cleared h h' (ls : list Loop) :
  h' <> h ->
  find (same_handle h') (filter (fun x => negb (same_handle h x)) ls)
  = find (same_handle h') ls.
Proof.
  intros Ne. induction ls as [|x ls IH]; simpl; [reflexivity|].
  destruct (same_handle h x) eqn:E; simpl.
  - apply same_handle_eq in E.
    assert (F : same_handle h' x = false)
      by (unfold same_handle; apply Nat.eqb_neq; congruence).
    now rewrite F.
  - destruct (same_handle h' x); [reflexivity|exact IH].
Qed.

(** X19.  A tick of one polling interval does not touch any other
    interval: whatever its status query returns, every interval with a
    different handle is live afterwards exactly when it was live before,
    with the same attempt counter, diagnosis id, user name and owner.
    Each loop counts its own attempts. *)
Theorem tick_leaves_other_loops (p : Page) (h h' : nat) (out : Outcome) :
  h' <> h -> find_loop h' (tick h out p) = find_loop h' p.
Proof.
  intros Ne. destruct (find_loop h p) as [l|] eqn:H.
  2:{ unfold tick. now rewrite H. }
  destruct (tick_intervals h out p l H) as (_ & S).
  unfold find_loop.
  destruct S as [(Si & _)|Si]; rewrite Si; unfold_page;
    rewrite ?find_other_cleared, find_other_bumped by exact Ne; reflexivity.
Qed.

Lemma tick_leaves_other_loops_witness :
  let p := run [ClickStart Scenario.alice (Resolves (Scenario.accepted "d1"));
                Remount;
                ClickStart Scenario.alice (Resolves (Scenario.accepted "d2"))] in
  find_loop 1 (tick 0 (Throws "Network Error") p) = find_loop 1 p /\
  find_loop 1 p <> None.
Proof.
  intros p.
  assert (Ne : 1%nat <> 0%nat) by discriminate.
  split; [exact (tick_leaves_other_loops p 0 1 (Throws "Network Error") Ne)|].
  vm_compute. discriminate.
Defined.

End PollingLoopsFacts.

(** ** The channels of the realtime alert monitor *)

Module FallHookChannelsFacts.

Import FallHook FallHookChannels.
Import FallHookFacts.

Lemma handle_opened e h : opened (handle e h) = opened h.
Proof.
  destruct e as [c|c status err|id| |phone]; cbn [handle].
  - now destruct (find_channel c h).
  - destruct (find_channel c h) as [k|]; [|reflexivity].
    unfold on_status. destruct err as [m|]; [reflexivity|].
    destruct status; unfold on_subscribed, on_failure, on_closed.
    + unfold_hook. now destruct (reconnectTimeoutRef h).
    + now destruct ((seen_attempts k <? maxReconnectAttempts) && _).
    + now destruct (seen_active k && _ && (seen_attempts k <? maxReconnectAttempts)).
    + now destruct ((seen_attempts k <? maxReconnectAttempts) && _).
  - destruct (find_timer id h) as [[d n|d]|]; reflexivity.
  - reflexivity.
  - unfold handleEmergencyCall. now destruct (negb (String.eqb phone EmptyString)).
Qed.

Lemma effect_latest env x : channelRef x = None -> latest_inv (effect env x).
Proof.
  intros R. unfold effect, latest_inv.
  destruct (negb (isSubscriptionActive x));
    [|destruct (isReconnectingRef x); [|destruct (check_env env)]];
    unfold_hook; rewrite ?R; unfold_hook; auto.
Qed.

Lemma latest_inv_step env h e :
  hook_inv h -> latest_inv h -> latest_inv (step env h e).
Proof.
  intros H L. destruct (handle_settled e h H) as (S & R & C & K).
  pose proof (handle_opened e h) as O.
  unfold step, rerender. destruct (Bool.eqb _ _ && (_ =? _)).
  - unfold latest_inv in *. now rewrite R, O.
  - apply effect_latest. now destruct (cleared _ S) as (_ & _ & X & _).
Qed.

Lemma latest_inv_run env evs : latest_inv (run env evs).
Proof.
  unfold run.
  assert (B : hook_inv (mount env) /\ latest_inv (mount env)).
  { split; [apply mount_inv|]. now apply effect_latest. }
  revert B. generalize (mount env).
  induction evs as [|e evs IH]; intros h (H & L); [exact L|].
  apply IH. split; [now apply step_inv | now apply latest_inv_step].
Qed.

(** X8.  In every reachable state at most one channel is registered with
    the realtime client.  It is the one held in [channelRef], it is the
    channel created last, and its callbacks have seen the current values
    of [isSubscriptionActive] (true) and [reconnectAttempts].  While the
    subscription is suspended no channel is registered at all. *)
Theorem one_registered_channel (env : Env) (evs : list Event) :
  let h := run env evs in
  (List.length (channels h) <= 1)%nat /\
  (forall k, In k (channels h) ->
     channelRef h = Some (chan k) /\ opened h = S (chan k) /\
     isSubscriptionActive h = true /\
     seen_active k = true /\ seen_attempts k = reconnectAttempts h) /\
  (channelRef h = None <-> channels h = []) /\
  (isSubscriptionActive h = false -> channels h = []).
Proof.
  intros h. destruct (run_inv env evs) as (_ & _ & J).
  pose proof (latest_inv_run env evs) as L. fold h in J, L.
  unfold channel_inv in J. unfold latest_inv in L.
  destruct (channelRef h) as [c|] eqn:R.
  - destruct J as (_ & A & K). rewrite K. splits.
    + simpl. lia.
    + intros k [<-|[]]. simpl. auto.
    + split; discriminate.
    + congruence.
  - destruct J as (_ & K). rewrite K. splits; simpl; auto; try tauto.
Qed.

Lemma one_registered_channel_witness :
  let h := run Scenario.good_env [Insert 0; AlertCancel; Fire 1; Fire 2] in
  channels h = [registered 1 1] /\
  channelRef h = Some 1%nat /\ opened h = 2%nat /\ reconnectAttempts h = 1.
Proof.
  intros h.
  assert (K : channels h = [registered 1 1]) by (vm_compute; reflexivity).
  assert (I : In (registered 1 1) (channels h)) by (rewrite K; now left).
  destruct (proj1 (proj2 (one_registered_channel Scenario.good_env
                            [Insert 0; AlertCancel; Fire 1; Fire 2])) _ I)
    as (W1 & W2 & _ & _ & W3).
  split; [exact K|]. split; [exact W1|]. split; [exact W2|]. symmetry. exact W3.
Defined.

Lemma find_cleared_timer id (ts : list (nat * Timer)) :
  find (fun t => Nat.eqb (fst t) id) (filter (fun t => negb (Nat.eqb (fst t) id)) ts)
  = None.
Proof.
  induction ts as [|t ts IH]; simpl; [reflexivity|].
  destruct (Nat.eqb (fst t) id) eqn:E; simpl; [exact IH|]. now rewrite E.
Qed.

Lemma find_app_none {A : Type} (f : A -> bool) (xs ys : list A) :
  find f xs = None -> find f ys = None -> find f (xs ++ ys) = None.
Proof.
  intros X Y. induction xs as [|a xs IH]; simpl in *; [exact Y|].
  destruct (f a); [discriminate|auto].
Qed.

(** What is known of a reachable state in which a channel is registered. *)
Lemma registered_state env evs c k :
  let h := run env evs in
  find_channel c h = Some k ->
  channelRef h = Some c /\ hasCleanup h = true /\ isSubscriptionActive h = true /\
  channels h = [registered c (reconnectAttempts h)] /\
  k = registered c (reconnectAttempts h) /\ opened h = S c.
Proof.
  intros h F. destruct (run_inv env evs) as (_ & _ & J).
  pose proof (latest_inv_run env evs) as L. fold h in J, L.
  unfold channel_inv in J. unfold latest_inv in L. unfold find_channel in F.
  destruct (channelRef h) as [c0|] eqn:R.
  - destruct J as (Hc & A & K). rewrite K in F. simpl in F.
    destruct (Nat.eqb_spec c0 c) as [E|N]; [subst c0|discriminate].
    injection F as <-. unfold registered. auto 10.
  - destruct J as (_ & K). rewrite K in F. discriminate.
Qed.

(** The cleanup of a reachable state with a registered channel: the
    [CLOSED] callback runs on the values that channel was created with. *)
Lemma cleanup_registered h c n :
  channelRef h = Some c -> channels h = [registered c n] ->
  cleanup h
  = with_channelRef None
      (on_closed (registered c n)
         (setConnectionStatus "CLOSED" (with_channels [] (cleanup_head h)))).
Proof.
  intros R K. rewrite cleanup_unfold, R. unfold removeChannel, find_channel.
  assert (Kh : channels (cleanup_head h) = channels h)
    by (unfold cleanup_head; now destruct (reconnectTimeoutRef h)).
  rewrite Kh, K. cbn [find filter chan registered]. rewrite Nat.eqb_refl.
  reflexivity.
Qed.

(** X9.  A fall reported on the registered channel suspends the
    subscription: the alert flag is set, one toast is shown, a pending
    reconnect timer of the hook is cancelled and the channel is removed
    from the client.  While it is removed its [CLOSED] callback runs:
    with the counter below the budget it marks a reconnect as under way
    and leaves a three-second reconnect timer pending; with the budget
    used up it schedules nothing.  From then on no channel is
    registered, so a further insert or status event changes nothing: no
    second alert is raised while the first is shown. *)
Theorem fall_suspends_subscription (env : Env) (evs : list Event) (c : nat) :
  let h := run env evs in
  find_channel c h <> None ->
  let h' := step env h (Insert c) in
  let n := reconnectAttempts h + 1 in
  isFallDetected h' = true /\ isSubscriptionActive h' = false /\
  channels h' = [] /\ channelRef h' = None /\
  connectionStatus h' = "구독 비활성화" /\
  toasts h' = (toasts h ++ ["낙상이 감지되었습니다!"])%list /\
  reconnectAttempts h' = reconnectAttempts h /\
  (forall id, reconnectTimeoutRef h = Some id -> find_timer id h' = None) /\
  (reconnectAttempts h < maxReconnectAttempts ->
   isReconnectingRef h' = true /\
   reconnectTimeoutRef h' = Some (nextTimer h) /\
   find_timer (nextTimer h) h' = Some (Reconnect 3000 n)) /\
  (reconnectAttempts h = maxReconnectAttempts ->
   isReconnectingRef h' = false /\ reconnectTimeoutRef h' = None /\
   nextTimer h' = nextTimer h) /\
  (forall e, transport e = true -> step env h' e = h').
Proof.
  intros h F h' n.
  destruct (find_channel c h) as [k|] eqn:Fk; [clear F|congruence].
  destruct (registered_state env evs c k Fk) as (R & Hc & A & K & _ & _).
  destruct (run_inv env evs) as ((Ca & _) & (Ft & Fr) & _).
  fold h in R, Hc, A, K, Ca, Ft, Fr.
  assert (E : h' = effect env (cleanup (on_insert h))).
  { unfold h', step. cbn [handle]. rewrite Fk. unfold rerender.
    unfold_hook. rewrite A, Hc. reflexivity. }
  assert (G : forall x, channels x = [] -> isSubscriptionActive x = false ->
                        forall e, transport e = true -> step env x e = x).
  { intros x Kx Ax e Te. unfold step.
    assert (Fx : forall c', find_channel c' x = None)
      by (intros c'; unfold find_channel; now rewrite Kx).
    destruct e; try discriminate; cbn [handle]; rewrite Fx;
      now apply rerender_same. }
  rewrite (cleanup_registered (on_insert h) c (reconnectAttempts h)) in E
    by (unfold on_insert; unfold_hook; assumption).
  unfold n. clearbody h h'. subst h'. clear n.
  destruct h as [fd sa cs ra rt cr ir hc chs op tm nt ts el dl al].
  unfold_hook. subst cr hc sa chs. unfold in_budget in Ca.
  unfold on_closed, cleanup_head, effect, on_insert.
  cbn [seen_active seen_attempts registered]. unfold_hook. cbn [negb andb].
  destruct (Z.ltb_spec ra maxReconnectAttempts) as [Lt|Ge].
  - destruct rt as [id|]; unfold_hook; cbn [negb]; unfold_hook;
      splits; try reflexivity; try discriminate; try lia;
      try (intros _; splits; try reflexivity; unfold find_timer; unfold_hook;
           rewrite find_fresh; [reflexivity|]; forall_solve; assumption);
      try (apply G; reflexivity).
    intros id' [= <-]. unfold find_timer. unfold_hook.
    rewrite find_app_none; [reflexivity|apply find_cleared_timer|].
    cbn [find fst]. destruct (Nat.eqb_spec nt id); [lia|reflexivity].
  - destruct rt as [id|]; unfold_hook; cbn [negb]; unfold_hook;
      splits; try reflexivity; try discriminate; try lia;
      try (intros _; splits; reflexivity);
      try (apply G; reflexivity).
    intros id' [= <-]. unfold find_timer. unfold_hook.
    now rewrite find_cleared_timer.
Qed.

Lemma fall_suspends_subscription_witness :
  let h := run Scenario.good_env [Status 0 SUBSCRIBED None] in
  let h' := step Scenario.good_env h (Insert 0) in
  isFallDetected h' = true /\ channels h' = [] /\
  find_timer 1 h' = Some (Reconnect 3000 1) /\
  step Scenario.good_env h' (Insert 0) = h'.
Proof.
  intros h h'.
  assert (F : find_channel 0 h <> None) by (vm_compute; discriminate).
  assert (B : reconnectAttempts h < maxReconnectAttempts) by reflexivity.
  pose proof (fall_suspends_subscription Scenario.good_env
                [Status 0 SUBSCRIBED None] 0 F)
    as (W1 & _ & W2 & _ & _ & _ & _ & _ & W3 & _ & W4).
  split; [exact W1|]. split; [exact W2|].
  split; [exact (proj2 (proj2 (W3 B)))|].
  exact (W4 (Insert 0) eq_refl).
Defined.

(** X10.  When the registered channel reports [SUBSCRIBED] (without an
    error object), the reconnect counter is reset to 0 and the reconnect
    timer of the hook is cancelled.  When the counter was already 0 the
    channel stays and the reconnecting flag is clear.  When it was not
    (the channel was opened after a reconnect timer), the reset counter
    is a changed dependency of the effect, and the channel that has just
    been subscribed is removed.  Its [CLOSED] callback still sees the
    old counter: below the budget it marks a reconnect as under way and
    schedules a three-second timer, so that the effect returns at its
    guard and no channel is left; at the budget it schedules nothing and
    the effect opens a new channel. *)
Theorem subscribed_resets_counter (env : Env) (evs : list Event) (c : nat) :
  let h := run env evs in
  find_channel c h <> None ->
  let h' := step env h (Status c SUBSCRIBED None) in
  let n := reconnectAttempts h + 1 in
  reconnectAttempts h' = 0 /\ isSubscriptionActive h' = true /\
  (forall id, reconnectTimeoutRef h = Some id -> find_timer id h' = None) /\
  (reconnectAttempts h = 0 ->
   channels h' = channels h /\ opened h' = opened h /\
   connectionStatus h' = "SUBSCRIBED" /\
   isReconnectingRef h' = false /\ reconnectTimeoutRef h' = None) /\
  (0 < reconnectAttempts h < maxReconnectAttempts ->
   channels h' = [] /\ channelRef h' = None /\ opened h' = opened h /\
   isReconnectingRef h' = true /\
   find_timer (nextTimer h) h' = Some (Reconnect 3000 n) /\
   connectionStatus h' = "재연결 준비 중... " ++ progress_text n) /\
  (reconnectAttempts h = maxReconnectAttempts -> check_env env = EnvOk ->
   find_channel c h' = None /\
   channels h' = [registered (S c) 0] /\ channelRef h' = Some (S c) /\
   opened h' = S (S c) /\ connectionStatus h' = "연결 중..." /\
   isReconnectingRef h' = false).
Proof.
  intros h F h' n.
  destruct (find_channel c h) as [k|] eqn:Fk; [clear F|congruence].
  destruct (registered_state env evs c k Fk) as (R & Hc & A & K & _ & O).
  destruct (run_inv env evs) as ((Ca & _) & (Ft & Fr) & _).
  fold h in R, Hc, A, K, O, Ca, Ft, Fr.
  assert (E : h' = rerender env h (on_subscribed (setConnectionStatus "SUBSCRIBED" h))).
  { unfold h', step. cbn [handle]. now rewrite Fk. }
  unfold n. clearbody h h'. subst h'. clear n.
  unfold rerender.
  assert (S1 : isSubscriptionActive (on_subscribed (setConnectionStatus "SUBSCRIBED" h))
               = isSubscriptionActive h /\
               reconnectAttempts (on_subscribed (setConnectionStatus "SUBSCRIBED" h)) = 0 /\
               hasCleanup (on_subscribed (setConnectionStatus "SUBSCRIBED" h)) = true)
    by (unfold on_subscribed; unfold_hook;
        destruct (reconnectTimeoutRef h); unfold_hook; auto).
  destruct S1 as (S1 & S2 & S3). rewrite S1, S2, S3, Bool.eqb_reflx. cbn [andb].
  destruct (Z.eqb_spec (reconnectAttempts h) 0) as [Z0|Z0].
  - unfold on_subscribed. unfold in_budget in Ca.
    destruct h as [fd sa cs ra rt cr ir hc chs op tm nt ts el dl al].
    unfold_hook. subst.
    destruct rt as [id|]; unfold_hook;
      splits; try reflexivity; try discriminate; try lia;
      try (intros _; splits; reflexivity).
    intros id' [= <-]. unfold find_timer. unfold_hook.
    now rewrite find_cleared_timer.
  - rewrite (cleanup_registered _ c (reconnectAttempts h))
      by (unfold on_subscribed; unfold_hook;
          destruct (reconnectTimeoutRef h); unfold_hook; assumption).
    unfold in_budget in Ca.
    destruct h as [fd sa cs ra rt cr ir hc chs op tm nt ts el dl al].
    unfold_hook. subst cr hc sa chs op.
    unfold on_closed, cleanup_head, effect, on_subscribed.
    cbn [seen_active seen_attempts registered]. unfold_hook.
    destruct (Z.ltb_spec ra maxReconnectAttempts) as [Lt|Ge].
    + destruct rt as [id|]; unfold_hook; cbn [negb andb]; unfold_hook;
        cbn [negb andb]; unfold_hook;
        splits; try reflexivity; try discriminate; try lia;
        try (intros _; splits; try reflexivity; unfold find_timer; unfold_hook;
             rewrite find_fresh; [reflexivity|]; forall_solve; assumption).
      intros id' [= <-]. unfold find_timer. unfold_hook.
      rewrite find_app_none; [reflexivity|apply find_cleared_timer|].
      cbn [find fst]. destruct (Nat.eqb_spec nt id); [lia|reflexivity].
    + destruct rt as [id|]; unfold_hook; cbn [negb andb]; unfold_hook;
        cbn [negb andb]; unfold_hook;
        (destruct (check_env env) eqn:Ce; unfold_hook;
         splits; try reflexivity; try discriminate; try lia;
         try (intros id' [= <-]; unfold find_timer; unfold_hook;
              rewrite ?find_cleared_timer; reflexivity);
         try (intros _ _; unfold find_channel, registered; unfold_hook;
              cbn [app find chan]; splits; try reflexivity;
              destruct (Nat.eqb_spec (S c) c) as [X|X]; [lia|reflexivity])).
Qed.

Lemma subscribed_resets_counter_witness :
  let env := Scenario.good_env in
  let h := run env [Insert 0; AlertCancel; Fire 1; Fire 2] in
  let h' := step env h (Status 1 SUBSCRIBED None) in
  reconnectAttempts h = 1 /\ reconnectAttempts h' = 0 /\
  channels h' = [] /\ isReconnectingRef h' = true /\
  find_timer 4 h' = Some (Reconnect 3000 2).
Proof.
  intros env h h'.
  assert (F : find_channel 1 h <> None) by (vm_compute; discriminate).
  assert (N : 0 < reconnectAttempts h < maxReconnectAttempts)
    by (vm_compute; split; reflexivity).
  pose proof (subscribed_resets_counter env
                [Insert 0; AlertCancel; Fire 1; Fire 2] 1 F)
    as (W1 & _ & _ & _ & W2 & _).
  destruct (W2 N) as (W3 & _ & _ & W4 & W5 & _).
  split; [reflexivity|]. split; [exact W1|]. split; [exact W3|].
  split; [exact W4|exact W5].
Defined.

(** *** Statuses that come with an error object *)

Lemma error_status_display env h e :
  with_error e = true -> same_but_display h (step env h e).
Proof.
  destruct e as [c|c status [m|]|id| |phone]; try discriminate. intros _.
  unfold step. cbn [handle].
  destruct (find_channel c h) as [k|].
  - rewrite rerender_same by reflexivity.
    unfold same_but_display, on_status. unfold_hook. splits; reflexivity.
  - rewrite rerender_same by reflexivity.
    unfold same_but_display. splits; reflexivity.
Qed.

(** X11.  A status that the realtime client passes together with an
    error object is only displayed: whatever the status ([CHANNEL_ERROR],
    [TIMED_OUT], [CLOSED] or even [SUBSCRIBED]) and whatever the state,
    such events change nothing but the status line and the toasts.  No
    reconnect is scheduled for them, the counter is neither advanced nor
    reset, and the channel stays registered.  The status line then shows
    the message of the last one that reached a registered channel. *)
Theorem error_object_is_only_displayed (env : Env) (errs : list Event) (h : Hook) :
  Forall (fun e => with_error e = true) errs ->
  same_but_display h (run_from env h errs) /\
  (forall c status m,
      find_channel c h <> None ->
      let h' := step env h (Status c status (Some m)) in
      connectionStatus h' = "에러: " ++ m /\
      toasts h' = (toasts h ++ [("연결 에러: " ++ m)%string])%list).
Proof.
  intros Fe. split.
  - revert h. induction Fe as [|e errs He _ IH]; intros h.
    + unfold same_but_display. simpl. splits; reflexivity.
    + change (run_from env h (e :: errs)) with (run_from env (step env h e) errs).
      pose proof (error_status_display env h e He) as S1.
      pose proof (IH (step env h e)) as S2.
      unfold same_but_display in *.
      destruct S1 as (A1 & A2 & A3 & A4 & A5 & A6 & A7 & A8 & A9 & A10 & A11
                      & A12 & A13 & A14).
      destruct S2 as (B1 & B2 & B3 & B4 & B5 & B6 & B7 & B8 & B9 & B10 & B11
                      & B12 & B13 & B14).
      splits; congruence.
  - intros c status m F h'.
    destruct (find_channel c h) as [k|] eqn:Fk; [|congruence].
    unfold h', step. cbn [handle]. rewrite Fk.
    rewrite rerender_same by reflexivity. unfold on_status. unfold_hook. auto.
Qed.

Lemma error_object_is_only_displayed_witness :
  let h := run Scenario.good_env [] in
  let errs := [Status 0 CHANNEL_ERROR (Some "socket closed");
               Status 0 TIMED_OUT (Some "timeout")] in
  timers (run_from Scenario.good_env h errs) = timers h /\
  reconnectAttempts (run_from Scenario.good_env h errs) = reconnectAttempts h /\
  connectionStatus (step Scenario.good_env h (Status 0 CHANNEL_ERROR (Some "socket closed")))
  = "에러: socket closed".
Proof.
  intros h errs.
  assert (Fe : Forall (fun e => with_error e = true) errs)
    by (repeat constructor).
  pose proof (error_object_is_only_displayed Scenario.good_env errs h Fe)
    as ((_ & _ & W1 & _ & _ & _ & _ & _ & _ & W2 & _) & W3).
  split; [exact W2|]. split; [exact W1|].
  assert (F : find_channel 0 h <> None) by (vm_compute; discriminate).
  exact (proj1 (W3 0%nat CHANNEL_ERROR "socket closed" F)).
Defined.

(** *** One reconnect *)

Lemma hook_eta (h : Hook) :
  h = {| isFallDetected := isFallDetected h;
         isSubscriptionActive := isSubscriptionActive h;
         connectionStatus := connectionStatus h;
         reconnectAttempts := reconnectAttempts h;
         reconnectTimeoutRef := reconnectTimeoutRef h;
         channelRef := channelRef h;
         isReconnectingRef := isReconnectingRef h;
         hasCleanup := hasCleanup h; channels := channels h;
         opened := opened h; timers := timers h; nextTimer := nextTimer h;
         toasts := toasts h; emergencyLog := emergencyLog h;
         dialled := dialled h; alerts := alerts h |}.
Proof. now destruct h. Qed.

(** Compute a state field by field. *)
Ltac hook_record :=
  etransitivity; [apply hook_eta|]; unfold_hook.

Lemma find_fresh_kept (n : nat) (cb : Timer) (ts : list (nat * Timer))
    (f : nat * Timer -> bool) :
  Forall (fun t => (fst t < n)%nat) ts -> f (n, cb) = true ->
  find (fun t => Nat.eqb (fst t) n) (filter f (ts ++ [(n, cb)])) = Some (n, cb).
Proof.
  intros Ft Fn. rewrite filter_app. cbn [filter]. rewrite Fn.
  apply find_fresh. now apply Forall_filter_keep.
Qed.

(** While a reconnect is marked as under way and no channel is
    registered, the effect returns at one of its first two guards. *)
Lemma waiting_effect env x :
  waiting x -> waiting (effect env x) /\ opened (effect env x) = opened x.
Proof.
  intros (I & R & C & K). unfold effect, waiting.
  destruct (negb (isSubscriptionActive x)); [|rewrite I]; unfold_hook; auto 10.
Qed.

Lemma waiting_step env x e :
  waiting x -> automatic e = true ->
  waiting (step env x e) /\ opened (step env x e) = opened x.
Proof.
  intros W Ae. pose proof W as (I & R & C & K).
  assert (Fc : forall c, find_channel c x = None)
    by (intros c; unfold find_channel; now rewrite K).
  assert (H : waiting (handle e x) /\ opened (handle e x) = opened x).
  { destruct e as [c|c status err|id| |phone]; try discriminate; cbn [handle];
      rewrite ?Fc; auto.
    destruct (find_timer id x) as [[d n|d]|]; auto;
      unfold fire, waiting; unfold_hook; auto 10. }
  destruct H as (Wh & Oh). unfold step, rerender.
  destruct (Bool.eqb _ _ && (_ =? _)); [auto|].
  destruct Wh as (I' & R' & C' & K'). rewrite C'.
  destruct (waiting_effect env (handle e x)) as (We & Oe);
    [unfold waiting; auto|].
  split; [exact We|congruence].
Qed.

Lemma waiting_run env es :
  forall x, waiting x -> Forall (fun e => automatic e = true) es ->
            waiting (run_from env x es) /\ opened (run_from env x es) = opened x.
Proof.
  induction es as [|e es IH]; intros x W A; [auto|].
  inversion A as [|? ? Ae Aes]; subst.
  destruct (waiting_step env x e W Ae) as (W1 & O1).
  destruct (IH (step env x e) W1 Aes) as (W2 & O2).
  split; [exact W2|]. simpl in *. congruence.
Qed.

(** X12.  A failed channel is not replaced.  In a reachable state the
    registered channel reports [CHANNEL_ERROR] or [TIMED_OUT] (without
    an error object) while the counter is below the budget and no
    reconnect is under way.  The failure schedules one timer with the
    backoff delay and leaves the channel and the counter alone.  When
    that timer fires the counter is advanced by one, the subscription is
    suspended, a one-second timer is set and the failed channel is
    removed; its [CLOSED] callback marks a reconnect as under way and
    schedules a three-second timer.  From then on the effect returns at
    its guard: whatever the transport reports and whichever timers fire,
    no channel is opened until one of the two handlers is called. *)
Theorem failed_channel_is_not_replaced (env : Env) (evs : list Event) (c : nat)
    (s : SubscribeStatus) :
  let h := run env evs in
  find_channel c h <> None -> is_error s = true ->
  reconnectAttempts h < maxReconnectAttempts -> isReconnectingRef h = false ->
  let n := reconnectAttempts h + 1 in
  let h1 := step env h (Status c s None) in
  let h2 := step env h1 (Fire (nextTimer h)) in
  (find_timer (nextTimer h) h1 = Some (Reconnect (reconnect_delay n) n) /\
   channels h1 = channels h /\ reconnectAttempts h1 = reconnectAttempts h /\
   isSubscriptionActive h1 = true /\ isReconnectingRef h1 = true) /\
  (reconnectAttempts h2 = n /\ isSubscriptionActive h2 = false /\
   channels h2 = [] /\ channelRef h2 = None /\ opened h2 = opened h /\
   isReconnectingRef h2 = true /\
   find_timer (nextTimer h) h2 = None /\
   find_timer (S (nextTimer h)) h2 = Some (Resume 1000) /\
   find_timer (S (S (nextTimer h))) h2 = Some (Reconnect 3000 n)) /\
  (forall es,
     Forall (fun e => automatic e = true) es ->
     let r := run_from env h2 es in
     channels r = [] /\ opened r = opened h /\ isReconnectingRef r = true).
Proof.
  intros h F Es B Ir n h1 h2.
  destruct (find_channel c h) as [k|] eqn:Fk; [clear F|congruence].
  destruct (registered_state env evs c k Fk) as (R & Hc & A & K & Ek & O).
  destruct (run_inv env evs) as (_ & (Ft & _) & _).
  fold h in R, Hc, A, K, Ek, O, Ft.
  assert (L : (reconnectAttempts h <? maxReconnectAttempts) = true)
    by now apply Z.ltb_lt.
  assert (N1 : (reconnectAttempts h =? n) = false) by (apply Z.eqb_neq; lia).
  clearbody h.
  destruct h as [fd sa cs ra rt cr ir hc chs op tm nt ts el dl al].
  unfold_hook. subst cr hc sa chs op ir k.
  set (T1 := (tm ++ [(nt, Reconnect (reconnect_delay n) n)])%list).
  assert (F1 : find (fun t => Nat.eqb (fst t) nt) T1
               = Some (nt, Reconnect (reconnect_delay n) n))
    by now apply find_fresh.
  assert (E1 : h1 =
    {| isFallDetected := fd; isSubscriptionActive := true;
       connectionStatus := connectionStatus h1; reconnectAttempts := ra;
       reconnectTimeoutRef := Some nt; channelRef := Some c;
       isReconnectingRef := true; hasCleanup := true;
       channels := [registered c ra]; opened := S c; timers := T1;
       nextTimer := S nt; toasts := toasts h1; emergencyLog := el;
       dialled := dl; alerts := al |}).
  { unfold h1, step. cbn [handle]. rewrite Fk.
    rewrite rerender_same.
    - unfold on_status. destruct s; try discriminate; unfold on_failure;
        cbn [seen_attempts registered]; unfold_hook; rewrite L;
        cbn [negb andb]; unfold_hook; reflexivity.
    - unfold on_status. destruct s; try discriminate; unfold on_failure;
        cbn [seen_attempts registered]; unfold_hook; rewrite L; reflexivity.
    - unfold on_status. destruct s; try discriminate; unfold on_failure;
        cbn [seen_attempts registered]; unfold_hook; rewrite L; reflexivity. }
  set (T2 := filter (fun t => negb (Nat.eqb (fst t) nt))
               (filter (fun t => negb (Nat.eqb (fst t) nt)) T1
                ++ [(S nt, Resume 1000)])%list).
  assert (E2 : h2 =
    {| isFallDetected := fd; isSubscriptionActive := false;
       connectionStatus := "구독 비활성화"; reconnectAttempts := n;
       reconnectTimeoutRef := Some (S (S nt)); channelRef := None;
       isReconnectingRef := true; hasCleanup := false;
       channels := []; opened := S c;
       timers := (T2 ++ [(S (S nt), Reconnect 3000 n)])%list;
       nextTimer := S (S (S nt)); toasts := toasts h1; emergencyLog := el;
       dialled := dl; alerts := al |}).
  { unfold h2, step. rewrite E1. cbn [handle]. unfold find_timer. unfold_hook.
    rewrite F1. cbn [option_map snd]. unfold rerender. unfold_hook.
    cbn [Bool.eqb andb].
    rewrite (cleanup_registered _ c ra) by reflexivity.
    unfold on_closed, cleanup_head, effect.
    cbn [seen_active seen_attempts registered]. unfold_hook. rewrite L.
    cbn [negb andb]. unfold_hook. cbn [negb]. hook_record. reflexivity. }
  assert (Ft1 : Forall (fun t => (fst t < S nt)%nat) T1).
  { unfold T1. apply Forall_app. split.
    - eapply Forall_impl; [|exact Ft]. simpl. intros; lia.
    - repeat constructor. }
  assert (Ft2 : Forall (fun t => (fst t < S (S nt))%nat) T2).
  { unfold T2. apply Forall_filter_keep. apply Forall_app. split.
    - apply Forall_filter_keep. eapply Forall_impl; [|exact Ft1].
      simpl. intros; lia.
    - repeat constructor. }
  assert (F2 : find (fun t => Nat.eqb (fst t) (S nt)) T2 = Some (S nt, Resume 1000)).
  { unfold T2. apply find_fresh_kept.
    - now apply Forall_filter_keep.
    - cbn [fst]. destruct (Nat.eqb_spec (S nt) nt); [lia|reflexivity]. }
  split; [|split].
  - rewrite E1. unfold find_timer. unfold_hook. rewrite F1. splits; reflexivity.
  - rewrite E2. unfold find_timer. unfold_hook.
    rewrite (find_app_some _ _ _ _ F2), (find_fresh _ _ _ Ft2).
    rewrite find_app_none;
      [splits; reflexivity | unfold T2; apply find_cleared_timer |].
    cbn [find fst]. destruct (Nat.eqb_spec (S (S nt)) nt); [lia|reflexivity].
  - intros es Aes.
    assert (W : waiting h2) by (rewrite E2; unfold waiting; unfold_hook; auto).
    destruct (waiting_run env es h2 W Aes) as ((I & _ & _ & K) & Or).
    rewrite K, I, Or, E2. auto.
Qed.

Lemma failed_channel_is_not_replaced_witness :
  let env := Scenario.good_env in
  let h1 := step env (run env []) (Status 0 TIMED_OUT None) in
  let h2 := step env h1 (Fire 1) in
  find_timer 1 h1 = Some (Reconnect 5000 1) /\
  reconnectAttempts h2 = 1 /\ find_timer 3 h2 = Some (Reconnect 3000 1) /\
  opened (run_from env h2 [Fire 2; Fire 3; Fire 4; Status 0 SUBSCRIBED None])
  = 1%nat.
Proof.
  intros env h1 h2.
  assert (F : find_channel 0 (run env []) <> None) by (vm_compute; discriminate).
  assert (B : reconnectAttempts (run env []) < maxReconnectAttempts) by reflexivity.
  assert (A : Forall (fun e => automatic e = true)
                [Fire 2; Fire 3; Fire 4; Status 0 SUBSCRIBED None])
    by (repeat constructor).
  pose proof (failed_channel_is_not_replaced env [] 0 TIMED_OUT F eq_refl B eq_refl)
    as ((W1 & _) & (W2 & _ & _ & _ & _ & _ & _ & _ & W3) & W4).
  split; [exact W1|]. split; [exact W2|]. split; [exact W3|].
  exact (proj1 (proj2 (W4 _ A))).
Defined.

End FallHookChannelsFacts.

(** ** The states of the alert modal *)

Module FallAlertModalFacts.

Import FallAlertUI FallAlertModal.
Import FallAlertUIFacts.

(** What the emergency handler of the hook leaves behind. *)
Lemma emergency_call_made env h phone :
  let e := FallHook.step env h (FallHook.EmergencyCall phone) in
  FallHook.isFallDetected e = false /\
  FallHook.emergencyLog e = (FallHook.emergencyLog h ++ [phone])%list /\
  FallHook.dialled e =
    if negb (String.eqb phone EmptyString)
    then (FallHook.dialled h ++ [("tel:" ++ phone)%string])%list
    else FallHook.dialled h.
Proof.
  intros e. destruct (hook_handlers env h phone) as (_ & _ & D & L & _).
  split; [exact D|]. split; [exact L|].
  unfold e, FallHook.step. cbn [FallHook.handle].
  destruct (FallHookFacts.rerender_dialled env h
              (FallHook.handleEmergencyCall phone h)) as (Dd & _).
  rewrite Dd. unfold FallHook.handleEmergencyCall.
  now destruct (negb (String.eqb phone EmptyString)).
Qed.

Lemma rest_rerender a :
  rest_inv a \/ FallHook.isFallDetected (hook a) = false /\ isVisible a = true ->
  rest_inv (rerender a).
Proof.
  unfold rerender. intros [R|(F & V)].
  - destruct (Bool.eqb _ _); [exact R|].
    destruct R as (P & C).
    destruct (FallHook.isFallDetected (hook a)); unfold rest_inv; unfold_ui;
      auto. unfold countdown_start. split; [reflexivity|lia].
  - rewrite F, V. cbn [Bool.eqb]. unfold rest_inv. unfold_ui.
    unfold countdown_start. split; [reflexivity|lia].
Qed.

Lemma rest_inv_step env phone a e :
  ui_inv phone a -> rest_inv a -> rest_inv (step env a e).
Proof.
  intros (V & (I & _) & G) (P & C).
  destruct e as [e| | | |dt]; cbn [step].
  - destruct (external e); [|now split].
    apply rest_rerender. left. now split.
  - unfold countdown_tick. destruct (interval a) eqn:Ia; [|now split].
    cbv zeta. unfold_ui.
    destruct (Z.leb_spec (countdown a) 1) as [Le|Gt].
    + apply rest_rerender. right. unfold handleEmergencyCall. unfold_ui.
      split; [|congruence].
      now destruct (emergency_call_made env (hook a) (guardianPhone a)).
    + unfold rest_inv. unfold_ui. split; [exact P|lia].
  - unfold click_emergency.
    destruct (FallHook.isFallDetected (hook a) && _) eqn:E; [|now split].
    apply andb_true_iff in E as [E _].
    apply rest_rerender. right. unfold handleEmergencyCall. unfold_ui.
    split; [|congruence].
    now destruct (emergency_call_made env (hook a) (guardianPhone a)).
  - unfold click_cancel.
    destruct (FallHook.isFallDetected (hook a) && _) eqn:E; [|now split].
    apply andb_true_iff in E as [E _].
    apply rest_rerender. right. unfold handleCancel. unfold_ui.
    split; [|congruence].
    now destruct (hook_handlers env (hook a) phone).
  - unfold elapse. destruct (_ && _); now split.
Qed.

Lemma rest_inv_run env phone evs : rest_inv (run env phone evs).
Proof.
  unfold run.
  assert (M : ui_inv phone (mount env phone) /\ rest_inv (mount env phone)).
  { split; [apply (ui_inv_run env phone [])|].
    unfold rest_inv, mount, countdown_start. unfold_ui. split; [reflexivity|lia]. }
  revert M. generalize (mount env phone).
  induction evs as [|e evs IH]; intros a (U & R); [exact R|].
  apply IH. split; [now apply ui_inv_step | now apply rest_inv_step with phone].
Qed.

(** X13.  In every reachable state of the page the countdown interval is
    set exactly while the alert is detected and shown; a hidden alert has
    its countdown back at 10; the countdown shown is always between 1
    and 10 (the 0 returned by the last tick is never displayed, the modal
    being hidden by then); and no call is left in progress, so the two
    buttons of a shown alert are enabled. *)
Theorem modal_follows_alert (env : FallHook.Env) (phone : string) (evs : list Event) :
  let a := run env phone evs in
  isVisible a = FallHook.isFallDetected (hook a) /\
  interval a = FallHook.isFallDetected (hook a) /\
  (FallHook.isFallDetected (hook a) = false -> countdown a = countdown_start) /\
  1 <= countdown a <= countdown_start /\
  isCallInProgress a = false /\ guardianPhone a = phone.
Proof.
  intros a. destruct (ui_inv_run env phone evs) as (V & (I & R) & G).
  destruct (rest_inv_run env phone evs) as (P & C). fold a in V, I, R, G, P, C.
  split; [exact V|]. split; [congruence|]. split; [|auto].
  intros F. apply R. congruence.
Qed.

Lemma modal_follows_alert_witness :
  let a := run Scenario.good_env "01012345678"
             [Transport (FallHook.Status 0 FallHook.SUBSCRIBED None);
              Transport (FallHook.Insert 0); CountdownTick; CountdownTick;
              ClickCancel] in
  interval a = false /\ countdown a = countdown_start.
Proof.
  intros a.
  assert (F : FallHook.isFallDetected (hook a) = false) by (vm_compute; reflexivity).
  pose proof (modal_follows_alert Scenario.good_env "01012345678"
                [Transport (FallHook.Status 0 FallHook.SUBSCRIBED None);
                 Transport (FallHook.Insert 0); CountdownTick; CountdownTick;
                 ClickCancel]) as (_ & W1 & W2 & _).
  split; [exact (eq_trans W1 F)|exact (W2 F)].
Defined.

(** X14.  An emergency call is made only from a shown alert, and only by
    the emergency button or by the tick that finds the countdown at 1.
    Every other event (transport events, timers, the cancel button,
    earlier ticks, clicks while no alert is shown) leaves the record of
    calls untouched.  When the call is made it is made once, for the
    stored guardian number (the [tel:] link is opened when the number is
    not empty), and the alert is hidden with its interval cleared and
    its countdown reset.  Pressing the emergency button of a shown alert
    always makes the call. *)
Theorem emergency_call_needs_alert (env : FallHook.Env) (phone : string)
    (evs : list Event) (e : Event) :
  let a := run env phone evs in
  let a' := step env a e in
  (calls a' = calls a \/
   (FallHook.isFallDetected (hook a) = true /\
    (e = ClickEmergency \/ e = CountdownTick /\ countdown a = 1) /\
    calls a' = called phone a /\
    FallHook.isFallDetected (hook a') = false /\
    interval a' = false /\ countdown a' = countdown_start)) /\
  (FallHook.isFallDetected (hook a) = true -> e = ClickEmergency ->
   calls a' = called phone a).
Proof.
  intros a a'.
  destruct (ui_inv_run env phone evs) as (V & (I & _) & G).
  destruct (rest_inv_run env phone evs) as (P & C). fold a in V, I, G, P, C.
  assert (Call : forall b, hook b = hook a -> guardianPhone b = phone ->
                           isVisible b = true ->
                 let z := rerender (handleEmergencyCall env b) in
                 calls z = called phone a /\
                 FallHook.isFallDetected (hook z) = false /\
                 interval z = false /\ countdown z = countdown_start).
  { intros b Hb Gb Vb z.
    destruct (emergency_call_made env (hook a) phone) as (D & L & T).
    assert (Hz : hook (handleEmergencyCall env b)
                 = FallHook.step env (hook a) (FallHook.EmergencyCall phone)).
    { unfold handleEmergencyCall. unfold_ui. now rewrite Hb, Gb. }
    destruct (rerender_hides (handleEmergencyCall env b)) as (Ri & Rc & _).
    { unfold handleEmergencyCall. unfold_ui. exact Vb. }
    { now rewrite Hz. }
    unfold calls, called, z. rewrite hook_rerender, Hz, L, T, D. auto. }
  assert (Tick : forall b, hook b = hook a -> guardianPhone b = phone ->
                           isVisible b = true ->
                 let z := rerender (setCountdown 0 (handleEmergencyCall env b)) in
                 calls z = called phone a /\
                 FallHook.isFallDetected (hook z) = false /\
                 interval z = false /\ countdown z = countdown_start).
  { intros b Hb Gb Vb z.
    destruct (emergency_call_made env (hook a) phone) as (D & L & T).
    assert (Hz : hook (setCountdown 0 (handleEmergencyCall env b))
                 = FallHook.step env (hook a) (FallHook.EmergencyCall phone)).
    { unfold handleEmergencyCall. unfold_ui. now rewrite Hb, Gb. }
    destruct (rerender_hides (setCountdown 0 (handleEmergencyCall env b)))
      as (Ri & Rc & _).
    { unfold handleEmergencyCall. unfold_ui. exact Vb. }
    { now rewrite Hz. }
    unfold calls, called, z. rewrite hook_rerender, Hz, L, T, D. auto. }
  split.
  - unfold a'. destruct e as [e| | | |dt]; cbn [step].
    + left. destruct (external e) eqn:X; [|reflexivity].
      unfold calls. rewrite hook_rerender. unfold_ui.
      destruct (external_makes_no_call env (hook a) e X) as (L & D).
      now rewrite L, D.
    + unfold countdown_tick. destruct (interval a) eqn:Ia; [|now left].
      cbv zeta. unfold_ui.
      destruct (Z.leb_spec (countdown a) 1) as [Le|Gt]; [|now left].
      right. split; [congruence|]. split; [right; split; [reflexivity|lia]|].
      apply Tick; auto; congruence.
    + unfold click_emergency.
      destruct (FallHook.isFallDetected (hook a) && _) eqn:E; [|now left].
      apply andb_true_iff in E as [E _].
      right. split; [exact E|]. split; [now left|].
      apply Call; auto; congruence.
    + left. unfold click_cancel.
      destruct (FallHook.isFallDetected (hook a) && _); [|reflexivity].
      unfold calls. rewrite hook_rerender. unfold handleCancel. unfold_ui.
      destruct (hook_handlers env (hook a) phone) as (_ & L & _).
      rewrite L. f_equal.
      unfold FallHook.step. cbn [FallHook.handle].
      destruct (FallHookFacts.rerender_dialled env (hook a)
                  (FallHook.handleAlertCancel (hook a))) as (D & _).
      rewrite D. reflexivity.
    + left. unfold elapse. now destruct (_ && _).
  - intros F ->. unfold a'. cbn [step]. unfold click_emergency.
    rewrite F, P. cbn [andb negb]. apply Call; auto; congruence.
Qed.

Lemma emergency_call_needs_alert_witness :
  let env := Scenario.good_env in
  let a := run env "01012345678"
             [Transport (FallHook.Status 0 FallHook.SUBSCRIBED None);
              Transport (FallHook.Insert 0)] in
  calls (step env a ClickEmergency) = (["01012345678"], ["tel:01012345678"]).
Proof.
  intros env a.
  assert (F : FallHook.isFallDetected (hook a) = true) by (vm_compute; reflexivity).
  pose proof (emergency_call_needs_alert env "01012345678"
                [Transport (FallHook.Status 0 FallHook.SUBSCRIBED None);
                 Transport (FallHook.Insert 0)] ClickEmergency) as (_ & W).
  etransitivity; [exact (W F eq_refl)|]. vm_compute. reflexivity.
Defined.

End FallAlertModalFacts.

(** ** The guardian's number and the profile form *)

Module AppFacts.

Import App.

(** X15.  [getGuardianPhone] never throws and never returns a falsy
    value other than the empty string: when nothing is stored, when the
    stored text is not valid JSON, when it parses to [null], or when the
    parsed value has no (or a falsy) [guardianPhone], the result is the
    empty string; otherwise it is the stored [guardianPhone] itself.  So
    the test [if (guardianPhone)] of the emergency handler is a test for
    a stored number. *)
Theorem getGuardianPhone_defaults_to_empty (parse : string -> option Js.value)
    (item : option string) :
  let v := getGuardianPhone parse item in
  (Js.truthy v = true \/ v = Js.Str EmptyString) /\
  (parse (stored_text item) = None -> v = Js.Str EmptyString) /\
  (forall userInfo,
      parse (stored_text item) = Some userInfo ->
      let phone := Js.opt_get userInfo "guardianPhone" in
      v = if Js.truthy phone then phone else Js.Str EmptyString) /\
  (item = None \/ item = Some EmptyString -> v = getGuardianPhone parse (Some "{}")).
Proof.
  intros v. unfold v, getGuardianPhone. split; [|split; [|split]].
  - destruct (parse _) as [u|]; [|now right].
    destruct u; try (now right); unfold Js.or;
      match goal with
      | |- context [Js.truthy (Js.get ?x ?k)] =>
          destruct (Js.truthy (Js.get x k)) eqn:T; auto
      end.
  - now intros ->.
  - intros u ->. now destruct u.
  - now intros [->| ->].
Qed.

Lemma getGuardianPhone_defaults_to_empty_witness :
  let parse := fun text : string =>
    if String.eqb text "{}" then Some (Js.Obj [])
    else if String.eqb text "null" then Some Js.Null
    else None in
  getGuardianPhone parse None = Js.Str EmptyString /\
  getGuardianPhone parse (Some "null") = Js.Str EmptyString /\
  getGuardianPhone parse (Some "{oops") = Js.Str EmptyString.
Proof.
  intros parse.
  split; [|split].
  - exact (proj1 (proj2 (proj2 (getGuardianPhone_defaults_to_empty parse None)))
             (Js.Obj []) eq_refl).
  - exact (proj1 (proj2 (proj2 (getGuardianPhone_defaults_to_empty parse (Some "null"))))
             Js.Null eq_refl).
  - exact (proj1 (proj2 (getGuardianPhone_defaults_to_empty parse (Some "{oops")))
             eq_refl).
Defined.

(** X17.  The emergency button of the main page and the emergency call
    of the fall alert read the stored number in the same way: for every
    content of the storage, the main page opens a [tel:] link exactly
    when [getGuardianPhone] returns a truthy value, and the link is
    [tel:] followed by that value.  When the stored number is a string,
    the handler of the hook, called with it, opens the same link as the
    main page, or none where the main page shows an alert. *)
Theorem main_page_dials_like_alert (parse : string -> option Js.value)
    (item : option string) :
  let v := getGuardianPhone parse item in
  (forall href,
      MainPage.handleEmergencyCall parse item = MainPage.Dial href <->
      Js.truthy v = true /\ href = "tel:" ++ Js.to_string v) /\
  (forall s h,
      v = Js.Str s ->
      FallHook.dialled (FallHook.handleEmergencyCall s h)
      = (FallHook.dialled h
         ++ MainPage.links (MainPage.handleEmergencyCall parse item))%list).
Proof.
  intros v. unfold v, getGuardianPhone, MainPage.handleEmergencyCall.
  assert (K : forall s h,
             FallHook.dialled (FallHook.handleEmergencyCall s h)
             = (FallHook.dialled h
                ++ (if Js.truthy (Js.Str s) then [("tel:" ++ s)%string] else []))%list).
  { intros s h. unfold FallHook.handleEmergencyCall. simpl.
    destruct (String.eqb s EmptyString); simpl; [now rewrite app_nil_r|reflexivity]. }
  destruct (parse (stored_text item)) as [u|].
  2:{ split.
      - intros href. split; [discriminate|]. intros [X _]. discriminate X.
      - intros s h [= <-]. rewrite K. reflexivity. }
  assert (G : forall w,
    (forall href,
        (if Js.truthy w then MainPage.Dial ("tel:" ++ Js.to_string w)
         else MainPage.Warn MainPage.msg_not_set) = MainPage.Dial href <->
        Js.truthy (Js.or w (Js.Str EmptyString)) = true /\
        href = "tel:" ++ Js.to_string (Js.or w (Js.Str EmptyString))) /\
    (forall s h,
        Js.or w (Js.Str EmptyString) = Js.Str s ->
        FallHook.dialled (FallHook.handleEmergencyCall s h)
        = (FallHook.dialled h
           ++ MainPage.links
                (if Js.truthy w then MainPage.Dial ("tel:" ++ Js.to_string w)
                 else MainPage.Warn MainPage.msg_not_set))%list)).
  { intros w. unfold Js.or. destruct (Js.truthy w) eqn:T.
    - split.
      + intros href. rewrite T. split; [intros [= <-]; auto|].
        intros [_ ->]. reflexivity.
      + intros s h ->. rewrite K, T. reflexivity.
    - split.
      + intros href. split; [discriminate|]. intros [X _]. discriminate X.
      + intros s h [= <-]. rewrite K. reflexivity. }
  destruct u; try apply G.
  - split.
    + intros href. split; [discriminate|]. intros [X _]. discriminate X.
    + intros s h [= <-]. rewrite K. reflexivity.
  - split.
    + intros href. split; [discriminate|]. intros [X _]. discriminate X.
    + intros s h [= <-]. rewrite K. reflexivity.
Qed.

Lemma main_page_dials_like_alert_witness :
  let parse := fun text : string =>
    if String.eqb text "{}" then Some (Js.Obj [])
    else Some (Js.Obj [("name", Js.Str "Kim");
                       ("guardianPhone", Js.Str "010-1234-5678")]) in
  MainPage.handleEmergencyCall parse (Some "stored") = MainPage.Dial "tel:010-1234-5678" /\
  FallHook.dialled (FallHook.handleEmergencyCall "010-1234-5678" FallHook.initial)
  = ["tel:010-1234-5678"] /\
  FallHook.dialled (FallHook.handleEmergencyCall EmptyString FallHook.initial) = [].
Proof.
  intros parse.
  pose proof (main_page_dials_like_alert parse (Some "stored")) as (W1 & W2).
  pose proof (main_page_dials_like_alert parse None) as (_ & W3).
  split; [|split].
  - apply W1. split; reflexivity.
  - exact (W2 "010-1234-5678" FallHook.initial eq_refl).
  - exact (W3 EmptyString FallHook.initial eq_refl).
Defined.

End AppFacts.

Module LoginPageFacts.

Import LoginPage.

Lemma trimStart_head s c rest : trimStart s = c :: rest -> is_space c = false.
Proof.
  induction s as [|x s IH]; simpl; [discriminate|].
  destruct (is_space x) eqn:E; [exact IH|]. now intros [= <- _].
Qed.

Lemma trimStart_nil s : trimStart s = [] <-> forallb is_space s = true.
Proof.
  induction s as [|x s IH]; simpl; [tauto|].
  destruct (is_space x); simpl; [exact IH|]. split; discriminate.
Qed.

Lemma blank_spec s : blank s = true <-> forallb is_space s = true.
Proof.
  unfold blank, trim. split.
  - intros B. apply trimStart_nil.
    destruct (trimStart s) as [|c rest] eqn:T; [reflexivity|exfalso].
    pose proof (trimStart_head _ _ _ T) as Hc.
    destruct (trimStart (rev (c :: rest))) as [|d more] eqn:R.
    + apply trimStart_nil in R. rewrite forallb_forall in R.
      rewrite (R c) in Hc; [discriminate|]. apply in_rev. rewrite rev_involutive.
      now left.
    + simpl in B. destruct (rev more ++ [d])%list eqn:X; [|discriminate].
      now destruct (rev more).
  - intros F. apply trimStart_nil in F. now rewrite F.
Qed.

Lemma not_blank_spec s :
  blank s = false <-> exists c, In c s /\ is_space c = false.
Proof.
  split.
  - intros B. induction s as [|x s IH]; [discriminate|].
    destruct (is_space x) eqn:E; [|exists x; simpl; auto].
    destruct IH as (c & I & Hc).
    + destruct (blank s) eqn:Bs; [|reflexivity].
      apply blank_spec in Bs.
      assert (blank (x :: s) = true) by (apply blank_spec; simpl; now rewrite E).
      congruence.
    + exists c. simpl. auto.
  - intros (c & I & Hc). destruct (blank s) eqn:B; [|reflexivity].
    apply blank_spec in B. rewrite forallb_forall in B. rewrite (B c I) in Hc.
    discriminate.
Qed.

Lemma dial_char_spec c :
  dial_char c = true <-> phone_char c = true /\ is_space c = false.
Proof.
  unfold dial_char, phone_char.
  destruct (is_space c) eqn:S.
  - split; [|intros [_ X]; discriminate].
    intros D. exfalso. revert S. unfold is_space.
    repeat match goal with
           | H : (_ || _) = true |- _ => apply orb_true_iff in H; destruct H as [H|H]
           | H : (_ && _) = true |- _ => apply andb_true_iff in H; destruct H
           | H : (_ <=? _)%N = true |- _ => apply N.leb_le in H
           | H : (_ =? _)%N = true |- _ => apply N.eqb_eq in H
           end;
      intros X;
      repeat match goal with
             | H : (_ || _) = true |- _ => apply orb_true_iff in H; destruct H as [H|H]
             | H : (_ && _) = true |- _ => apply andb_true_iff in H; destruct H
             | H : (_ <=? _)%N = true |- _ => apply N.leb_le in H
             | H : (_ =? _)%N = true |- _ => apply N.eqb_eq in H
             end; lia.
  - rewrite !orb_false_r.
    destruct ((48 <=? c)%N && (c <=? 57)%N), (c =? 45)%N, (c =? 43)%N, (c =? 40)%N,
             (c =? 41)%N; simpl; intuition congruence.
Qed.

Lemma phone_chars_spec (p : text) :
  forallb phone_char (without_spaces p) = true <->
  (forall c, In c p -> is_space c = true \/ dial_char c = true).
Proof.
  unfold without_spaces. rewrite forallb_forall. split.
  - intros F c I. destruct (is_space c) eqn:S; [now left|right].
    apply dial_char_spec. split; [|exact S].
    apply F. apply filter_In. now rewrite S.
  - intros F c I. apply filter_In in I as [I S]. apply negb_true_iff in S.
    destruct (F c I) as [X|X]; [congruence|]. now apply dial_char_spec in X.
Qed.

Lemma phoneRegex_spec (p : text) :
  phoneRegex_test (without_spaces p) = true <->
  (forall c, In c p -> is_space c = true \/ dial_char c = true) /\
  (10 <= List.length (without_spaces p) <= 15)%nat.
Proof.
  unfold phoneRegex_test. rewrite !andb_true_iff, phone_chars_spec.
  rewrite !Nat.leb_le. tauto.
Qed.

Lemma height_spec h :
  height_rejected h = false <-> exists n, h = Cm n /\ 100 <= n <= 250.
Proof.
  destruct h as [|n|]; simpl.
  - split; [discriminate|]. now intros (n & E & _).
  - rewrite !orb_false_iff, Z.eqb_neq, !Z.ltb_ge. split.
    + intros ((_ & A) & B). exists n. split; [reflexivity|lia].
    + intros (m & [= <-] & A). lia.
  - split; [discriminate|]. now intros (n & E & _).
Qed.

Lemma blank_without_spaces (p : text) : blank p = true -> without_spaces p = [].
Proof.
  intros B. apply blank_spec in B. unfold without_spaces.
  induction p as [|c p IH]; [reflexivity|]. simpl in B.
  apply andb_true_iff in B as [Bc Bp]. simpl. rewrite Bc. simpl. now apply IH.
Qed.

(** What the two checks of the number amount to. *)
Lemma phone_checks (p : text) :
  blank p = false /\ phoneRegex_test (without_spaces p) = true <->
  (forall c, In c p -> is_space c = true \/ dial_char c = true) /\
  (10 <= List.length (without_spaces p) <= 15)%nat.
Proof.
  rewrite phoneRegex_spec. split; [tauto|]. intros (P1 & P2). split; [|auto].
  destruct (blank p) eqn:B; [|reflexivity].
  rewrite (blank_without_spaces p B) in P2. simpl in P2. lia.
Qed.

(** X16.  The profile form is saved exactly when it is acceptable: the
    name has a character that is not white space, the height is an
    integer from 100 to 250, a gender has been chosen, and the guardian
    number consists of digits, [+], [-], [(], [)] and white space only,
    with 10 to 15 characters that are not white space.  What is saved is
    the form as typed (the number keeps its white space), together with
    the user id [user_<Date.now()>]; in every other case exactly one
    alert is shown and nothing is saved. *)
Theorem profile_saved_iff_acceptable (now : Z) (u : UserInfo) :
  match handleUserInfoSubmit now u with
  | Saved userInfo userId =>
      userInfo = u /\ userId = "user_" ++ Js.of_Z now /\ acceptable u
  | Alert _ => ~ acceptable u
  end.
Proof.
  unfold handleUserInfoSubmit, acceptable.
  destruct (blank (name u)) eqn:Bn.
  { intros (N & _). apply not_blank_spec in N. congruence. }
  destruct (height_rejected (height u)) eqn:Hh.
  { intros (_ & H & _). apply height_spec in H. congruence. }
  apply not_blank_spec in Bn. apply height_spec in Hh.
  pose proof (phone_checks (guardianPhone u)) as P.
  destruct (gender u) eqn:G.
  { intros (_ & _ & X & _). now apply X. }
  all: destruct (blank (guardianPhone u)) eqn:Bp;
    [intros (_ & _ & _ & Q); apply P in Q; destruct Q as [Q _]; discriminate Q|];
    destruct (phoneRegex_test (without_spaces (guardianPhone u))) eqn:T; cbn [negb];
    [|intros (_ & _ & _ & Q); apply P in Q; destruct Q as [_ Q]; discriminate Q];
    destruct (proj1 P (conj eq_refl eq_refl)) as (P1 & P2);
    repeat split; auto; try discriminate; lia.
Qed.

Lemma profile_saved_iff_acceptable_witness :
  let form := {| name := units "Kim"; height := Cm 165; gender := Female;
                 guardianPhone := units "010 1234 5678" |} in
  handleUserInfoSubmit 1700000000000 form = Saved form "user_1700000000000" /\
  acceptable form /\
  ~ acceptable {| name := units "Kim"; height := Cm 165; gender := Female;
                  guardianPhone := units "12345" |}.
Proof.
  intros form.
  pose proof (profile_saved_iff_acceptable 1700000000000 form) as W.
  pose proof (profile_saved_iff_acceptable 1700000000000
                {| name := units "Kim"; height := Cm 165; gender := Female;
                   guardianPhone := units "12345" |}) as V.
  split; [reflexivity|]. split; [exact (proj2 (proj2 W))|exact V].
Defined.

End LoginPageFacts.
